(** * Profile reconciliation pipeline of autotune-app: a shallow embedding

    The development follows the layout of the Python sources:

    - [app/models/autotune.py] and [app/models/nightscout.py]: the pydantic
      models, as records with their [Field] constraints as boolean
      validity predicates;
    - [app/services/autotune_service.py]: [apply_recommendations], over an
      explicit object store, because the function copies a profile and
      then writes attributes of the copy in place;
    - [app/services/nightscout_service.py]: [get_historical_data] and
      [sync_profile];
    - [app/clients/autotune_client.py]: [run_autotune];
    - [app/clients/nightscout_client.py]: [_get_profiles] and
      [update_profile].

    Python exceptions are values of [exn]; a call that may raise returns a
    [result]. *)

From Stdlib Require Import ZArith QArith String Ascii.
From stdpp Require Import gmap strings list pretty.

Local Open Scope Z_scope.
Set Warnings "-register-all".


(** ** Exceptions and results *)

(** The exception classes the modelled code can raise.  [Stuck] is not a
    Python exception: it marks a store that no Python program can build (a
    dangling reference, or an attribute read on an object of the wrong
    class). *)
Inductive exn : Type :=
  | IndexError
  | ValueError (msg : string)
  | ValidationError (fields : list string)
  | TypeError (msg : string)
  | NameError (name : string)
  | AttributeError (name : string)
  | KeyError (key : string)
  | OverflowError
  | HTTPError (status : Z)
  | ConnectionError
  | JSONDecodeError
  | OSError
  | CalledProcessError (returncode : Z) (stdout stderr : string)
  | Stuck.

Inductive result (A : Type) : Type :=
  | Ok (a : A)
  | Raise (e : exn).
Arguments Ok {A} a.
Arguments Raise {A} e.

Global Instance result_ret : MRet result := fun A a => Ok a.
Global Instance result_bind : MBind result := fun A B f r =>
  match r with
  | Ok a => f a
  | Raise e => Raise e
  end.

Definition is_ok {A} (r : result A) : bool :=
  match r with Ok _ => true | Raise _ => false end.

(** ** Effects that survive an exception

    The object store, the log, the file system and the remote server keep
    what was done to them before an exception was raised: a computation
    returns its result together with the state. *)
Definition SE (S A : Type) : Type := S -> result A * S.

Global Instance SE_ret {S} : MRet (SE S) := fun A a s => (Ok a, s).
Global Instance SE_bind {S} : MBind (SE S) := fun A B f m s =>
  match m s with
  | (Ok a, s') => f a s'
  | (Raise e, s') => (Raise e, s')
  end.

Definition liftSE {S A} (r : result A) : SE S A := fun s => (r, s).
Definition raiseSE {S A} (e : exn) : SE S A := fun s => (Raise e, s).

(** ** Python strings and numbers *)

Module Py.

(** [s.split(sep)] for a one-character separator: never empty. *)
Fixpoint split (sep : ascii) (s : string) : list string :=
  match s with
  | EmptyString => [EmptyString]
  | String c s' =>
      if Ascii.eqb c sep then EmptyString :: split sep s'
      else match split sep s' with
           | [] => [String c EmptyString]
           | p :: ps => String c p :: ps
           end
  end.

(** [xs[i]] for a non-negative index. *)
Definition index {A} (xs : list A) (i : nat) : result A :=
  match xs !! i with
  | Some x => Ok x
  | None => Raise IndexError
  end.

Definition is_digit (c : ascii) : bool :=
  let n := nat_of_ascii c in (48 <=? n)%nat && (n <=? 57)%nat.

Definition digit_val (c : ascii) : Z := Z.of_nat (nat_of_ascii c - 48).

(** Characters are code points below 256; these are the ones [int] strips
    as white space. *)
Definition is_space (c : ascii) : bool :=
  let n := nat_of_ascii c in
  ((9 <=? n)%nat && (n <=? 13)%nat) || ((28 <=? n)%nat && (n <=? 32)%nat)
  || (n =? 133)%nat || (n =? 160)%nat.

Fixpoint lstrip (cs : list ascii) : list ascii :=
  match cs with
  | c :: cs' => if is_space c then lstrip cs' else cs
  | [] => []
  end.

Definition strip (cs : list ascii) : list ascii :=
  rev (lstrip (rev (lstrip cs))).

(** Decimal digits with single underscores between digits. *)
Fixpoint parse_digits (acc : Z) (after_digit : bool) (cs : list ascii) : option Z :=
  match cs with
  | [] => if after_digit then Some acc else None
  | c :: cs' =>
      if is_digit c then parse_digits (10 * acc + digit_val c) true cs'
      else if Ascii.eqb c "_" && after_digit then parse_digits acc false cs'
      else None
  end.

(** The default limit of [sys.set_int_max_str_digits]. *)
Definition int_max_str_digits : nat := 4300.

Definition invalid_literal : exn := ValueError "invalid literal for int() with base 10".

(** [int(s)] for a string [s]. *)
Definition int (s : string) : result Z :=
  let cs := strip (list_ascii_of_string s) in
  let '(neg, ds) :=
    match cs with
    | c :: r => if Ascii.eqb c "-" then (true, r)
                else if Ascii.eqb c "+" then (false, r) else (false, cs)
    | [] => (false, cs)
    end in
  if (int_max_str_digits <? length (filter (fun c => is_digit c = true) ds))%nat
  then Raise (ValueError "Exceeds the limit (4300 digits) for integer string conversion")
  else match parse_digits 0 false ds with
       | Some n => Ok (if neg then - n else n)
       | None => Raise invalid_literal
       end.

(** Python floats, as far as the code looks at them: it stores them,
    compares them with zero (the [gt]/[ge] constraints) and tests their
    truth value. No arithmetic is done on them, so a finite float is its
    exact rational value. *)
Inductive float : Type :=
  | Finite (q : Q)
  | Infinity (negative : bool)
  | NaN.

(** [bool(x)]: every float but zero is true. *)
Definition float_truthy (x : float) : bool :=
  match x with
  | Finite q => negb (Qnum q =? 0)%Z
  | _ => true
  end.

(** [x > 0] and [x >= 0]; both are false on NaN. *)
Definition float_gt0 (x : float) : bool :=
  match x with
  | Finite q => (0 <? Qnum q)%Z
  | Infinity neg => negb neg
  | NaN => false
  end.

Definition float_ge0 (x : float) : bool :=
  match x with
  | Finite q => (0 <=? Qnum q)%Z
  | Infinity neg => negb neg
  | NaN => false
  end.

End Py.

(** The format the models document for autotune's start times. *)
Definition is_hhmmss (s : string) : bool :=
  match s with
  | String h1 (String h2 (String c1 (String m1 (String m2 (String c2
      (String s1 (String s2 EmptyString))))))) =>
      Py.is_digit h1 && Py.is_digit h2 && Ascii.eqb c1 ":"
      && Py.is_digit m1 && Py.is_digit m2 && Ascii.eqb c2 ":"
      && Py.is_digit s1 && Py.is_digit s2
  | _ => false
  end.

(** The number a string of decimal digits denotes. *)
Definition decimal (s : string) : Z :=
  fold_left (fun acc c => 10 * acc + Py.digit_val c) (list_ascii_of_string s) 0.

(** ** app/models/autotune.py *)

Module AutotuneBasalEntry.
Record t : Type := mk { start : string; minutes : Z; rate : Py.float }.
(** [minutes: ge=0], [rate: ge=0]. *)
Definition valid (e : t) : bool := (0 <=? minutes e)%Z && Py.float_ge0 (rate e).
End AutotuneBasalEntry.

Module AutotuneResult.
Record t : Type := mk {
  basalprofile : list AutotuneBasalEntry.t;
  carb_ratio : Py.float;
  sens : Py.float;
  dia : option Py.float
}.
(** [carb_ratio: gt=0], [sens: gt=0], [dia: float | None, gt=0]. *)
Definition valid (r : t) : bool :=
  forallb AutotuneBasalEntry.valid (basalprofile r)
  && Py.float_gt0 (carb_ratio r) && Py.float_gt0 (sens r)
  && match dia r with Some d => Py.float_gt0 d | None => true end.
End AutotuneResult.

Module AutotuneRecommendations.
Record t : Type := mk {
  result : AutotuneResult.t;
  profile_name : string;
  analysis_date : string;
  days_analyzed : Z
}.
(** [days_analyzed: ge=1]. *)
Definition valid (r : t) : bool :=
  AutotuneResult.valid (result r) && (1 <=? days_analyzed r)%Z.
End AutotuneRecommendations.

(** ** app/models/nightscout.py *)

Module BasalScheduleEntry.
Record t : Type := mk { time : string; value : Py.float; timeAsSeconds : Z }.
(** [value: ge=0], [timeAsSeconds: ge=0]. *)
Definition valid (e : t) : bool := Py.float_ge0 (value e) && (0 <=? timeAsSeconds e)%Z.
Definition with_value (v : Py.float) (e : t) : t := mk (time e) v (timeAsSeconds e).
(** The constructor call [BasalScheduleEntry(time=.., value=.., timeAsSeconds=..)]
    with arguments of the declared types. *)
Definition new (time : string) (value : Py.float) (timeAsSeconds : Z) : result t :=
  let e := mk time value timeAsSeconds in
  if valid e then Ok e
  else Raise (ValidationError
                ((if Py.float_ge0 value then [] else ["value"])
                 ++ (if (0 <=? timeAsSeconds)%Z then [] else ["timeAsSeconds"]))).
End BasalScheduleEntry.

Module CarbRatioEntry.
Record t : Type := mk { time : string; value : Py.float; timeAsSeconds : Z }.
(** [value: gt=0], [timeAsSeconds: ge=0]. *)
Definition valid (e : t) : bool := Py.float_gt0 (value e) && (0 <=? timeAsSeconds e)%Z.
Definition with_value (v : Py.float) (e : t) : t := mk (time e) v (timeAsSeconds e).
End CarbRatioEntry.

Module SensitivityEntry.
Record t : Type := mk { time : string; value : Py.float; timeAsSeconds : Z }.
(** [value: gt=0], [timeAsSeconds: ge=0]. *)
Definition valid (e : t) : bool := Py.float_gt0 (value e) && (0 <=? timeAsSeconds e)%Z.
Definition with_value (v : Py.float) (e : t) : t := mk (time e) v (timeAsSeconds e).
End SensitivityEntry.

Module TargetEntry.
Record t : Type := mk {
  time : string; value : Py.float; low : Py.float; high : Py.float;
  timeAsSeconds : Z
}.
Definition valid (e : t) : bool :=
  Py.float_gt0 (value e) && Py.float_gt0 (low e) && Py.float_gt0 (high e)
  && (0 <=? timeAsSeconds e)%Z.
Definition with_value (v : Py.float) (e : t) : t :=
  mk (time e) v (low e) (high e) (timeAsSeconds e).
End TargetEntry.

(** A [ProfileStore] as plain data: what [model_dump] returns, and what
    the fields of an instance read as. *)
Module ProfileStore.
Record t : Type := mk {
  dia : Py.float;
  carbratio : list CarbRatioEntry.t;
  sens : list SensitivityEntry.t;
  basal : list BasalScheduleEntry.t;
  target_low : list TargetEntry.t;
  target_high : list TargetEntry.t;
  timezone : string;
  units : string
}.
Definition valid (p : t) : bool :=
  Py.float_gt0 (dia p)
  && forallb CarbRatioEntry.valid (carbratio p)
  && forallb SensitivityEntry.valid (sens p)
  && forallb BasalScheduleEntry.valid (basal p)
  && forallb TargetEntry.valid (target_low p)
  && forallb TargetEntry.valid (target_high p).
End ProfileStore.

(** ** The object store

    Model instances and lists are mutable Python objects: a name holds a
    reference, and two references may be to one object.  The store is an
    arena: a reference is an index, a new object goes at the end. *)

Abbreviation loc := nat (only parsing).

(** The [__dict__] of a [ProfileStore] instance: the schedules are
    references to list objects. *)
Module ProfileStoreObj.
Record t : Type := mk {
  dia : Py.float;
  carbratio : loc;
  sens : loc;
  basal : loc;
  target_low : loc;
  target_high : loc;
  timezone : string;
  units : string
}.
Definition set_basal (l : loc) (o : t) : t :=
  mk (dia o) (carbratio o) (sens o) l (target_low o) (target_high o)
     (timezone o) (units o).
Definition set_dia (d : Py.float) (o : t) : t :=
  mk d (carbratio o) (sens o) (basal o) (target_low o) (target_high o)
     (timezone o) (units o).
End ProfileStoreObj.

Inductive obj : Type :=
  | OBasal (e : BasalScheduleEntry.t)
  | OCarbRatio (e : CarbRatioEntry.t)
  | OSens (e : SensitivityEntry.t)
  | OTarget (e : TargetEntry.t)
  | OList (items : list loc)
  | OProfile (p : ProfileStoreObj.t).

Abbreviation heap := (list obj) (only parsing).

(** Computations on the store that may raise. *)
Abbreviation M := (SE heap) (only parsing).

Definition alloc (o : obj) : M loc := fun h => (Ok (length h), h ++ [o]).
Definition load (l : loc) : M obj := fun h =>
  match h !! l with
  | Some o => (Ok o, h)
  | None => (Raise Stuck, h)
  end.
Definition store (l : loc) (o : obj) : M unit := fun h => (Ok tt, <[l:=o]> h).

(** [for x in xs: body(x)] over an already evaluated sequence. *)
Fixpoint for_each {A} (body : A -> M unit) (xs : list A) : M unit :=
  match xs with
  | [] => mret tt
  | x :: xs' => body x ;; for_each body xs'
  end.

Definition is_entry (o : obj) : bool :=
  match o with
  | OBasal _ | OCarbRatio _ | OSens _ | OTarget _ => true
  | OList _ | OProfile _ => false
  end.

Definition with_value (v : Py.float) (o : obj) : obj :=
  match o with
  | OBasal e => OBasal (BasalScheduleEntry.with_value v e)
  | OCarbRatio e => OCarbRatio (CarbRatioEntry.with_value v e)
  | OSens e => OSens (SensitivityEntry.with_value v e)
  | OTarget e => OTarget (TargetEntry.with_value v e)
  | OList _ | OProfile _ => o
  end.

(** [entry.value = v].  The models do not validate on assignment. *)
Definition set_value (v : Py.float) (entry : loc) : M unit :=
  o ← load entry;
  if is_entry o then store entry (with_value v o)
  else raiseSE (AttributeError "value").

(** Reading the list an attribute refers to, and a profile's dict. *)
Definition list_items (l : loc) : M (list loc) :=
  o ← load l;
  match o with
  | OList items => mret items
  | _ => raiseSE Stuck
  end.

Definition profile_dict (p : loc) : M ProfileStoreObj.t :=
  o ← load p;
  match o with
  | OProfile d => mret d
  | _ => raiseSE Stuck
  end.

(** [xs.append(x)]. *)
Definition list_append (xs : loc) (x : loc) : M unit :=
  items ← list_items xs;
  store xs (OList (items ++ [x])).

(** *** [copy.deepcopy] on a profile

    [model_copy(deep=True)] deep-copies the instance's [__dict__] with one
    memo for the whole copy: an object met twice is copied once, so the
    copy has the sharing of the original.  Strings and numbers are
    immutable and are not copied.  Identities are not observable, so the
    order in which the new objects are allocated is immaterial. *)

Abbreviation memo := (gmap loc loc) (only parsing).

Definition deepcopy_entry (x : loc) (m : memo) : M (loc * memo) :=
  match m !! x with
  | Some y => mret (y, m)
  | None =>
      o ← load x;
      if is_entry o then y ← alloc o; mret (y, <[x:=y]> m)
      else raiseSE Stuck
  end.

Fixpoint deepcopy_items (items : list loc) (m : memo) : M (list loc * memo) :=
  match items with
  | [] => mret ([], m)
  | a :: rest =>
      '(a', m1) ← deepcopy_entry a m;
      '(rest', m2) ← deepcopy_items rest m1;
      mret (a' :: rest', m2)
  end.

Definition deepcopy_list (x : loc) (m : memo) : M (loc * memo) :=
  match m !! x with
  | Some y => mret (y, m)
  | None =>
      items ← list_items x;
      '(items', m1) ← deepcopy_items items m;
      y ← alloc (OList items');
      mret (y, <[x:=y]> m1)
  end.

(** [profile.model_copy(deep=True)]. *)
Definition model_copy_deep (profile : loc) : M loc :=
  d ← profile_dict profile;
  '(cr, m1) ← deepcopy_list (ProfileStoreObj.carbratio d) ∅;
  '(se, m2) ← deepcopy_list (ProfileStoreObj.sens d) m1;
  '(ba, m3) ← deepcopy_list (ProfileStoreObj.basal d) m2;
  '(tl, m4) ← deepcopy_list (ProfileStoreObj.target_low d) m3;
  '(th, m5) ← deepcopy_list (ProfileStoreObj.target_high d) m4;
  alloc (OProfile (ProfileStoreObj.mk (ProfileStoreObj.dia d) cr se ba tl th
                     (ProfileStoreObj.timezone d) (ProfileStoreObj.units d))).

(** ** app/services/autotune_service.py *)

(** The body of the loop over [result.basalprofile], up to the
    constructor call. *)
Definition convert_basal_entry (basal_entry : AutotuneBasalEntry.t)
  : result BasalScheduleEntry.t :=
  let time_parts := Py.split ":" (AutotuneBasalEntry.start basal_entry) in
  p0 ← Py.index time_parts 0;
  p1 ← Py.index time_parts 1;
  let time_str := p0 +:+ ":" +:+ p1 in
  hours ← Py.int p0;
  minutes ← Py.int p1;
  let time_as_seconds := (hours * 3600 + minutes * 60)%Z in
  BasalScheduleEntry.new time_str (AutotuneBasalEntry.rate basal_entry) time_as_seconds.

(** [updated_profile.basal = []] and [updated_profile.dia = d]. *)
Definition setattr_basal (p : loc) (l : loc) : M unit :=
  d ← profile_dict p;
  store p (OProfile (ProfileStoreObj.set_basal l d)).

Definition setattr_dia (p : loc) (v : Py.float) : M unit :=
  d ← profile_dict p;
  store p (OProfile (ProfileStoreObj.set_dia v d)).

(** The body of [for basal_entry in result.basalprofile]:
    [updated_profile.basal.append(ns_basal)] on the converted entry. *)
Definition append_basal (updated_profile : loc) (basal_entry : AutotuneBasalEntry.t)
  : M unit :=
  e ← liftSE (convert_basal_entry basal_entry);
  ns_basal ← alloc (OBasal e);
  d ← profile_dict updated_profile;
  list_append (ProfileStoreObj.basal d) ns_basal.

Definition apply_recommendations (profile : loc)
    (recommendations : AutotuneRecommendations.t) : M loc :=
  updated_profile ← model_copy_deep profile;
  let result := AutotuneRecommendations.result recommendations in
  (* for entry in updated_profile.carbratio: entry.value = result.carb_ratio *)
  d ← profile_dict updated_profile;
  entries ← list_items (ProfileStoreObj.carbratio d);
  for_each (set_value (AutotuneResult.carb_ratio result)) entries;;
  (* for entry in updated_profile.sens: entry.value = result.sens *)
  d ← profile_dict updated_profile;
  entries ← list_items (ProfileStoreObj.sens d);
  for_each (set_value (AutotuneResult.sens result)) entries;;
  (* if result.basalprofile: *)
  match AutotuneResult.basalprofile result with
  | [] => mret tt
  | _ :: _ =>
      empty ← alloc (OList []);
      setattr_basal updated_profile empty;;
      for_each (append_basal updated_profile) (AutotuneResult.basalprofile result)
  end;;
  (* if result.dia: *)
  match AutotuneResult.dia result with
  | Some v => if Py.float_truthy v then setattr_dia updated_profile v else mret tt
  | None => mret tt
  end;;
  mret updated_profile.

(** *** Reading a profile out of the store *)

Definition as_basal (o : obj) : option BasalScheduleEntry.t :=
  match o with OBasal e => Some e | _ => None end.
Definition as_carbratio (o : obj) : option CarbRatioEntry.t :=
  match o with OCarbRatio e => Some e | _ => None end.
Definition as_sens (o : obj) : option SensitivityEntry.t :=
  match o with OSens e => Some e | _ => None end.
Definition as_target (o : obj) : option TargetEntry.t :=
  match o with OTarget e => Some e | _ => None end.

(** The entries of the list at [l], when it is a list of instances of one
    model class. *)
Definition read_entries {A} (cls : obj -> option A) (h : heap) (l : loc)
  : option (list A) :=
  match h !! l with
  | Some (OList items) => mapM (fun a => h !! a ≫= cls) items
  | _ => None
  end.

(** The value of the profile at [p]; defined exactly when [p] refers to a
    [ProfileStore] instance whose schedules are lists of entries of the
    declared classes. *)
Definition view (h : heap) (p : loc) : option ProfileStore.t :=
  match h !! p with
  | Some (OProfile d) =>
      cr ← read_entries as_carbratio h (ProfileStoreObj.carbratio d);
      se ← read_entries as_sens h (ProfileStoreObj.sens d);
      ba ← read_entries as_basal h (ProfileStoreObj.basal d);
      tl ← read_entries as_target h (ProfileStoreObj.target_low d);
      th ← read_entries as_target h (ProfileStoreObj.target_high d);
      Some (ProfileStore.mk (ProfileStoreObj.dia d) cr se ba tl th
              (ProfileStoreObj.timezone d) (ProfileStoreObj.units d))
  | _ => None
  end.

(** The mutable objects a profile is made of: the instance, its five
    lists, and their entries. *)
Definition items_of (h : heap) (l : loc) : list loc :=
  match h !! l with
  | Some (OList items) => items
  | _ => []
  end.

Definition reach (h : heap) (p : loc) : list loc :=
  match h !! p with
  | Some (OProfile d) =>
      p :: concat (map (fun l => l :: items_of h l)
                     [ProfileStoreObj.carbratio d; ProfileStoreObj.sens d;
                      ProfileStoreObj.basal d; ProfileStoreObj.target_low d;
                      ProfileStoreObj.target_high d])
  | _ => [p]
  end.

(** *** Building instances

    [ProfileStore(dia=.., carbratio=[{..}], ..)]: validation builds a new
    instance for every entry and a new list for every schedule. *)

Fixpoint alloc_all {A} (mk : A -> obj) (xs : list A) : M (list loc) :=
  match xs with
  | [] => mret []
  | x :: xs' => l ← alloc (mk x); ls ← alloc_all mk xs'; mret (l :: ls)
  end.

Definition new_list {A} (mk : A -> obj) (xs : list A) : M loc :=
  items ← alloc_all mk xs;
  alloc (OList items).

Definition new_profile (P : ProfileStore.t) : M loc :=
  if ProfileStore.valid P then
    cr ← new_list OCarbRatio (ProfileStore.carbratio P);
    se ← new_list OSens (ProfileStore.sens P);
    ba ← new_list OBasal (ProfileStore.basal P);
    tl ← new_list OTarget (ProfileStore.target_low P);
    th ← new_list OTarget (ProfileStore.target_high P);
    alloc (OProfile (ProfileStoreObj.mk (ProfileStore.dia P) cr se ba tl th
                       (ProfileStore.timezone P) (ProfileStore.units P)))
  else raiseSE (ValidationError []).

(** *** The fixtures of tests/unit/test_autotune_service.py *)

Module Fixtures.

Definition fl (n : Z) (d : positive) : Py.float := Py.Finite (n # d).

Definition mock_profile_store : ProfileStore.t :=
  ProfileStore.mk (fl 5 1)
    [CarbRatioEntry.mk "00:00" (fl 10 1) 0]
    [SensitivityEntry.mk "00:00" (fl 50 1) 0]
    [BasalScheduleEntry.mk "00:00" (fl 1 1) 0]
    [TargetEntry.mk "00:00" (fl 100 1) (fl 90 1) (fl 110 1) 0]
    [TargetEntry.mk "00:00" (fl 120 1) (fl 110 1) (fl 130 1) 0]
    "UTC" "mg/dL".

(** The store after the fixture has been built, and the reference to it. *)
Definition mock_heap : heap :=
  snd (new_profile mock_profile_store []).

Definition mock_profile : loc :=
  match fst (new_profile mock_profile_store []) with
  | Ok p => p
  | Raise _ => 0%nat
  end.

Definition recommendations (basal : list AutotuneBasalEntry.t)
    (carb_ratio sens : Py.float) (dia : option Py.float) : AutotuneRecommendations.t :=
  AutotuneRecommendations.mk
    (AutotuneResult.mk basal carb_ratio sens dia) "Default" "2024-01-08T00:00:00" 7.

(** test_apply_recommendations_converts_time_format *)
Definition rec_time_format : AutotuneRecommendations.t :=
  recommendations [AutotuneBasalEntry.mk "06:30:00" 60 (fl 13 10)]
    (fl 12 1) (fl 55 1) None.

(** test_apply_recommendations_updates_profile *)
Definition rec_updates : AutotuneRecommendations.t :=
  recommendations
    [AutotuneBasalEntry.mk "00:00:00" 60 (fl 11 10);
     AutotuneBasalEntry.mk "06:00:00" 360 (fl 12 10)]
    (fl 12 1) (fl 55 1) (Some (fl 55 10)).

(** A recommendation whose second start time has no colon: the call
    raises [IndexError] after the first entry has been appended. *)
Definition rec_malformed : AutotuneRecommendations.t :=
  recommendations
    [AutotuneBasalEntry.mk "00:00:00" 60 (fl 11 10);
     AutotuneBasalEntry.mk "0630" 60 (fl 12 10)]
    (fl 12 1) (fl 55 1) None.

(** A recommendation whose basal schedule is empty. *)
Definition rec_no_basal : AutotuneRecommendations.t :=
  recommendations [] (fl 12 1) (fl 55 1) None.

End Fixtures.

(** ** Raw documents and pydantic validation *)

(** What [response.json()] and [json.loads] return. A dict keeps its keys
    in insertion order; a key occurs once. *)
Inductive json : Type :=
  | JNull
  | JBool (b : bool)
  | JInt (n : Z)
  | JFloat (x : Py.float)
  | JStr (s : string)
  | JList (xs : list json)
  | JDict (kvs : list (string * json)).

Definition dict_get (k : string) (kvs : list (string * json)) : option json :=
  snd <$> List.find (fun kv => String.eqb (fst kv) k) kvs.

(** [bool(x)] of a document. *)
Definition json_truthy (x : json) : bool :=
  match x with
  | JNull => false
  | JBool b => b
  | JInt n => negb (n =? 0)%Z
  | JFloat f => Py.float_truthy f
  | JStr s => negb (String.eqb s EmptyString)
  | JList xs => match xs with [] => false | _ => true end
  | JDict kvs => match kvs with [] => false | _ => true end
  end.

(** How pydantic reads a scalar of a declared type from an input value.
    This is the library's conversion table, not code of this repository;
    the models below are defined over any such table. *)
Class Pydantic : Type := {
  to_int : json -> option Z;
  to_float : json -> option Py.float;
  to_str : json -> option string
}.

(** The table without conversions: an int is an int, a float is a float or
    an int, a string is a string. *)
Definition strict_table : Pydantic := {|
  to_int j := match j with JInt n => Some n | _ => None end;
  to_float j := match j with
                | JFloat x => Some x
                | JInt n => Some (Py.Finite (inject_Z n))
                | _ => None
                end;
  to_str j := match j with JStr s => Some s | _ => None end
|}.

Module Schema.
Section schema.
Context `{Pydantic}.

(** [name: T = Field(...)]: a required field. *)
Definition required {A} (conv : json -> option A) (name : string)
    (kvs : list (string * json)) : option A :=
  dict_get name kvs ≫= conv.

(** [name: T | None = Field(None)]: absent and [None] both read as [None]. *)
Definition optional {A} (conv : json -> option A) (name : string)
    (kvs : list (string * json)) : option (option A) :=
  match dict_get name kvs with
  | None | Some JNull => Some None
  | Some v => Some <$> conv v
  end.

Definition constrained {A} (conv : json -> option A) (ok : A -> bool)
    (j : json) : option A :=
  a ← conv j; if ok a then Some a else None.

Definition int_field : json -> option Z := to_int.
Definition str_field : json -> option string := to_str.
Definition float_field : json -> option Py.float := to_float.
Definition float_ge0 : json -> option Py.float := constrained to_float Py.float_ge0.
Definition float_gt0 : json -> option Py.float := constrained to_float Py.float_gt0.
Definition int_ge0 : json -> option Z := constrained to_int (fun n => (0 <=? n)%Z).

Definition list_of {A} (item : json -> option A) (j : json) : option (list A) :=
  match j with
  | JList xs => mapM item xs
  | _ => None
  end.

Definition dict_of {A} (item : json -> option A) (j : json)
  : option (list (string * A)) :=
  match j with
  | JDict kvs => mapM (fun kv => pair (fst kv) <$> item (snd kv)) kvs
  | _ => None
  end.

(** The names of the fields that did not validate, in field order. *)
Definition errors (checks : list (string * bool)) : list string :=
  fst <$> List.filter (fun c => negb (snd c)) checks.

Definition ok {A} (o : option A) : bool :=
  match o with Some _ => true | None => false end.

Definition not_a_mapping {A} : result A :=
  Raise (TypeError "argument after ** must be a mapping").
End schema.
End Schema.

Section models.
Context `{Pydantic}.

Definition basal_entry (j : json) : option BasalScheduleEntry.t :=
  match j with
  | JDict kvs =>
      t ← Schema.required Schema.str_field "time" kvs;
      v ← Schema.required Schema.float_ge0 "value" kvs;
      s ← Schema.required Schema.int_ge0 "timeAsSeconds" kvs;
      Some (BasalScheduleEntry.mk t v s)
  | _ => None
  end.

Definition carbratio_entry (j : json) : option CarbRatioEntry.t :=
  match j with
  | JDict kvs =>
      t ← Schema.required Schema.str_field "time" kvs;
      v ← Schema.required Schema.float_gt0 "value" kvs;
      s ← Schema.required Schema.int_ge0 "timeAsSeconds" kvs;
      Some (CarbRatioEntry.mk t v s)
  | _ => None
  end.

Definition sensitivity_entry (j : json) : option SensitivityEntry.t :=
  match j with
  | JDict kvs =>
      t ← Schema.required Schema.str_field "time" kvs;
      v ← Schema.required Schema.float_gt0 "value" kvs;
      s ← Schema.required Schema.int_ge0 "timeAsSeconds" kvs;
      Some (SensitivityEntry.mk t v s)
  | _ => None
  end.

Definition target_entry (j : json) : option TargetEntry.t :=
  match j with
  | JDict kvs =>
      t ← Schema.required Schema.str_field "time" kvs;
      v ← Schema.required Schema.float_gt0 "value" kvs;
      lo ← Schema.required Schema.float_gt0 "low" kvs;
      hi ← Schema.required Schema.float_gt0 "high" kvs;
      s ← Schema.required Schema.int_ge0 "timeAsSeconds" kvs;
      Some (TargetEntry.mk t v lo hi s)
  | _ => None
  end.

Definition profile_store (j : json) : option ProfileStore.t :=
  match j with
  | JDict kvs =>
      dia ← Schema.required Schema.float_gt0 "dia" kvs;
      cr ← Schema.required (Schema.list_of carbratio_entry) "carbratio" kvs;
      se ← Schema.required (Schema.list_of sensitivity_entry) "sens" kvs;
      ba ← Schema.required (Schema.list_of basal_entry) "basal" kvs;
      tl ← Schema.required (Schema.list_of target_entry) "target_low" kvs;
      th ← Schema.required (Schema.list_of target_entry) "target_high" kvs;
      tz ← Schema.required Schema.str_field "timezone" kvs;
      un ← Schema.required Schema.str_field "units" kvs;
      Some (ProfileStore.mk dia cr se ba tl th tz un)
  | _ => None
  end.
End models.

(** The fields declared [_id] have a leading underscore: pydantic does not
    make them model fields, so they are neither required nor stored. *)
Module NightscoutProfile.
Record t : Type := mk {
  defaultProfile : string;
  store : list (string * ProfileStore.t);
  startDate : string;
  mills : Z;
  units : string;
  created_at : string
}.

Definition store_get (k : string) (p : t) : option ProfileStore.t :=
  snd <$> List.find (fun kv => String.eqb (fst kv) k) (store p).

(** The property [default_profile]: [self.store[self.defaultProfile]]. *)
Definition default_profile (p : t) : result ProfileStore.t :=
  match store_get (defaultProfile p) p with
  | Some s => Ok s
  | None => Raise (KeyError (defaultProfile p))
  end.

(** The constructor call on the unpacked [profile_doc]. *)
Definition new `{Pydantic} (profile_doc : json) : result t :=
  match profile_doc with
  | JDict kvs =>
      let dp := Schema.required Schema.str_field "defaultProfile" kvs in
      let st := Schema.required (Schema.dict_of profile_store) "store" kvs in
      let sd := Schema.required Schema.str_field "startDate" kvs in
      let mi := Schema.required Schema.int_field "mills" kvs in
      let un := Schema.required Schema.str_field "units" kvs in
      let ca := Schema.required Schema.str_field "created_at" kvs in
      match dp, st, sd, mi, un, ca with
      | Some dp, Some st, Some sd, Some mi, Some un, Some ca =>
          Ok (mk dp st sd mi un ca)
      | _, _, _, _, _, _ =>
          Raise (ValidationError (Schema.errors
            [("defaultProfile", Schema.ok dp); ("store", Schema.ok st);
             ("startDate", Schema.ok sd); ("mills", Schema.ok mi);
             ("units", Schema.ok un); ("created_at", Schema.ok ca)]))
      end
  | _ => Schema.not_a_mapping
  end.
End NightscoutProfile.

Module NightscoutEntry.
Record t : Type := mk {
  sgv : Z;
  date : Z;
  dateString : string;
  type : string;
  direction : option string;
  device : option string
}.

(** The constructor call on the unpacked [entry_data]; [sgv: ge=20, le=600]. *)
Definition new `{Pydantic} (entry_data : json) : result t :=
  match entry_data with
  | JDict kvs =>
      let sg := Schema.required
                  (Schema.constrained to_int (fun n => (20 <=? n)%Z && (n <=? 600)%Z))
                  "sgv" kvs in
      let da := Schema.required Schema.int_field "date" kvs in
      let ds := Schema.required Schema.str_field "dateString" kvs in
      let ty := Schema.required Schema.str_field "type" kvs in
      let di := Schema.optional Schema.str_field "direction" kvs in
      let de := Schema.optional Schema.str_field "device" kvs in
      match sg, da, ds, ty, di, de with
      | Some sg, Some da, Some ds, Some ty, Some di, Some de =>
          Ok (mk sg da ds ty di de)
      | _, _, _, _, _, _ =>
          Raise (ValidationError (Schema.errors
            [("sgv", Schema.ok sg); ("date", Schema.ok da);
             ("dateString", Schema.ok ds); ("type", Schema.ok ty);
             ("direction", Schema.ok di); ("device", Schema.ok de)]))
      end
  | _ => Schema.not_a_mapping
  end.
End NightscoutEntry.

Module NightscoutTreatment.
Record t : Type := mk {
  eventType : string;
  created_at : string;
  timestamp : option string;
  insulin : option Py.float;
  carbs : option Py.float;
  glucose : option Z;
  glucoseType : option string;
  notes : option string;
  enteredBy : option string
}.

(** The constructor call on the unpacked [treatment_data]; [insulin: ge=0],
    [carbs: ge=0]. *)
Definition new `{Pydantic} (treatment_data : json) : result t :=
  match treatment_data with
  | JDict kvs =>
      let et := Schema.required Schema.str_field "eventType" kvs in
      let ca := Schema.required Schema.str_field "created_at" kvs in
      let ts := Schema.optional Schema.str_field "timestamp" kvs in
      let ins := Schema.optional Schema.float_ge0 "insulin" kvs in
      let cb := Schema.optional Schema.float_ge0 "carbs" kvs in
      let gl := Schema.optional Schema.int_field "glucose" kvs in
      let gt := Schema.optional Schema.str_field "glucoseType" kvs in
      let no := Schema.optional Schema.str_field "notes" kvs in
      let eb := Schema.optional Schema.str_field "enteredBy" kvs in
      match et, ca, ts, ins, cb, gl, gt, no, eb with
      | Some et, Some ca, Some ts, Some ins, Some cb, Some gl, Some gt, Some no, Some eb =>
          Ok (mk et ca ts ins cb gl gt no eb)
      | _, _, _, _, _, _, _, _, _ =>
          Raise (ValidationError (Schema.errors
            [("eventType", Schema.ok et); ("created_at", Schema.ok ca);
             ("timestamp", Schema.ok ts); ("insulin", Schema.ok ins);
             ("carbs", Schema.ok cb); ("glucose", Schema.ok gl);
             ("glucoseType", Schema.ok gt); ("notes", Schema.ok no);
             ("enteredBy", Schema.ok eb)]))
      end
  | _ => Schema.not_a_mapping
  end.
End NightscoutTreatment.

(** [datetime] values: microseconds since [datetime.min]. *)
Module Datetime.
Definition t : Type := Z.
Definition us_per_day : Z := 86400 * 1000000.
(** [datetime.max] is the last microsecond of day 3652059. *)
Definition in_range (d : t) : bool := (0 <=? d)%Z && (d <? 3652059 * us_per_day)%Z.
Definition max_timedelta_days : Z := 999999999.
(** [d - timedelta(days=days)]. *)
Definition minus_days (d : t) (days : Z) : result t :=
  if (Z.abs days <=? max_timedelta_days)%Z then
    let r := (d - days * us_per_day)%Z in
    if in_range r then Ok r else Raise OverflowError
  else Raise OverflowError.
End Datetime.

Module HistoricalData.
Record t : Type := mk {
  entries : list NightscoutEntry.t;
  treatments : list NightscoutTreatment.t;
  start_date : Datetime.t;
  end_date : Datetime.t
}.
End HistoricalData.

(** ** Logging *)

(** [logging]: the records emitted, oldest first. *)
Inductive level : Type := DEBUG | INFO | WARNING | ERROR.
Record log_record : Type := LogRecord {
  log_level : level;
  log_msg : string;
  log_exc : option exn
}.

Definition log (lvl : level) (msg : string) (exc : option exn)
  : SE (list log_record) unit :=
  fun records => (Ok tt, records ++ [LogRecord lvl msg exc]).

Definition warnings (records : list log_record) : list log_record :=
  List.filter (fun r => match log_level r with WARNING => true | _ => false end) records.

(** ** app/services/nightscout_service.py: get_historical_data *)

Module NightscoutService.
Section service.
Context `{Pydantic}.
(** [self.client.get_historical_data(days)]: the two raw lists, or the
    transport error the client raised. *)
Variable client_get_historical_data : Z -> result (list json * list json).
(** [datetime.now()]. *)
Variable now : Datetime.t.

(** One validation loop: [acc] is the list built so far.  [except
    Exception] catches every exception the constructor can raise. *)
Fixpoint validate_each {A} (new : json -> result A) (what : string)
    (raw : list json) (acc : list A) : SE (list log_record) (list A) :=
  match raw with
  | [] => mret acc
  | data :: rest =>
      match new data with
      | Ok a => validate_each new what rest (acc ++ [a])
      | Raise e =>
          log WARNING ("Skipping invalid " +:+ what) (Some e);;
          validate_each new what rest acc
      end
  end.

Definition get_historical_data (days : Z) : SE (list log_record) HistoricalData.t :=
  log INFO "Loading historical data" None;;
  let end_date := now in
  start_date ← liftSE (Datetime.minus_days end_date days);
  raw ← liftSE (client_get_historical_data days);
  let '(entries_raw, treatments_raw) := raw in
  entries ← validate_each NightscoutEntry.new "entry" entries_raw [];
  treatments ← validate_each NightscoutTreatment.new "treatment" treatments_raw [];
  let historical_data := HistoricalData.mk entries treatments start_date end_date in
  log INFO "Successfully loaded entries and treatments" None;;
  mret historical_data.
End service.
End NightscoutService.

(** The records of a raw list that validate, in order. *)
Definition valid_records {A} (new : json -> result A) (raw : list json) : list A :=
  omap (fun data => match new data with Ok a => Some a | Raise _ => None end) raw.

Definition invalid_records {A} (new : json -> result A) (raw : list json) : list json :=
  List.filter (fun data => negb (is_ok (new data))) raw.

(** ** app/clients/autotune_client.py: run_autotune *)

Module AutotuneClient.

Inductive node : Type :=
  | File (content : string)
  | Dir.

(** The file system: absolute paths to what is there. *)
Definition fs : Type := gmap string node.

(** What [subprocess.run(cmd, capture_output=True, text=True, timeout=600)]
    does before [check] is looked at. *)
Inductive run_outcome : Type :=
  | Exited (returncode : Z) (stdout stderr : string)
  | TimeoutExpired
  | NotStarted.

Definition timed_out_msg : string := "Autotune analysis timed out".
Definition no_recommendations_msg : string :=
  "Autotune did not produce recommendations file. Check that enough valid data was provided.".

Definition under (dir path : string) : Prop :=
  path = dir \/ String.prefix (dir +:+ "/") path = true.

Global Instance under_dec dir path : Decision (under dir path).
Proof. unfold under. apply _. Defined.

Section client.
(** [json.dumps(_, indent=2)] and [json.loads]. *)
Variable dumps : json -> string.
Variable loads : string -> option json.
(** The external process: what running [cmd] does to the file system. *)
Variable subprocess_run : list string -> fs -> run_outcome * fs.
(** The name [tempfile] picks for a new directory. *)
Variable mkdtemp : fs -> string.

Definition write_text (path content : string) : SE fs unit :=
  fun files => (Ok tt, <[path := File content]> files).

Definition mkdir (path : string) : SE fs unit :=
  fun files => (Ok tt, <[path := Dir]> files).

Definition exists_ (path : string) : SE fs bool :=
  fun files => (Ok (bool_decide (is_Some (files !! path))), files).

Definition read_text (path : string) : SE fs string :=
  fun files =>
    match files !! path with
    | Some (File content) => (Ok content, files)
    | _ => (Raise OSError, files)
    end.

(** [with tempfile.TemporaryDirectory() as tmpdir]: the directory and
    everything under it is removed when the block is left, also by an
    exception. *)
Definition with_temporary_directory {A} (body : string -> SE fs A) : SE fs A :=
  fun files =>
    let tmpdir := mkdtemp files in
    let '(r, files') := body tmpdir (<[tmpdir := Dir]> files) in
    (r, filter (fun kv => ~ under tmpdir (fst kv)) files').

(** [subprocess.run(.., check=True, ..)] inside the [try]. *)
Definition run_checked (cmd : list string) : SE fs (string * string) :=
  fun files =>
    match subprocess_run cmd files with
    | (Exited rc out err, files') =>
        if (rc =? 0)%Z then (Ok (out, err), files')
        else (Raise (CalledProcessError rc out err), files')
    | (TimeoutExpired, files') => (Raise (ValueError timed_out_msg), files')
    | (NotStarted, files') => (Raise OSError, files')
    end.

(** The block that writes the input files. *)
Definition write_inputs (tmpdir : string) (profile_data entries treatments : json)
  : SE fs unit :=
  mkdir (tmpdir +:+ "/autotune");;
  write_text (tmpdir +:+ "/profile.json") (dumps profile_data);;
  write_text (tmpdir +:+ "/entries.json") (dumps entries);;
  write_text (tmpdir +:+ "/treatments.json") (dumps treatments).

Definition cmd (autotune_path tmpdir : string) (days : Z) : list string :=
  [autotune_path; "--dir"; tmpdir;
   "--ns-entries"; tmpdir +:+ "/entries.json";
   "--ns-treatments"; tmpdir +:+ "/treatments.json";
   "--profile"; tmpdir +:+ "/profile.json";
   "--days"; pretty days].

Definition recommendations_file (tmpdir : string) : string :=
  (tmpdir +:+ "/autotune") +:+ "/autotune_recommendations.json".

Definition run_autotune (autotune_path : string)
    (profile_data entries treatments : json) (days : Z) : SE fs json :=
  with_temporary_directory (fun tmpdir =>
    write_inputs tmpdir profile_data entries treatments;;
    run_checked (cmd autotune_path tmpdir days);;
    present ← exists_ (recommendations_file tmpdir);
    if negb present then raiseSE (ValueError no_recommendations_msg)
    else
      text ← read_text (recommendations_file tmpdir);
      match loads text with
      | Some recommendations => mret recommendations
      | None => raiseSE JSONDecodeError
      end).

(** The file system the external process starts on. *)
Definition staged (profile_data entries treatments : json) (files : fs) : fs :=
  snd (write_inputs (mkdtemp files) profile_data entries treatments
         (<[mkdtemp files := Dir]> files)).
End client.
End AutotuneClient.

(** ** app/clients/nightscout_client.py *)

Module NightscoutClient.

Record t : Type := mk { url : string; api_secret : string; timeout : Z }.

Inductive request : Type :=
  | GET (url : string)
  | POST (url : string) (body : json).

Definition is_post (r : request) : bool :=
  match r with POST _ _ => true | GET _ => false end.

(** What a request comes back with, after the session's retries: no
    response at all, or a status and a body, which may not be JSON. *)
Inductive http_reply : Type :=
  | NoResponse
  | Response (status : Z) (body : option json).

(** [model_dump()] of a profile. *)
Definition dump_float (x : Py.float) : json := JFloat x.

Definition dump_basal (e : BasalScheduleEntry.t) : json :=
  JDict [("time", JStr (BasalScheduleEntry.time e));
         ("value", dump_float (BasalScheduleEntry.value e));
         ("timeAsSeconds", JInt (BasalScheduleEntry.timeAsSeconds e))].

Definition dump_carbratio (e : CarbRatioEntry.t) : json :=
  JDict [("time", JStr (CarbRatioEntry.time e));
         ("value", dump_float (CarbRatioEntry.value e));
         ("timeAsSeconds", JInt (CarbRatioEntry.timeAsSeconds e))].

Definition dump_sens (e : SensitivityEntry.t) : json :=
  JDict [("time", JStr (SensitivityEntry.time e));
         ("value", dump_float (SensitivityEntry.value e));
         ("timeAsSeconds", JInt (SensitivityEntry.timeAsSeconds e))].

Definition dump_target (e : TargetEntry.t) : json :=
  JDict [("time", JStr (TargetEntry.time e));
         ("value", dump_float (TargetEntry.value e));
         ("low", dump_float (TargetEntry.low e));
         ("high", dump_float (TargetEntry.high e));
         ("timeAsSeconds", JInt (TargetEntry.timeAsSeconds e))].

Definition model_dump (p : ProfileStore.t) : json :=
  JDict [("dia", dump_float (ProfileStore.dia p));
         ("carbratio", JList (dump_carbratio <$> ProfileStore.carbratio p));
         ("sens", JList (dump_sens <$> ProfileStore.sens p));
         ("basal", JList (dump_basal <$> ProfileStore.basal p));
         ("target_low", JList (dump_target <$> ProfileStore.target_low p));
         ("target_high", JList (dump_target <$> ProfileStore.target_high p));
         ("timezone", JStr (ProfileStore.timezone p));
         ("units", JStr (ProfileStore.units p))].

(** *** What Python does with a [ProfileStore] instance used as a dict *)

(** Iterating a model yields one [(name, value)] tuple per field. *)
Definition model_iter (p : ProfileStore.t) : list (string * json) :=
  match model_dump p with
  | JDict kvs => kvs
  | _ => []
  end.

(** A string compared with a tuple: never equal. *)
Definition str_eq_tuple (s : string) (item : string * json) : bool := false.

(** [s in model]: [BaseModel] defines no [__contains__], so membership
    goes through iteration. *)
Definition str_in_model (s : string) (p : ProfileStore.t) : bool :=
  existsb (str_eq_tuple s) (model_iter p).

(** [model[key] = value] and [model[key]]: [BaseModel] defines neither
    [__setitem__] nor [__getitem__]. *)
Definition model_setitem (p : ProfileStore.t) (key : string) (value : json)
  : result unit :=
  Raise (TypeError "'ProfileStore' object does not support item assignment").

Definition model_getitem (p : ProfileStore.t) (key : string) : result json :=
  Raise (TypeError "'ProfileStore' object is not subscriptable").

(** [d[key] = value] on a document. *)
Definition setitem (d : json) (key : string) (value : json) : result json :=
  match d with
  | JDict kvs =>
      Ok (JDict (if Schema.ok (dict_get key kvs)
                 then (fun kv => if String.eqb (fst kv) key then (key, value) else kv) <$> kvs
                 else kvs ++ [(key, value)]))
  | _ => Raise (TypeError "object does not support item assignment")
  end.

(** [json=model] in a request: [json.dumps] cannot serialise a model. *)
Definition request_body (p : ProfileStore.t) : result json :=
  Raise (TypeError "Object of type ProfileStore is not JSON serializable").

(** *** Names

    The names [update_profile] can see: its parameters and the names its
    body assigns, then the names bound at module level.  No builtin is
    called [target_profile]. *)
Definition update_profile_locals : list string :=
  ["self"; "profile_data"; "profile_name"; "current_profile"; "url"; "headers";
   "response"; "result"; "e"].

Definition module_globals : list string :=
  ["hashlib"; "logging"; "datetime"; "timedelta"; "cached_property"; "Any";
   "requests"; "BaseModel"; "Session"; "HTTPAdapter"; "Retry";
   "NightscoutProfile"; "ProfileStore"; "logger"; "NightscoutClient"].

(** Reading a name in the body of [update_profile].  A bound name is
    returned as itself: the object it is bound to is not needed. *)
Definition read_name (name : string) : result string :=
  if bool_decide (name ∈ update_profile_locals ++ module_globals) then Ok name
  else Raise (NameError name).

(** The attributes of a client: its fields and what the class defines.
    [BaseModel] adds its own, none of which is called [session]. *)
Definition client_attributes : list string :=
  ["url"; "api_secret"; "timeout"; "_session"; "_auth_headers"; "_get_profiles";
   "get_profile"; "get_entries"; "get_treatments"; "get_historical_data";
   "update_profile"].

(** [self.name]. *)
Definition getattr_client (name : string) : result string :=
  if bool_decide (name ∈ client_attributes) then Ok name
  else Raise (AttributeError name).

Section client.
Context `{Pydantic}.
(** The remote store: a state, what it answers to a GET, and what a POST
    answers and does to the state. *)
Variable Server : Type.
Variable serve_get : string -> Server -> http_reply.
Variable serve_post : string -> json -> Server -> http_reply * Server.
(** [int(datetime.now().timestamp() * 1000)]. *)
Variable now_ms : Z.

Record world : Type := World { server : Server; requests : list request }.

Definition session_get (url : string) : SE world http_reply :=
  fun w => (Ok (serve_get url (server w)),
            World (server w) (requests w ++ [GET url])).

Definition session_post (url : string) (body : json) : SE world http_reply :=
  fun w => let '(reply, s) := serve_post url body (server w) in
           (Ok reply, World s (requests w ++ [POST url body])).

(** A request that got no response raises; [raise_for_status] raises
    on 4xx and 5xx; [response.json()] raises on a body that is not JSON. *)
Definition response_json (reply : http_reply) : result json :=
  match reply with
  | NoResponse => Raise ConnectionError
  | Response status body =>
      if (400 <=? status)%Z && (status <? 600)%Z then Raise (HTTPError status)
      else match body with
           | Some data => Ok data
           | None => Raise JSONDecodeError
           end
  end.

Definition _get_profiles (self : t) : SE world NightscoutProfile.t :=
  let url := url self +:+ "/api/v1/profile" in
  response ← session_get url;
  data ← liftSE (response_json response);
  if negb (json_truthy data) then raiseSE (ValueError "No profiles found in Nightscout")
  else
    let profile_doc := match data with
                       | JList (first :: _) => first
                       | _ => data
                       end in
    liftSE (NightscoutProfile.new profile_doc).

Definition update_profile (self : t) (profile_data : json)
    (profile_name : option string) : SE world json :=
  (* current_profile = self._get_profiles().default_profile *)
  profiles ← _get_profiles self;
  current_profile ← liftSE (NightscoutProfile.default_profile profiles);
  (* if "store" not in current_profile: current_profile["store"] = {} *)
  (if negb (str_in_model "store" current_profile)
   then liftSE (model_setitem current_profile "store" (JDict []))
   else mret tt);;
  (* current_profile["store"][target_profile] = profile_data *)
  store ← liftSE (model_getitem current_profile "store");
  target_profile ← liftSE (read_name "target_profile");
  liftSE (setitem store target_profile profile_data);;
  (* current_profile["mills"] = ... *)
  liftSE (model_setitem current_profile "mills" (JInt now_ms));;
  let url := url self +:+ "/api/v1/profile" in
  liftSE (read_name "target_profile");;
  (* response = self.session.post(url, headers=headers, json=current_profile, ..) *)
  liftSE (getattr_client "session");;
  body ← liftSE (request_body current_profile);
  response ← session_post url body;
  result ← liftSE (response_json response);
  liftSE (read_name "target_profile");;
  mret result.

(** [NightscoutService.sync_profile], whose client is [self]. *)
Definition sync_profile (self : t) (profile_store : ProfileStore.t)
    (profile_name : option string) : SE world unit :=
  let profile_data := model_dump profile_store in
  update_profile self profile_data profile_name;;
  mret tt.
End client.
End NightscoutClient.

(** The warnings one validation loop logs: one per record dropped, in
    order. *)
Definition skipped {A} (new : json -> result A) (what : string) (raw : list json)
  : list log_record :=
  omap (fun data => match new data with
                    | Ok _ => None
                    | Raise e => Some (LogRecord WARNING ("Skipping invalid " +:+ what) (Some e))
                    end) raw.

(** *** The fixtures of tests/unit/test_nightscout_service.py *)

Module ServiceFixtures.

Definition valid_entry : json :=
  JDict [("_id", JStr "entry1"); ("sgv", JInt 120); ("date", JInt 1704067200000);
         ("dateString", JStr "2024-01-01T00:00:00Z"); ("type", JStr "sgv")].

Definition invalid_entry : json := JDict [("invalid", JStr "data")].

(** The mocked client of test_get_historical_data_skips_invalid_entries. *)
Definition mock_client (days : Z) : result (list json * list json) :=
  Ok ([valid_entry; invalid_entry], []).

(** 2024-01-08T00:00:00, in microseconds since [datetime.min]. *)
Definition mock_now : Datetime.t := 738892 * Datetime.us_per_day.

End ServiceFixtures.

(** *** The mocks of tests/unit/test_autotune_client.py *)

Module ClientFixtures.

(** test_run_autotune_no_output_file: the process exits with code 0 and
    writes nothing. *)
Definition mock_run (cmd : list string) (files : AutotuneClient.fs)
  : AutotuneClient.run_outcome * AutotuneClient.fs :=
  (AutotuneClient.Exited 0 "Completed" EmptyString, files).

Definition mock_tempdir (files : AutotuneClient.fs) : string := "/tmp/test".

Definition mock_dumps (data : json) : string := "{}".
Definition mock_loads (text : string) : option json := Some (JDict []).

Definition mock_profile_data : json :=
  JDict [("dia", JFloat (Py.Finite 5));
         ("carbratio", JList [JDict [("time", JStr "00:00"); ("value", JFloat (Py.Finite 10))]]);
         ("sens", JList [JDict [("time", JStr "00:00"); ("value", JFloat (Py.Finite 50))]]);
         ("basal", JList [JDict [("time", JStr "00:00"); ("value", JFloat (Py.Finite 1))]])].

Definition mock_entries_data : json :=
  JList [JDict [("sgv", JInt 120); ("date", JInt 1704067200000); ("type", JStr "sgv")];
         JDict [("sgv", JInt 130); ("date", JInt 1704070800000); ("type", JStr "sgv")]].

Definition mock_treatments_data : json :=
  JList [JDict [("insulin", JFloat (Py.Finite 5)); ("carbs", JFloat (Py.Finite 50));
                ("created_at", JStr "2024-01-01T00:00:00Z");
                ("eventType", JStr "Meal Bolus")]].

End ClientFixtures.

(** *** The mocks of tests/unit/test_nightscout_client.py *)

Module NightscoutFixtures.

(** A remote store that holds the profile documents, returns them on GET
    and stores what is POSTed. *)
Definition mock_get (url : string) (docs : json) : NightscoutClient.http_reply :=
  NightscoutClient.Response 200 (Some docs).

Definition mock_post (url : string) (body : json) (docs : json)
  : NightscoutClient.http_reply * json :=
  (NightscoutClient.Response 200 (Some (JDict [("ok", JBool true)])), JList [body]).

(** test_update_profile_no_default_raises_error: the document has no
    [defaultProfile]. *)
Definition no_default_docs : json :=
  JList [JDict [("_id", JStr "test-id"); ("store", JDict []);
                ("mills", JInt 1234567890);
                ("created_at", JStr "2024-01-01T00:00:00Z")]].

(** The same with every other field in place. *)
Definition only_default_missing_docs : json :=
  JList [JDict [("_id", JStr "test-id"); ("store", JDict []);
                ("startDate", JStr "2024-01-01T00:00:00Z");
                ("mills", JInt 1234567890); ("units", JStr "mg/dL");
                ("created_at", JStr "2024-01-01T00:00:00Z")]].

Definition client : NightscoutClient.t :=
  NightscoutClient.mk "https://test.nightscout.com" "test-secret" 30.

Definition world_of (docs : json) : NightscoutClient.world json :=
  NightscoutClient.World json docs [].

End NightscoutFixtures.

(** ** Vocabulary of the proofs *)

(** [y] is the copy of [x]: a new object; an entry with the fields of
    [x], or a list of the copies of the items of [x]. *)
Definition copied (h0 h : heap) (m : memo) (x y : loc) : Prop :=
  (length h0 <= y)%nat /\
  match h0 !! x with
  | Some (OList items) =>
      exists items', h !! y = Some (OList items')
                     /\ Forall2 (fun a a' => m !! a = Some a') items items'
  | Some (OProfile _) | None => False
  | Some o => h !! y = Some o
  end.

(** While [h0] is being copied: nothing of [h0] has changed, and the memo
    maps objects of [h0] to their finished copies. *)
Definition copy_inv (h0 h : heap) (m : memo) : Prop :=
  h0 `prefix_of` h /\ forall x y, m !! x = Some y -> copied h0 h m x y.

Definition entry_at (h : heap) (a : loc) : Prop :=
  exists o, h !! a = Some o /\ is_entry o = true.

(** [h'] has every object of [h], but maybe for the one at [p]. *)
Definition agree_except (p : loc) (h h' : heap) : Prop :=
  forall l o, h !! l = Some o -> l <> p -> h' !! l = Some o.

(** A reader of one model class: it reads entries only. *)
Definition entry_class {A} (cls : obj -> option A) : Prop :=
  forall o x, cls o = Some x -> is_entry o = true.

(** Two readers that never read the same object. *)
Definition disjoint_classes {A B} (cls : obj -> option A) (cls' : obj -> option B) : Prop :=
  forall o x y, cls o = Some x -> cls' o = Some y -> False.

(** The conversion of a whole recommended basal schedule, in order. *)
Fixpoint convert_all (es : list AutotuneBasalEntry.t)
  : result (list BasalScheduleEntry.t) :=
  match es with
  | [] => Ok []
  | e :: rest =>
      b ← convert_basal_entry e;
      bs ← convert_all rest;
      Ok (b :: bs)
  end.

(** The basal schedule after the call: the guard [if result.basalprofile]
    keeps the copied schedule when the recommended one is empty. *)
Definition new_basal (P : ProfileStore.t) (r : AutotuneResult.t)
  : result (list BasalScheduleEntry.t) :=
  match AutotuneResult.basalprofile r with
  | [] => Ok (ProfileStore.basal P)
  | es => convert_all es
  end.

Definition new_dia (P : ProfileStore.t) (r : AutotuneResult.t) : Py.float :=
  match AutotuneResult.dia r with
  | Some v => if Py.float_truthy v then v else ProfileStore.dia P
  | None => ProfileStore.dia P
  end.

(** The profile value [apply_recommendations] returns for [P], given the
    basal schedule [basal']. *)
Definition reconciled (P : ProfileStore.t) (r : AutotuneResult.t)
    (basal' : list BasalScheduleEntry.t) : ProfileStore.t :=
  ProfileStore.mk (new_dia P r)
    (CarbRatioEntry.with_value (AutotuneResult.carb_ratio r) <$> ProfileStore.carbratio P)
    (SensitivityEntry.with_value (AutotuneResult.sens r) <$> ProfileStore.sens P)
    basal'
    (ProfileStore.target_low P) (ProfileStore.target_high P)
    (ProfileStore.timezone P) (ProfileStore.units P).

(** The entry the documented format promises for a recommended entry:
    the first five characters of the start time, and the seconds from
    midnight of its hours and minutes. *)
Definition truncated_entry (e : AutotuneBasalEntry.t) : BasalScheduleEntry.t :=
  let start := AutotuneBasalEntry.start e in
  BasalScheduleEntry.mk (substring 0 5 start) (AutotuneBasalEntry.rate e)
    (decimal (substring 0 2 start) * 3600 + decimal (substring 3 2 start) * 60).

(** A recommendation as the models declare and document it: the field
    constraints hold, and every start time is written HH:MM:SS. *)
Definition documented (R : AutotuneRecommendations.t) : bool :=
  AutotuneRecommendations.valid R
  && forallb (fun e => is_hhmmss (AutotuneBasalEntry.start e))
       (AutotuneResult.basalprofile (AutotuneRecommendations.result R)).

(** ** More of the code *)

(** *** app/models/autotune.py: validation *)

Section autotune_models.
Context `{Pydantic}.

Definition autotune_basal_entry (j : json) : option AutotuneBasalEntry.t :=
  match j with
  | JDict kvs =>
      s ← Schema.required Schema.str_field "start" kvs;
      m ← Schema.required Schema.int_ge0 "minutes" kvs;
      r ← Schema.required Schema.float_ge0 "rate" kvs;
      Some (AutotuneBasalEntry.mk s m r)
  | _ => None
  end.

(** The constructor call [AutotuneResult] on the unpacked [result_data]. *)
Definition new_autotune_result (result_data : json) : result AutotuneResult.t :=
  match result_data with
  | JDict kvs =>
      let bp := Schema.required (Schema.list_of autotune_basal_entry) "basalprofile" kvs in
      let cr := Schema.required Schema.float_gt0 "carb_ratio" kvs in
      let se := Schema.required Schema.float_gt0 "sens" kvs in
      let di := Schema.optional Schema.float_gt0 "dia" kvs in
      match bp, cr, se, di with
      | Some bp, Some cr, Some se, Some di => Ok (AutotuneResult.mk bp cr se di)
      | _, _, _, _ =>
          Raise (ValidationError (Schema.errors
            [("basalprofile", Schema.ok bp); ("carb_ratio", Schema.ok cr);
             ("sens", Schema.ok se); ("dia", Schema.ok di)]))
      end
  | _ => Schema.not_a_mapping
  end.
End autotune_models.

(** [AutotuneRecommendations(result=.., profile_name=.., analysis_date=..,
    days_analyzed=..)] on arguments of the declared types: an instance of
    [AutotuneResult] is taken as it is, [days_analyzed] must be at least 1. *)
Definition new_recommendations (autotune_result : AutotuneResult.t)
    (profile_name analysis_date : string) (days_analyzed : Z)
  : result AutotuneRecommendations.t :=
  if (1 <=? days_analyzed)%Z
  then Ok (AutotuneRecommendations.mk autotune_result profile_name analysis_date days_analyzed)
  else Raise (ValidationError ["days_analyzed"]).

(** *** [model_dump()] of entries and treatments *)

Definition dump_opt {A} (dump : A -> json) (o : option A) : json :=
  match o with Some a => dump a | None => JNull end.

Definition dump_entry (e : NightscoutEntry.t) : json :=
  JDict [("sgv", JInt (NightscoutEntry.sgv e));
         ("date", JInt (NightscoutEntry.date e));
         ("dateString", JStr (NightscoutEntry.dateString e));
         ("type", JStr (NightscoutEntry.type e));
         ("direction", dump_opt JStr (NightscoutEntry.direction e));
         ("device", dump_opt JStr (NightscoutEntry.device e))].

Definition dump_treatment (t : NightscoutTreatment.t) : json :=
  JDict [("eventType", JStr (NightscoutTreatment.eventType t));
         ("created_at", JStr (NightscoutTreatment.created_at t));
         ("timestamp", dump_opt JStr (NightscoutTreatment.timestamp t));
         ("insulin", dump_opt JFloat (NightscoutTreatment.insulin t));
         ("carbs", dump_opt JFloat (NightscoutTreatment.carbs t));
         ("glucose", dump_opt JInt (NightscoutTreatment.glucose t));
         ("glucoseType", dump_opt JStr (NightscoutTreatment.glucoseType t));
         ("notes", dump_opt JStr (NightscoutTreatment.notes t));
         ("enteredBy", dump_opt JStr (NightscoutTreatment.enteredBy t))].

(** *** app/services/autotune_service.py: run_analysis *)

Module AutotuneService.
Section service.
Context `{Pydantic}.
Variable dumps : json -> string.
Variable loads : string -> option json.
Variable subprocess_run :
  list string -> AutotuneClient.fs -> AutotuneClient.run_outcome * AutotuneClient.fs.
Variable mkdtemp : AutotuneClient.fs -> string.
(** [datetime.now().isoformat()]. *)
Variable now_iso : string.
(** [self.client.autotune_path]. *)
Variable autotune_path : string.

Definition run_analysis (profile : ProfileStore.t) (historical_data : HistoricalData.t)
    (profile_name : string) (days : Z) : SE AutotuneClient.fs AutotuneRecommendations.t :=
  let profile_data := NightscoutClient.model_dump profile in
  let entries_data := JList (dump_entry <$> HistoricalData.entries historical_data) in
  let treatments_data :=
    JList (dump_treatment <$> HistoricalData.treatments historical_data) in
  result_data ← AutotuneClient.run_autotune dumps loads subprocess_run mkdtemp
                   autotune_path profile_data entries_data treatments_data days;
  result ← liftSE (new_autotune_result result_data);
  liftSE (new_recommendations result profile_name now_iso days).
End service.
End AutotuneService.

(** *** The fixtures of tests/unit/test_nightscout_client.py *)

Module ResponseFixtures.

(** [mock_profile_response]: its one profile is the dump of the profile
    of the service tests. *)
Definition mock_profile_doc : json :=
  JDict [("_id", JStr "test-profile-id"); ("defaultProfile", JStr "Default");
         ("store", JDict [("Default", NightscoutClient.model_dump Fixtures.mock_profile_store)]);
         ("startDate", JStr "2024-01-01T00:00:00Z"); ("mills", JInt 1704067200000);
         ("units", JStr "mg/dL"); ("created_at", JStr "2024-01-01T00:00:00Z")].

Definition mock_profile_response : json := JList [mock_profile_doc].

Definition mock_entries_response : list json :=
  [JDict [("_id", JStr "entry1"); ("sgv", JInt 120); ("date", JInt 1704067200000);
          ("dateString", JStr "2024-01-01T00:00:00Z"); ("type", JStr "sgv");
          ("direction", JStr "Flat"); ("device", JStr "test-device")];
   JDict [("_id", JStr "entry2"); ("sgv", JInt 130); ("date", JInt 1704070800000);
          ("dateString", JStr "2024-01-01T01:00:00Z"); ("type", JStr "sgv");
          ("direction", JStr "FortyFiveUp"); ("device", JStr "test-device")]].

Definition mock_treatments_response : list json :=
  [JDict [("_id", JStr "treatment1"); ("eventType", JStr "Meal Bolus");
          ("created_at", JStr "2024-01-01T00:00:00Z");
          ("timestamp", JStr "2024-01-01T00:00:00Z");
          ("insulin", JFloat (Fixtures.fl 5 1)); ("carbs", JFloat (Fixtures.fl 50 1));
          ("glucose", JInt 120); ("glucoseType", JStr "Finger");
          ("notes", JStr "Test meal"); ("enteredBy", JStr "test-user")]].

(** A client that returns both lists. *)
Definition mock_client (days : Z) : result (list json * list json) :=
  Ok (mock_entries_response, mock_treatments_response).

End ResponseFixtures.


(** *** Processes and data for [run_autotune] and [run_analysis] *)

Module AutotuneFixtures.

(** [mock_autotune_result] of the unit tests. *)
Definition mock_autotune_result : json :=
  JDict [("basalprofile",
          JList [JDict [("start", JStr "00:00:00"); ("minutes", JInt 60);
                        ("rate", JFloat (Fixtures.fl 11 10))];
                 JDict [("start", JStr "01:00:00"); ("minutes", JInt 60);
                        ("rate", JFloat (Fixtures.fl 12 10))]]);
         ("carb_ratio", JFloat (Fixtures.fl 12 1));
         ("sens", JFloat (Fixtures.fl 55 1));
         ("dia", JFloat (Fixtures.fl 5 1))].

(** The text of the recommendations file, and a [json.loads] that reads
    it. *)
Definition result_text : string := "{recommendations}".

Definition mock_loads (text : string) : option json :=
  if String.eqb text result_text then Some mock_autotune_result else None.

(** A process that exits with code 0 after writing the recommendations
    file. *)
Definition mock_run_writes (cmd : list string) (files : AutotuneClient.fs)
  : AutotuneClient.run_outcome * AutotuneClient.fs :=
  (AutotuneClient.Exited 0 "Autotune completed" EmptyString,
   <[AutotuneClient.recommendations_file "/tmp/test" := AutotuneClient.File result_text]>
     files).

(** test_run_autotune_execution_failure and test_run_autotune_timeout. *)
Definition mock_run_failure (cmd : list string) (files : AutotuneClient.fs)
  : AutotuneClient.run_outcome * AutotuneClient.fs :=
  (AutotuneClient.Exited 1 EmptyString "Error message", files).

Definition mock_run_timeout (cmd : list string) (files : AutotuneClient.fs)
  : AutotuneClient.run_outcome * AutotuneClient.fs :=
  (AutotuneClient.TimeoutExpired, files).

(** A file system with nothing in it. *)
Definition no_files : AutotuneClient.fs := ∅.

(** [mock_historical_data] of tests/unit/test_autotune_service.py. *)
Definition mock_historical_data : HistoricalData.t :=
  HistoricalData.mk
    [NightscoutEntry.mk 120 1704067200000 "2024-01-01T00:00:00Z" "sgv" None None;
     NightscoutEntry.mk 130 1704070800000 "2024-01-01T01:00:00Z" "sgv" None None]
    [NightscoutTreatment.mk "Meal Bolus" "2024-01-01T00:00:00Z" None
       (Some (Fixtures.fl 5 1)) (Some (Fixtures.fl 50 1)) None None None None]
    (738885 * Datetime.us_per_day) (738892 * Datetime.us_per_day).


End AutotuneFixtures.


(** ** app/clients/nightscout_client.py: the queries *)

(** [len(x)] of a document. *)
Definition py_len (x : json) : result nat :=
  match x with
  | JList xs => Ok (length xs)
  | JDict kvs => Ok (length kvs)
  | JStr s => Ok (String.length s)
  | _ => Raise (TypeError "object has no len()")
  end.

Module ClientQueries.
Section client.
Context `{Pydantic}.
Variable Server : Type.
Variable serve_get : string -> Server -> NightscoutClient.http_reply.
(** [datetime.now()] and [d.isoformat()]. *)
Variable now : Datetime.t.
Variable isoformat : Datetime.t -> string.
(** The URL [requests] sends for a URL and its [params]. *)
Variable prepare_url : string -> list (string * string) -> string.
(** [repr] of a list of strings. *)
Variable repr_names : list string -> string.

(** The property [profile_names]: [list(self.store.keys())]. *)
Definition profile_names (p : NightscoutProfile.t) : list string :=
  fst <$> NightscoutProfile.store p.

(** The message of [get_profile]; [None] is formatted as its name. *)
Definition not_found_msg (profile_name : option string) (names : list string) : string :=
  "Profile '" +:+ default "None" profile_name +:+ "' not found. Available profiles: "
  +:+ repr_names names.

(** [profiles.store.get(profile_name)]; no key of the store is [None],
    and an instance is always true. *)
Definition get_profile (self : NightscoutClient.t) (profile_name : option string)
  : SE (NightscoutClient.world Server) ProfileStore.t :=
  profiles ← NightscoutClient._get_profiles Server serve_get self;
  match profile_name ≫= fun name => NightscoutProfile.store_get name profiles with
  | Some profile_store => mret profile_store
  | None => raiseSE (ValueError (not_found_msg profile_name (profile_names profiles)))
  end.

Definition entries_url (self : NightscoutClient.t) (start_date end_date : Datetime.t)
    (count : Z) : string :=
  prepare_url (NightscoutClient.url self +:+ "/api/v1/entries")
    [("find[dateString][$gte]", isoformat start_date);
     ("find[dateString][$lte]", isoformat end_date);
     ("count", pretty count)].

Definition treatments_url (self : NightscoutClient.t) (start_date end_date : Datetime.t)
    (count : Z) : string :=
  prepare_url (NightscoutClient.url self +:+ "/api/v1/treatments")
    [("find[created_at][$gte]", isoformat start_date);
     ("find[created_at][$lte]", isoformat end_date);
     ("count", pretty count)].

(** The [try] block of [get_entries] and of [get_treatments]: the
    handler logs and raises again, and [len] is taken for the log line. *)
Definition fetch (url : string) : SE (NightscoutClient.world Server) json :=
  response ← NightscoutClient.session_get Server serve_get url;
  data ← liftSE (NightscoutClient.response_json response);
  liftSE (py_len data);;
  mret data.

Definition get_entries (self : NightscoutClient.t) (start_date end_date : Datetime.t)
    (count : Z) : SE (NightscoutClient.world Server) json :=
  fetch (entries_url self start_date end_date count).

Definition get_treatments (self : NightscoutClient.t) (start_date end_date : Datetime.t)
    (count : Z) : SE (NightscoutClient.world Server) json :=
  fetch (treatments_url self start_date end_date count).

Definition get_historical_data (self : NightscoutClient.t) (days : Z)
  : SE (NightscoutClient.world Server) (json * json) :=
  let end_date := now in
  start_date ← liftSE (Datetime.minus_days end_date days);
  entries ← get_entries self start_date end_date 100000;
  treatments ← get_treatments self start_date end_date 100000;
  mret (entries, treatments).
End client.
End ClientQueries.

(** The constructor call [ProfileStore] on an unpacked document. *)
Definition new_profile_store `{Pydantic} (data : json) : result ProfileStore.t :=
  match data with
  | JDict kvs =>
      let dia := Schema.required Schema.float_gt0 "dia" kvs in
      let cr := Schema.required (Schema.list_of carbratio_entry) "carbratio" kvs in
      let se := Schema.required (Schema.list_of sensitivity_entry) "sens" kvs in
      let ba := Schema.required (Schema.list_of basal_entry) "basal" kvs in
      let tl := Schema.required (Schema.list_of target_entry) "target_low" kvs in
      let th := Schema.required (Schema.list_of target_entry) "target_high" kvs in
      let tz := Schema.required Schema.str_field "timezone" kvs in
      let un := Schema.required Schema.str_field "units" kvs in
      match dia, cr, se, ba, tl, th, tz, un with
      | Some dia, Some cr, Some se, Some ba, Some tl, Some th, Some tz, Some un =>
          Ok (ProfileStore.mk dia cr se ba tl th tz un)
      | _, _, _, _, _, _, _, _ =>
          Raise (ValidationError (Schema.errors
            [("dia", Schema.ok dia); ("carbratio", Schema.ok cr); ("sens", Schema.ok se);
             ("basal", Schema.ok ba); ("target_low", Schema.ok tl);
             ("target_high", Schema.ok th); ("timezone", Schema.ok tz);
             ("units", Schema.ok un)]))
      end
  | _ => Schema.not_a_mapping
  end.

(** ** app/services/nightscout_service.py: get_profile, get_profile_store *)

Module ServiceProfiles.
Section service.
Context `{Pydantic}.
Variable Server : Type.
Variable serve_get : string -> Server -> NightscoutClient.http_reply.
Variable repr_names : list string -> string.

(** Unpacking a [ProfileStore] instance as keyword arguments: an instance
    is not a mapping. *)
Definition unpack_model (p : ProfileStore.t) : result json := Schema.not_a_mapping.

Definition get_profile (self : NightscoutClient.t) (profile_name : option string)
  : SE (NightscoutClient.world Server) NightscoutProfile.t :=
  profile_data ← ClientQueries.get_profile Server serve_get repr_names self profile_name;
  kwargs ← liftSE (unpack_model profile_data);
  liftSE (NightscoutProfile.new kwargs).

Definition store_not_found_msg (profile_name : string) (available : list string) : string :=
  "Profile '" +:+ profile_name +:+ "' not found in store. Available profiles: "
  +:+ repr_names available.

Definition get_profile_store (self : NightscoutClient.t) (profile_name : string)
  : SE (NightscoutClient.world Server) ProfileStore.t :=
  profile ← get_profile self (Some profile_name);
  match NightscoutProfile.store_get profile_name profile with
  | None =>
      raiseSE (ValueError (store_not_found_msg profile_name
                             (ClientQueries.profile_names profile)))
  | Some entry => liftSE (new_profile_store (NightscoutClient.model_dump entry))
  end.
End service.
End ServiceProfiles.

(** *** Remote stores for the queries *)

Module QueryFixtures.

Definition mock_isoformat (d : Datetime.t) : string := "2024-01-01T00:00:00".
Definition mock_prepare_url (url : string) (params : list (string * string)) : string := url.

(** A store that answers the entries and the treatments of the unit
    tests. *)
Definition mock_get_data (url : string) (s : unit) : NightscoutClient.http_reply :=
  if String.eqb url "https://test.nightscout.com/api/v1/entries"
  then NightscoutClient.Response 200 (Some (JList ResponseFixtures.mock_entries_response))
  else NightscoutClient.Response 200 (Some (JList ResponseFixtures.mock_treatments_response)).

(** A store that fails on the entries. *)
Definition mock_get_down (url : string) (s : unit) : NightscoutClient.http_reply :=
  NightscoutClient.Response 503 None.

Definition idle : NightscoutClient.world unit := NightscoutClient.World unit tt [].

End QueryFixtures.

(** A client whose request fails. *)
Definition failing_client (days : Z) : result (list json * list json) :=
  Raise ConnectionError.

(** *** Vocabulary of the further properties *)

(** An optional amount (insulin, carbohydrates) as the models allow it:
    absent, or not negative. *)
Definition amount_ok (x : option Py.float) : Prop :=
  match x with Some v => Py.float_ge0 v = true | None => True end.

(** What [run_autotune] comes to once the process has ended with
    [outcome] on the files [files']. *)
Definition run_autotune_result (loads : string -> option json) (tmpdir : string)
    (outcome : AutotuneClient.run_outcome) (files' : AutotuneClient.fs) : result json :=
  match outcome with
  | AutotuneClient.Exited rc out err =>
      if (rc =? 0)%Z then
        match files' !! AutotuneClient.recommendations_file tmpdir with
        | None => Raise (ValueError AutotuneClient.no_recommendations_msg)
        | Some (AutotuneClient.File text) =>
            match loads text with
            | Some recommendations => Ok recommendations
            | None => Raise JSONDecodeError
            end
        | Some AutotuneClient.Dir => Raise OSError
        end
      else Raise (CalledProcessError rc out err)
  | AutotuneClient.TimeoutExpired => Raise (ValueError AutotuneClient.timed_out_msg)
  | AutotuneClient.NotStarted => Raise OSError
  end.

(** A start time without a colon. *)
Definition no_colon (s : string) : bool :=
  forallb (fun c => negb (Ascii.eqb c ":")) (list_ascii_of_string s).

(** * Properties *)

(** ** The store monad *)

Lemma bind_eq {A B} (m : M A) (k : A -> M B) h a h' :
  m h = (Ok a, h') -> (m ≫= k) h = k a h'.
Proof. unfold mbind, SE_bind. by intros ->. Qed.

Lemma bind_Raise {A B} (m : M A) (k : A -> M B) h e h' :
  m h = (Raise e, h') -> (m ≫= k) h = (Raise e, h').
Proof. unfold mbind, SE_bind. by intros ->. Qed.

Lemma load_Some l o (h : heap) : h !! l = Some o -> load l h = (Ok o, h).
Proof. unfold load. by intros ->. Qed.

Lemma list_items_Some l items (h : heap) :
  h !! l = Some (OList items) -> list_items l h = (Ok items, h).
Proof. intros Hl. unfold list_items. by rewrite (bind_eq _ _ _ _ _ (load_Some _ _ _ Hl)). Qed.

Lemma profile_dict_Some p d (h : heap) :
  h !! p = Some (OProfile d) -> profile_dict p h = (Ok d, h).
Proof. intros Hl. unfold profile_dict. by rewrite (bind_eq _ _ _ _ _ (load_Some _ _ _ Hl)). Qed.

(** ** Reading entries *)

Lemma read_entries_Some {A} (cls : obj -> option A) (h : heap) l xs :
  read_entries cls h l = Some xs <->
  exists items, h !! l = Some (OList items)
                /\ Forall2 (fun a x => h !! a ≫= cls = Some x) items xs.
Proof.
  unfold read_entries. split.
  - destruct (h !! l) as [[]|] eqn:E; try discriminate.
    intros Hm. eexists. split; [done|]. by apply mapM_Some.
  - intros (items & -> & HF). by apply mapM_Some.
Qed.

Lemma entry_class_carbratio : entry_class as_carbratio.
Proof. by intros [] x. Qed.
Lemma entry_class_sens : entry_class as_sens.
Proof. by intros [] x. Qed.
Lemma entry_class_basal : entry_class as_basal.
Proof. by intros [] x. Qed.
Lemma entry_class_target : entry_class as_target.
Proof. by intros [] x. Qed.

Create HintDb store.
#[local] Hint Resolve entry_class_carbratio entry_class_sens entry_class_basal
  entry_class_target : store.

(** ** Deep copy *)

Section deepcopy.
Variable h0 : heap.

Lemma copied_mono h h' (m m' : memo) x y :
  copied h0 h m x y -> h `prefix_of` h' -> m ⊆ m' -> copied h0 h' m' x y.
Proof.
  intros [Hy Hc] Hp Hm. split; [done|].
  destruct (h0 !! x) as [[]|]; try done;
    try (by eapply prefix_lookup_Some).
  destruct Hc as (items' & Hl & HF). exists items'. split.
  - by eapply prefix_lookup_Some.
  - eapply Forall2_impl; [done|]. intros a a' Ha. exact (lookup_weaken _ _ _ _ Ha Hm).
Qed.

Lemma copy_inv_mono h h' (m : memo) :
  copy_inv h0 h m -> h `prefix_of` h' -> copy_inv h0 h' m.
Proof.
  intros [Hp Hm] Hpp. split; [by etrans|].
  intros x y Hxy. eapply copied_mono; eauto.
Qed.

(** Copying an entry. *)
Lemma deepcopy_entry_spec h (m : memo) a :
  copy_inv h0 h m -> entry_at h0 a ->
  exists a' m' h',
    deepcopy_entry a m h = (Ok (a', m'), h')
    /\ copy_inv h0 h' m' /\ m ⊆ m' /\ m' !! a = Some a' /\ h `prefix_of` h'
    /\ (forall k items, h0 !! k = Some (OList items) -> m' !! k = m !! k).
Proof.
  intros Hinv (o & Ho & He). unfold deepcopy_entry.
  destruct (m !! a) as [y|] eqn:Hma.
  - exists y, m, h. by split_and!.
  - destruct Hinv as [Hp Hm].
    assert (Hh : h !! a = Some o) by by eapply prefix_lookup_Some.
    rewrite (bind_eq _ _ _ _ _ (load_Some _ _ _ Hh)), He.
    exists (length h), (<[a:=length h]> m), (h ++ [o]).
    assert (Hsub : m ⊆ <[a:=length h]> m) by by apply insert_subseteq.
    assert (Hpre : h `prefix_of` h ++ [o]) by by apply prefix_app_r.
    split_and!; [done | | done | by rewrite lookup_insert_eq | done |].
    + split; [by etrans|].
      intros x y Hxy. destruct (decide (x = a)) as [->|Hne].
      * rewrite lookup_insert_eq in Hxy. injection Hxy as <-.
        split; [by apply prefix_length|]. rewrite Ho.
        assert (Hnew : (h ++ [o]) !! length h = Some o)
          by (rewrite lookup_app_r, Nat.sub_diag; [done | lia]).
        destruct o; done.
      * rewrite lookup_insert_ne in Hxy by done.
        eapply copied_mono; eauto.
    + intros k items Hk. rewrite lookup_insert_ne; [done|].
      intros ->. rewrite Ho in Hk. injection Hk as ->. done.
Qed.

Lemma deepcopy_items_spec items : forall h (m : memo),
  copy_inv h0 h m -> Forall (entry_at h0) items ->
  exists items' m' h',
    deepcopy_items items m h = (Ok (items', m'), h')
    /\ copy_inv h0 h' m' /\ m ⊆ m' /\ h `prefix_of` h'
    /\ Forall2 (fun a a' => m' !! a = Some a') items items'
    /\ (forall k its, h0 !! k = Some (OList its) -> m' !! k = m !! k).
Proof.
  induction items as [|a rest IH]; intros h m Hinv HF.
  - exists [], m, h. by split_and!.
  - apply Forall_cons in HF as [Ha Hrest].
    destruct (deepcopy_entry_spec h m a Hinv Ha)
      as (a' & m1 & h1 & E1 & Hinv1 & Hs1 & Hl1 & Hp1 & Hk1).
    destruct (IH h1 m1 Hinv1 Hrest)
      as (rest' & m2 & h2 & E2 & Hinv2 & Hs2 & Hp2 & HF2 & Hk2).
    exists (a' :: rest'), m2, h2. split_and!.
    + simpl. rewrite (bind_eq _ _ _ _ _ E1). simpl.
      by rewrite (bind_eq _ _ _ _ _ E2).
    + done.
    + by etrans.
    + by etrans.
    + constructor; [|done]. exact (lookup_weaken _ _ _ _ Hl1 Hs2).
    + intros k its Hk. rewrite (Hk2 _ _ Hk). by eapply Hk1.
Qed.

(** Copying a list of entries. *)
Lemma deepcopy_list_spec h (m : memo) x items :
  copy_inv h0 h m -> h0 !! x = Some (OList items) -> Forall (entry_at h0) items ->
  exists y m' h',
    deepcopy_list x m h = (Ok (y, m'), h')
    /\ copy_inv h0 h' m' /\ m ⊆ m' /\ h `prefix_of` h' /\ m' !! x = Some y.
Proof.
  intros Hinv Hx HF. unfold deepcopy_list.
  destruct (m !! x) as [y|] eqn:Hmx.
  - exists y, m, h. by split_and!.
  - assert (Hh : h !! x = Some (OList items))
      by (destruct Hinv; by eapply prefix_lookup_Some).
    rewrite (bind_eq _ _ _ _ _ (list_items_Some _ _ _ Hh)).
    destruct (deepcopy_items_spec items h m Hinv HF)
      as (items' & m1 & h1 & E1 & [Hp1 Hm1] & Hs1 & Hpp1 & HF1 & Hk1).
    rewrite (bind_eq _ _ _ _ _ E1). simpl.
    assert (Hm1x : m1 !! x = None) by (by rewrite (Hk1 _ _ Hx)).
    assert (Hsub : m1 ⊆ <[x:=length h1]> m1) by by apply insert_subseteq.
    exists (length h1), (<[x:=length h1]> m1), (h1 ++ [OList items']).
    split_and!; [done | | by etrans | by etrans; [|apply prefix_app_r]
                | by rewrite lookup_insert_eq].
    split; [by apply prefix_app_r|].
    intros k y Hky. destruct (decide (k = x)) as [->|Hne].
    + rewrite lookup_insert_eq in Hky. injection Hky as <-.
      split; [by apply prefix_length|]. rewrite Hx.
      exists items'. split.
      * rewrite lookup_app_r, Nat.sub_diag; [done | lia].
      * eapply Forall2_impl; [done|]. intros a a' Ha.
        exact (lookup_weaken _ _ _ _ Ha Hsub).
    + rewrite lookup_insert_ne in Hky by done.
      eapply copied_mono; [by apply Hm1 | by apply prefix_app_r | done].
Qed.
End deepcopy.

Lemma view_Some (h : heap) p P :
  view h p = Some P <->
  exists d, h !! p = Some (OProfile d)
    /\ read_entries as_carbratio h (ProfileStoreObj.carbratio d) = Some (ProfileStore.carbratio P)
    /\ read_entries as_sens h (ProfileStoreObj.sens d) = Some (ProfileStore.sens P)
    /\ read_entries as_basal h (ProfileStoreObj.basal d) = Some (ProfileStore.basal P)
    /\ read_entries as_target h (ProfileStoreObj.target_low d) = Some (ProfileStore.target_low P)
    /\ read_entries as_target h (ProfileStoreObj.target_high d) = Some (ProfileStore.target_high P)
    /\ ProfileStoreObj.dia d = ProfileStore.dia P
    /\ ProfileStoreObj.timezone d = ProfileStore.timezone P
    /\ ProfileStoreObj.units d = ProfileStore.units P.
Proof.
  unfold view. split.
  - destruct (h !! p) as [[| | | | |d]|] eqn:Hp; try discriminate.
    destruct (read_entries as_carbratio _ _) as [cr|] eqn:E1; [|discriminate].
    destruct (read_entries as_sens _ _) as [se|] eqn:E2; [|discriminate].
    destruct (read_entries as_basal _ _) as [ba|] eqn:E3; [|discriminate].
    destruct (read_entries as_target h (ProfileStoreObj.target_low d)) as [tl|] eqn:E4;
      [|discriminate].
    destruct (read_entries as_target h (ProfileStoreObj.target_high d)) as [th|] eqn:E5;
      [|discriminate].
    simpl. intros [= <-]. exists d. by split_and!.
  - intros (d & -> & -> & -> & -> & -> & -> & Hd & Ht & Hu). simpl.
    destruct P; simpl in *. by rewrite Hd, Ht, Hu.
Qed.

Lemma read_entries_entry_at {A} (cls : obj -> option A) (h : heap) l xs :
  entry_class cls -> read_entries cls h l = Some xs ->
  exists items, h !! l = Some (OList items) /\ Forall (entry_at h) items.
Proof.
  intros Hcls (items & Hl & HF)%read_entries_Some. exists items. split; [done|].
  clear Hl. induction HF as [|a x items xs Ha _ IH]; constructor; [|done].
  destruct (h !! a) as [o|] eqn:E; [|discriminate]. exists o. split; [done|].
  by eapply Hcls.
Qed.

(** A copied list reads as the original, and is made of new objects. *)
Lemma copied_read_entries {A} (cls : obj -> option A) (h0 h : heap) (m : memo) x y xs :
  entry_class cls -> copy_inv h0 h m -> m !! x = Some y ->
  read_entries cls h0 x = Some xs ->
  read_entries cls h y = Some xs
  /\ (length h0 <= y)%nat
  /\ Forall (fun l => (length h0 <= l)%nat) (items_of h y).
Proof.
  intros Hcls [Hp Hm] Hxy (items & Hx & HF)%read_entries_Some.
  destruct (Hm _ _ Hxy) as [Hy Hc]. rewrite Hx in Hc.
  destruct Hc as (items' & Hy' & HF').
  assert (Hall : Forall2 (fun a' v => h !! a' ≫= cls = Some v) items' xs
                 /\ Forall (fun l => (length h0 <= l)%nat) items').
  { clear Hx Hy' Hxy. revert xs HF.
    induction HF' as [|a a' items items' Ha _ IH]; intros xs HF.
    - inversion HF; subst. split; constructor.
    - inversion HF as [|? v ? xs' Hv Hrest]; subst.
      destruct (IH _ Hrest) as [IH1 IH2].
      destruct (Hm _ _ Ha) as [Ha' Hc].
      destruct (h0 !! a) as [o|] eqn:E; [|discriminate]. simpl in Hv.
      pose proof (Hcls _ _ Hv) as He.
      assert (h !! a' = Some o) as Ho by (destruct o; done).
      split; constructor; try done. by rewrite Ho. }
  destruct Hall as [H1 H2]. split_and!; [|done|].
  - apply read_entries_Some. eauto.
  - unfold items_of. by rewrite Hy'.
Qed.

(** Reading through a longer store. *)
Lemma read_entries_prefix {A} (cls : obj -> option A) (h h' : heap) l xs :
  read_entries cls h l = Some xs -> h `prefix_of` h' ->
  read_entries cls h' l = Some xs.
Proof.
  intros (items & Hl & HF)%read_entries_Some Hp. apply read_entries_Some.
  exists items. split; [by eapply prefix_lookup_Some|].
  eapply Forall2_impl; [done|]. intros a x Ha. simpl in Ha.
  destruct (h !! a) as [o|] eqn:E; [|discriminate].
  by rewrite (prefix_lookup_Some _ _ _ _ E Hp).
Qed.

Lemma view_prefix (h h' : heap) p P :
  view h p = Some P -> h `prefix_of` h' -> view h' p = Some P.
Proof.
  intros (d & Hp & Hcr & Hse & Hba & Htl & Hth & Hrest)%view_Some Hpre.
  apply view_Some. exists d.
  destruct Hrest as (? & ? & ?).
  split_and!; eauto using prefix_lookup_Some, read_entries_prefix.
Qed.

Lemma items_of_prefix (h h' : heap) l :
  (l < length h)%nat -> h `prefix_of` h' -> items_of h' l = items_of h l.
Proof.
  intros Hl Hp. unfold items_of.
  destruct (lookup_lt_is_Some_2 h l Hl) as [o Ho].
  by rewrite Ho, (prefix_lookup_Some _ _ _ _ Ho Hp).
Qed.

(** [model_copy(deep=True)] returns a new profile that reads as the
    original and is made of new objects only; nothing of the store it was
    given has changed. *)
Lemma model_copy_deep_spec (h0 : heap) p P :
  view h0 p = Some P ->
  exists p1 h1,
    model_copy_deep p h0 = (Ok p1, h1)
    /\ h0 `prefix_of` h1
    /\ view h1 p1 = Some P
    /\ Forall (fun l => (length h0 <= l)%nat) (reach h1 p1).
Proof.
  intros (d & Hp & Hcr & Hse & Hba & Htl & Hth & Hdia & Htz & Hun)%view_Some.
  unfold model_copy_deep.
  rewrite (bind_eq _ _ _ _ _ (profile_dict_Some _ _ _ Hp)).
  assert (Hinv0 : copy_inv h0 h0 ∅) by (split; [done | by intros ???]).
  pose proof Hcr as (i1 & Hx1 & HF1)%read_entries_entry_at; [|auto with store].
  pose proof Hse as (i2 & Hx2 & HF2)%read_entries_entry_at; [|auto with store].
  pose proof Hba as (i3 & Hx3 & HF3)%read_entries_entry_at; [|auto with store].
  pose proof Htl as (i4 & Hx4 & HF4)%read_entries_entry_at; [|auto with store].
  pose proof Hth as (i5 & Hx5 & HF5)%read_entries_entry_at; [|auto with store].
  destruct (deepcopy_list_spec h0 _ _ _ _ Hinv0 Hx1 HF1)
    as (cr & m1 & h1 & E1 & Hinv1 & Hs1 & Hp1 & Hl1).
  destruct (deepcopy_list_spec h0 _ _ _ _ Hinv1 Hx2 HF2)
    as (se & m2 & h2 & E2 & Hinv2 & Hs2 & Hp2 & Hl2).
  destruct (deepcopy_list_spec h0 _ _ _ _ Hinv2 Hx3 HF3)
    as (ba & m3 & h3 & E3 & Hinv3 & Hs3 & Hp3 & Hl3).
  destruct (deepcopy_list_spec h0 _ _ _ _ Hinv3 Hx4 HF4)
    as (tl & m4 & h4 & E4 & Hinv4 & Hs4 & Hp4 & Hl4).
  destruct (deepcopy_list_spec h0 _ _ _ _ Hinv4 Hx5 HF5)
    as (th & m5 & h5 & E5 & Hinv5 & Hs5 & Hp5 & Hl5).
  rewrite (bind_eq _ _ _ _ _ E1); simpl. rewrite (bind_eq _ _ _ _ _ E2); simpl.
  rewrite (bind_eq _ _ _ _ _ E3); simpl. rewrite (bind_eq _ _ _ _ _ E4); simpl.
  rewrite (bind_eq _ _ _ _ _ E5); simpl.
  set (d1 := ProfileStoreObj.mk _ cr se ba tl th _ _).
  assert (Hpre : h5 `prefix_of` h5 ++ [OProfile d1]) by by apply prefix_app_r.
  pose proof (copy_inv_mono _ _ _ _ Hinv5 Hpre) as Hinv.
  assert (Hm1 : m5 !! ProfileStoreObj.carbratio d = Some cr)
    by eauto using lookup_weaken.
  assert (Hm2 : m5 !! ProfileStoreObj.sens d = Some se)
    by eauto using lookup_weaken.
  assert (Hm3 : m5 !! ProfileStoreObj.basal d = Some ba)
    by eauto using lookup_weaken.
  assert (Hm4 : m5 !! ProfileStoreObj.target_low d = Some tl)
    by eauto using lookup_weaken.
  destruct (copied_read_entries _ _ _ _ _ _ _ entry_class_carbratio Hinv Hm1 Hcr)
    as (R1 & F1 & G1).
  destruct (copied_read_entries _ _ _ _ _ _ _ entry_class_sens Hinv Hm2 Hse)
    as (R2 & F2 & G2).
  destruct (copied_read_entries _ _ _ _ _ _ _ entry_class_basal Hinv Hm3 Hba)
    as (R3 & F3 & G3).
  destruct (copied_read_entries _ _ _ _ _ _ _ entry_class_target Hinv Hm4 Htl)
    as (R4 & F4 & G4).
  destruct (copied_read_entries _ _ _ _ _ _ _ entry_class_target Hinv Hl5 Hth)
    as (R5 & F5 & G5).
  assert (Hnew : (h5 ++ [OProfile d1]) !! length h5 = Some (OProfile d1))
    by (rewrite lookup_app_r, Nat.sub_diag; [done | lia]).
  assert (Hlen : (length h0 <= length h5)%nat).
  { apply prefix_length. destruct Hinv5; done. }
  exists (length h5), (h5 ++ [OProfile d1]). split_and!.
  - done.
  - by destruct Hinv.
  - apply view_Some. exists d1. by split_and!.
  - unfold reach. rewrite Hnew. simpl.
    rewrite app_nil_r. constructor; [done|].
    repeat (first [apply Forall_app; split | apply Forall_cons; split]); done.
Qed.

(** ** Writing the value of every entry of a list *)

Lemma with_value_idem v o : with_value v (with_value v o) = with_value v o.
Proof. by destruct o. Qed.

Lemma is_entry_with_value v o : is_entry (with_value v o) = is_entry o.
Proof. by destruct o. Qed.

Lemma set_value_spec v a o (h : heap) :
  h !! a = Some o -> is_entry o = true ->
  set_value v a h = (Ok tt, <[a:=with_value v o]> h).
Proof.
  intros Ha He. unfold set_value.
  by rewrite (bind_eq _ _ _ _ _ (load_Some _ _ _ Ha)), He.
Qed.

Lemma set_values_spec v ls : forall h : heap,
  Forall (entry_at h) ls ->
  exists h',
    for_each (set_value v) ls h = (Ok tt, h')
    /\ length h' = length h
    /\ forall l, h' !! l = if decide (l ∈ ls) then with_value v <$> h !! l else h !! l.
Proof.
  induction ls as [|a ls IH]; intros h HF.
  - exists h. split_and!; [done..|]. intros l.
    destruct (decide (l ∈ [])) as [Hin|]; [|done]. by apply elem_of_nil in Hin.
  - apply Forall_cons in HF as [(o & Ha & He) Hls].
    assert (Hlt : (a < length h)%nat) by by eapply lookup_lt_Some.
    destruct (IH (<[a:=with_value v o]> h)) as (h' & E & Hlen & Hpt).
    { eapply Forall_impl; [done|]. intros b (ob & Hb & Heb).
      destruct (decide (b = a)) as [->|Hne].
      - exists (with_value v o). rewrite list_lookup_insert_eq by done.
        by rewrite is_entry_with_value.
      - exists ob. by rewrite list_lookup_insert_ne. }
    exists h'. split_and!.
    + simpl. rewrite (bind_eq _ _ _ _ _ (set_value_spec _ _ _ _ Ha He)). done.
    + by rewrite Hlen, length_insert.
    + intros l. rewrite Hpt. destruct (decide (l = a)) as [->|Hne].
      * rewrite list_lookup_insert_eq by done. rewrite Ha. simpl.
        rewrite with_value_idem.
        destruct (decide (a ∈ ls)), (decide (a ∈ a :: ls)) as [|Hn]; try done;
          exfalso; apply Hn; by left.
      * rewrite list_lookup_insert_ne by done.
        destruct (decide (l ∈ ls)) as [Hin|Hin], (decide (l ∈ a :: ls)) as [Hin'|Hin'];
          try done.
        -- exfalso. apply Hin'. by right.
        -- exfalso. apply elem_of_cons in Hin' as [?|?]; done.
Qed.

(** *** What the loop does to the lists of a profile *)

Section set_values.
Context {A : Type} (cls : obj -> option A) (wv : A -> A).
Variables (v : Py.float) (h h' : heap) (L : loc) (items : list loc) (xs : list A).
Hypothesis Hcls : entry_class cls.
Hypothesis Hwv : forall o, cls (with_value v o) = wv <$> cls o.
Hypothesis HL : h !! L = Some (OList items).
Hypothesis Hxs : Forall2 (fun a x => h !! a ≫= cls = Some x) items xs.
Hypothesis Hpt : forall l,
  h' !! l = if decide (l ∈ items) then with_value v <$> h !! l else h !! l.

Lemma set_values_non_entry l o :
  h !! l = Some o -> is_entry o = false -> h' !! l = Some o.
Proof.
  intros Hl He. rewrite Hpt, Hl. destruct (decide (l ∈ items)); [|done].
  by destruct o.
Qed.

Lemma set_values_items_of l : items_of h' l = items_of h l.
Proof.
  unfold items_of. rewrite Hpt.
  destruct (decide (l ∈ items)); [|done]. by destruct (h !! l) as [[]|].
Qed.

Lemma set_values_in_class l : l ∈ items -> exists x, h !! l ≫= cls = Some x.
Proof.
  intros Hin. apply list_elem_of_lookup in Hin as [i Hi].
  destruct (Forall2_lookup_l _ _ _ _ _ Hxs Hi) as (y & _ & Hy). eauto.
Qed.

(** The list itself reads with the new value everywhere. *)
Lemma set_values_same : read_entries cls h' L = Some (wv <$> xs).
Proof.
  apply read_entries_Some. exists items. split.
  - apply set_values_non_entry; done.
  - apply Forall2_fmap_r.
    apply Forall2_same_length_lookup. split; [by eapply Forall2_length|].
    intros i a x Ha Hx.
    destruct (Forall2_lookup_l _ _ _ _ _ Hxs Ha) as (y & Hy & Hay).
    assert (y = x) as -> by congruence.
    rewrite Hpt. rewrite decide_True by (by eapply list_elem_of_lookup_2).
    destruct (h !! a) as [o|]; [|done]. simpl in *. by rewrite Hwv, Hay.
Qed.

(** A list of another class reads as before. *)
Lemma set_values_other {B} (cls' : obj -> option B) L' ys :
  entry_class cls' -> disjoint_classes cls cls' ->
  read_entries cls' h L' = Some ys -> read_entries cls' h' L' = Some ys.
Proof.
  intros Hcls' Hdis (items' & HL' & HF)%read_entries_Some.
  apply read_entries_Some. exists items'. split.
  - apply set_values_non_entry; done.
  - eapply Forall2_impl; [done|]. intros a y Hy. simpl in Hy. rewrite Hpt.
    destruct (decide (a ∈ items)) as [Hin|]; [|done].
    destruct (set_values_in_class _ Hin) as [x Hx].
    destruct (h !! a) as [o|]; [|done]. simpl in *. by destruct (Hdis o x y).
Qed.
End set_values.

(** The loop [for entry in L: entry.value = v], for a list [L] of entries
    of one class. *)
Lemma value_loop_spec {A} (cls : obj -> option A) (wv : A -> A) v (h : heap) L xs :
  entry_class cls -> (forall o, cls (with_value v o) = wv <$> cls o) ->
  read_entries cls h L = Some xs ->
  exists items h',
    list_items L h = (Ok items, h)
    /\ for_each (set_value v) items h = (Ok tt, h')
    /\ items = items_of h L
    /\ read_entries cls h' L = Some (wv <$> xs)
    /\ (forall B (cls' : obj -> option B) L' ys,
          entry_class cls' -> disjoint_classes cls cls' ->
          read_entries cls' h L' = Some ys -> read_entries cls' h' L' = Some ys)
    /\ (forall l o, h !! l = Some o -> is_entry o = false -> h' !! l = Some o)
    /\ (forall l, items_of h' l = items_of h l)
    /\ (forall l, l ∉ items_of h L -> h' !! l = h !! l).
Proof.
  intros Hcls Hwv Hread.
  pose proof Hread as (items & HL & HF)%read_entries_entry_at; [|done].
  pose proof Hread as (items0 & HL0 & Hxs)%read_entries_Some.
  assert (items0 = items) as -> by congruence.
  destruct (set_values_spec v items h HF) as (h' & E & Hlen & Hpt).
  exists items, h'. split_and!.
  - by apply list_items_Some.
  - done.
  - unfold items_of. by rewrite HL.
  - eapply set_values_same; eauto.
  - intros B cls' L' ys ? ? ?. eapply set_values_other; eauto.
  - intros l o ? ?. eapply set_values_non_entry; eauto.
  - intros l. eapply set_values_items_of; eauto.
  - intros l Hl. rewrite Hpt. unfold items_of in Hl. rewrite HL in Hl.
    by rewrite decide_False.
Qed.

(** ** Rebuilding the basal schedule *)

Lemma lookup_snoc {A} (l : list A) x : (l ++ [x]) !! length l = Some x.
Proof. rewrite lookup_app_r, Nat.sub_diag; [done | lia]. Qed.

Lemma convert_all_cons e rest :
  convert_all (e :: rest) =
  match convert_basal_entry e with
  | Ok b => match convert_all rest with
            | Ok bs => Ok (b :: bs)
            | Raise err => Raise err
            end
  | Raise err => Raise err
  end.
Proof. reflexivity. Qed.

Lemma append_basal_Raise p e err (k : M unit) (h : heap) :
  convert_basal_entry e = Raise err -> (append_basal p e ;; k) h = (Raise err, h).
Proof. intros Ec. unfold append_basal, mbind, SE_bind, liftSE. by rewrite Ec. Qed.

Lemma append_basal_Ok p d e b items (k : M unit) (h : heap) :
  convert_basal_entry e = Ok b ->
  h !! p = Some (OProfile d) ->
  h !! ProfileStoreObj.basal d = Some (OList items) ->
  (append_basal p e ;; k) h =
  k (<[ProfileStoreObj.basal d:=OList (items ++ [length h])]> (h ++ [OBasal b])).
Proof.
  intros Ec Hp Hnb.
  assert (Hp1 : (h ++ [OBasal b]) !! p = Some (OProfile d)).
  { rewrite lookup_app_l; [done|]. by eapply lookup_lt_Some. }
  assert (Hnb1 : (h ++ [OBasal b]) !! ProfileStoreObj.basal d = Some (OList items)).
  { rewrite lookup_app_l; [done|]. by eapply lookup_lt_Some. }
  apply (bind_eq (append_basal p e) (fun _ => k) h tt). unfold append_basal.
  rewrite (bind_eq _ _ h b h) by (unfold liftSE; by rewrite Ec).
  rewrite (bind_eq _ _ h (length h) (h ++ [OBasal b])) by done.
  rewrite (bind_eq _ _ _ _ _ (profile_dict_Some _ _ _ Hp1)).
  unfold list_append.
  by rewrite (bind_eq _ _ _ _ _ (list_items_Some _ _ _ Hnb1)).
Qed.

Lemma basal_loop_spec p d es : forall (h : heap) items bs0,
  h !! p = Some (OProfile d) ->
  h !! ProfileStoreObj.basal d = Some (OList items) ->
  Forall2 (fun a e => h !! a = Some (OBasal e)) items bs0 ->
  match convert_all es with
  | Ok bs =>
      exists h' items',
        for_each (append_basal p) es h = (Ok tt, h')
        /\ h' !! ProfileStoreObj.basal d = Some (OList items')
        /\ Forall2 (fun a e => h' !! a = Some (OBasal e)) items' (bs0 ++ bs)
        /\ (forall l, (l < length h)%nat -> l <> ProfileStoreObj.basal d ->
                      h' !! l = h !! l)
        /\ (length h <= length h')%nat
        /\ Forall (fun a => a ∈ items \/ (length h <= a)%nat) items'
  | Raise e =>
      exists h',
        for_each (append_basal p) es h = (Raise e, h')
        /\ (forall l, (l < length h)%nat -> l <> ProfileStoreObj.basal d ->
                      h' !! l = h !! l)
        /\ (length h <= length h')%nat
  end.
Proof.
  set (nb := ProfileStoreObj.basal d).
  induction es as [|e rest IH]; intros h items bs0 Hp Hnb HF.
  - simpl. exists h, items. rewrite app_nil_r. split_and!; try done.
    apply Forall_forall. auto.
  - rewrite convert_all_cons.
    destruct (convert_basal_entry e) as [b|err] eqn:Ec;
      [|exists h; split_and!; [|done..];
        by apply (append_basal_Raise p e err (for_each (append_basal p) rest))].
    assert (Hpl : (p < length h)%nat) by by eapply lookup_lt_Some.
    assert (Hnl : (nb < length h)%nat) by by eapply lookup_lt_Some.
    assert (Hne : p <> nb) by (intros ->; congruence).
    pose proof (fun k => append_basal_Ok p d e b items k h Ec Hp Hnb) as Estep.
    fold nb in Estep.
    set (h1 := h ++ [OBasal b]) in *.
    set (h2 := <[nb:=OList (items ++ [length h])]> h1) in *.
    assert (Hlen1 : length h1 = S (length h)).
    { unfold h1. rewrite length_app. simpl. lia. }
    assert (Hp1 : h1 !! p = Some (OProfile d)).
    { unfold h1. rewrite lookup_app_l; done. }
    assert (Hp2 : h2 !! p = Some (OProfile d)).
    { unfold h2. rewrite list_lookup_insert_ne; done. }
    assert (Hnb2 : h2 !! nb = Some (OList (items ++ [length h])))
      by (unfold h2; rewrite list_lookup_insert_eq; [done | lia]).
    assert (Hlen2 : length h2 = S (length h))
      by (unfold h2; by rewrite length_insert).
    assert (HF2 : Forall2 (fun a e => h2 !! a = Some (OBasal e))
                    (items ++ [length h]) (bs0 ++ [b])).
    { apply Forall2_app.
      - eapply Forall2_impl; [done|]. intros a x Ha. simpl in *.
        assert (a <> nb) by (intros ->; congruence).
        unfold h2, h1. rewrite list_lookup_insert_ne by done.
        rewrite lookup_app_l; [done|]. by eapply lookup_lt_Some.
      - constructor; [|constructor]. unfold h2, h1.
        rewrite list_lookup_insert_ne by lia. apply lookup_snoc. }
    specialize (IH h2 _ _ Hp2 Hnb2 HF2).
    destruct (convert_all rest) as [bs|err].
    + destruct IH as (h' & items' & E & Hnb' & HF' & Hfr & Hlen & Hnew).
      exists h', items'. split_and!.
      * change (for_each (append_basal p) (e :: rest))
          with (append_basal p e ;; for_each (append_basal p) rest).
        by rewrite Estep.
      * done.
      * by rewrite <- app_assoc in HF'.
      * intros l Hl Hln. rewrite Hfr by (done || lia).
        unfold h2, h1. rewrite list_lookup_insert_ne by done.
        by rewrite lookup_app_l.
      * lia.
      * eapply Forall_impl; [done|]. intros a [Ha|Ha].
        -- apply elem_of_app in Ha as [?|Ha]; [by left|right].
           apply list_elem_of_singleton in Ha. lia.
        -- right. lia.
    + destruct IH as (h' & E & Hfr & Hlen). exists h'. split_and!.
      * change (for_each (append_basal p) (e :: rest))
          with (append_basal p e ;; for_each (append_basal p) rest).
        by rewrite Estep.
      * intros l Hl Hln. rewrite Hfr by (done || lia).
        unfold h2, h1. rewrite list_lookup_insert_ne by done.
        by rewrite lookup_app_l.
      * lia.
Qed.

(** ** Instances of valid profiles *)

Lemma alloc_all_spec {A} (mk : A -> obj) xs : forall h : heap,
  alloc_all mk xs h = (Ok (seq (length h) (length xs)), h ++ (mk <$> xs)).
Proof.
  induction xs as [|x xs IH]; intros h; simpl.
  - by rewrite app_nil_r.
  - rewrite (bind_eq _ _ h (length h) (h ++ [mk x])) by done.
    rewrite (bind_eq _ _ _ _ _ (IH _)). rewrite length_app. simpl.
    rewrite <- app_assoc. simpl. by rewrite Nat.add_1_r.
Qed.

Lemma new_list_spec {A} (mk : A -> obj) (cls : obj -> option A) xs (h : heap) :
  (forall x, cls (mk x) = Some x) ->
  exists l h',
    new_list mk xs h = (Ok l, h')
    /\ h `prefix_of` h'
    /\ read_entries cls h' l = Some xs.
Proof.
  intros Hcls. unfold new_list.
  rewrite (bind_eq _ _ _ _ _ (alloc_all_spec mk xs h)).
  eexists _, _. split; [reflexivity|]. split.
  - apply prefix_app_r, prefix_app_r. done.
  - apply read_entries_Some. eexists. split; [apply lookup_snoc|].
    apply Forall2_same_length_lookup. split; [by rewrite length_seq|].
    intros i a x Ha Hx. apply lookup_seq in Ha as [-> Hi].
    rewrite lookup_app_l by (rewrite !length_app, length_fmap; lia).
    rewrite lookup_app_r by lia.
    replace (length h + i - length h)%nat with i by lia.
    rewrite list_lookup_fmap, Hx. simpl. apply Hcls.
Qed.

(** Every valid profile value has an instance: [new_profile] builds a
    profile that reads as the value it was given. *)
Lemma new_profile_view P (h : heap) :
  ProfileStore.valid P = true ->
  exists p h',
    new_profile P h = (Ok p, h') /\ h `prefix_of` h' /\ view h' p = Some P.
Proof.
  intros Hvalid. unfold new_profile. rewrite Hvalid.
  destruct (new_list_spec OCarbRatio as_carbratio (ProfileStore.carbratio P) h
              (fun _ => eq_refl)) as (cr & h1 & E1 & P1 & R1).
  destruct (new_list_spec OSens as_sens (ProfileStore.sens P) h1
              (fun _ => eq_refl)) as (se & h2 & E2 & P2 & R2).
  destruct (new_list_spec OBasal as_basal (ProfileStore.basal P) h2
              (fun _ => eq_refl)) as (ba & h3 & E3 & P3 & R3).
  destruct (new_list_spec OTarget as_target (ProfileStore.target_low P) h3
              (fun _ => eq_refl)) as (tl & h4 & E4 & P4 & R4).
  destruct (new_list_spec OTarget as_target (ProfileStore.target_high P) h4
              (fun _ => eq_refl)) as (th & h5 & E5 & P5 & R5).
  rewrite (bind_eq _ _ _ _ _ E1), (bind_eq _ _ _ _ _ E2), (bind_eq _ _ _ _ _ E3),
    (bind_eq _ _ _ _ _ E4), (bind_eq _ _ _ _ _ E5).
  eexists _, _. split; [reflexivity|].
  assert (P6 : h5 `prefix_of` h5 ++ [OProfile (ProfileStoreObj.mk (ProfileStore.dia P)
                 cr se ba tl th (ProfileStore.timezone P) (ProfileStore.units P))])
    by by apply prefix_app_r.
  split; [by repeat (etrans; [eassumption|])|].
  apply view_Some. eexists. split; [apply lookup_snoc|]. simpl.
  split_and!; try done.
  - eapply read_entries_prefix; [exact R1|]. by repeat (etrans; [eassumption|]).
  - eapply read_entries_prefix; [exact R2|]. by repeat (etrans; [eassumption|]).
  - eapply read_entries_prefix; [exact R3|]. by repeat (etrans; [eassumption|]).
  - eapply read_entries_prefix; [exact R4|]. by repeat (etrans; [eassumption|]).
  - eapply read_entries_prefix; [exact R5|]. done.
Qed.

(** ** [apply_recommendations] *)

Lemma prefix_lookup_intro {A} (l1 : list A) : forall l2 : list A,
  (forall i x, l1 !! i = Some x -> l2 !! i = Some x) -> l1 `prefix_of` l2.
Proof.
  induction l1 as [|a l1 IH]; intros l2 Hl; [apply prefix_nil|].
  destruct l2 as [|b l2]; [by specialize (Hl 0%nat a eq_refl)|].
  pose proof (Hl 0%nat a eq_refl) as [= ->].
  apply prefix_cons, IH. intros i x Hi. exact (Hl (S i) x Hi).
Qed.

Lemma read_entries_agree {A} (cls : obj -> option A) p d (h h' : heap) L xs :
  agree_except p h h' -> h !! p = Some (OProfile d) -> entry_class cls ->
  read_entries cls h L = Some xs -> read_entries cls h' L = Some xs.
Proof.
  intros Hag Hp Hcls (items & HL & HF)%read_entries_Some.
  apply read_entries_Some. exists items. split.
  - apply Hag; [done|]. intros ->. congruence.
  - eapply Forall2_impl; [done|]. intros a x Ha. simpl in Ha.
    destruct (h !! a) as [o|] eqn:E; [|done]. simpl in Ha.
    rewrite (Hag a o E); [done|]. intros ->.
    assert (o = OProfile d) as -> by congruence.
    by pose proof (Hcls _ _ Ha).
Qed.

Lemma items_of_agree p d (h h' : heap) L items :
  agree_except p h h' -> h !! p = Some (OProfile d) ->
  h !! L = Some (OList items) -> items_of h' L = items_of h L.
Proof.
  intros Hag Hp HL. unfold items_of. rewrite HL.
  rewrite (Hag L _ HL); [done|]. intros ->. congruence.
Qed.

Lemma agree_except_trans p (h1 h2 h3 : heap) :
  agree_except p h1 h2 -> agree_except p h2 h3 -> agree_except p h1 h3.
Proof. intros H12 H23 l o Hl Hne. apply H23; [|done]. by apply H12. Qed.

Lemma agree_except_app p (h k : heap) : agree_except p h (h ++ k).
Proof. intros l o Hl _. by apply lookup_app_l_Some. Qed.

Lemma agree_except_insert p o (h : heap) : agree_except p h (<[p:=o]> h).
Proof. intros l o' Hl Hne. by rewrite list_lookup_insert_ne. Qed.

Lemma as_carbratio_with_value v o :
  as_carbratio (with_value v o) = CarbRatioEntry.with_value v <$> as_carbratio o.
Proof. by destruct o. Qed.

Lemma as_sens_with_value v o :
  as_sens (with_value v o) = SensitivityEntry.with_value v <$> as_sens o.
Proof. by destruct o. Qed.

Lemma disjoint_carbratio_sens : disjoint_classes as_carbratio as_sens.
Proof. by intros []. Qed.
Lemma disjoint_carbratio_basal : disjoint_classes as_carbratio as_basal.
Proof. by intros []. Qed.
Lemma disjoint_carbratio_target : disjoint_classes as_carbratio as_target.
Proof. by intros []. Qed.
Lemma disjoint_sens_carbratio : disjoint_classes as_sens as_carbratio.
Proof. by intros []. Qed.
Lemma disjoint_sens_basal : disjoint_classes as_sens as_basal.
Proof. by intros []. Qed.
Lemma disjoint_sens_target : disjoint_classes as_sens as_target.
Proof. by intros []. Qed.

#[local] Hint Resolve disjoint_carbratio_sens disjoint_carbratio_basal
  disjoint_carbratio_target disjoint_sens_carbratio disjoint_sens_basal
  disjoint_sens_target : store.

Lemma read_entries_lt {A} (cls : obj -> option A) (h : heap) L xs :
  read_entries cls h L = Some xs ->
  (L < length h)%nat /\ Forall (fun a => (a < length h)%nat) (items_of h L).
Proof.
  intros (items & HL & HF)%read_entries_Some. split; [by eapply lookup_lt_Some|].
  unfold items_of. rewrite HL. clear HL.
  induction HF as [|a x ? ? Ha _ IH]; constructor; [|done].
  destruct (h !! a) eqn:E; [|done]. by eapply lookup_lt_Some.
Qed.

(** The objects of a profile that reads are all in the store. *)
Lemma reach_lt (h : heap) p P :
  view h p = Some P -> Forall (fun l => (l < length h)%nat) (reach h p).
Proof.
  intros (d & Hp & Hcr & Hse & Hba & Htl & Hth & _)%view_Some.
  unfold reach. rewrite Hp. simpl. rewrite app_nil_r.
  apply read_entries_lt in Hcr as [], Hse as [], Hba as [], Htl as [], Hth as [].
  constructor; [by eapply lookup_lt_Some|].
  repeat (first [apply Forall_app; split | apply Forall_cons; split]); done.
Qed.

Lemma items_of_agree_read {A} (cls : obj -> option A) p d (h h' : heap) L xs :
  agree_except p h h' -> h !! p = Some (OProfile d) ->
  read_entries cls h L = Some xs -> items_of h' L = items_of h L.
Proof.
  intros Hag Hp (items & HL & _)%read_entries_Some. by eapply items_of_agree.
Qed.


Lemma apply_recommendations_spec (h : heap) p P R :
  view h p = Some P ->
  match new_basal P (AutotuneRecommendations.result R) with
  | Ok bs =>
      exists p' h',
        apply_recommendations p R h = (Ok p', h')
        /\ h `prefix_of` h'
        /\ view h' p' = Some (reconciled P (AutotuneRecommendations.result R) bs)
        /\ Forall (fun l => (length h <= l)%nat) (reach h' p')
  | Raise e =>
      exists h', apply_recommendations p R h = (Raise e, h') /\ h `prefix_of` h'
  end.
Proof.
  intros Hview. set (r := AutotuneRecommendations.result R).
  destruct (model_copy_deep_spec h p P Hview) as (p1 & h1 & E0 & Hpre1 & Hview1 & Hreach1).
  pose proof Hview1 as (d1 & Hp1 & Rcr & Rse & Rba & Rtl & Rth & Hdia & Htz & Hun)%view_Some.
  unfold reach in Hreach1. rewrite Hp1 in Hreach1. simpl in Hreach1.
  rewrite app_nil_r in Hreach1.
  apply Forall_cons in Hreach1 as [Fp1 Hreach1].
  apply Forall_cons in Hreach1 as [Fcr Hreach1].
  apply Forall_app in Hreach1 as [Gcr Hreach1].
  apply Forall_cons in Hreach1 as [Fse Hreach1].
  apply Forall_app in Hreach1 as [Gse Hreach1].
  apply Forall_cons in Hreach1 as [Fba Hreach1].
  apply Forall_app in Hreach1 as [Gba Hreach1].
  apply Forall_cons in Hreach1 as [Ftl Hreach1].
  apply Forall_app in Hreach1 as [Gtl Hreach1].
  apply Forall_cons in Hreach1 as [Fth Gth].
  (* the carb-ratio loop *)
  destruct (value_loop_spec as_carbratio (CarbRatioEntry.with_value (AutotuneResult.carb_ratio r))
              (AutotuneResult.carb_ratio r) h1 _ _ entry_class_carbratio
              (as_carbratio_with_value _) Rcr)
    as (i1 & h2 & L1 & E1 & Hi1 & Rcr2 & Hoth1 & Hne1 & Hit1 & Hfr1).
  pose proof (Hne1 _ _ Hp1 eq_refl) as Hp2.
  pose proof (Hoth1 _ _ _ _ entry_class_sens disjoint_carbratio_sens Rse) as Rse2.
  pose proof (Hoth1 _ _ _ _ entry_class_basal disjoint_carbratio_basal Rba) as Rba2.
  pose proof (Hoth1 _ _ _ _ entry_class_target disjoint_carbratio_target Rtl) as Rtl2.
  pose proof (Hoth1 _ _ _ _ entry_class_target disjoint_carbratio_target Rth) as Rth2.
  (* the sensitivity loop *)
  destruct (value_loop_spec as_sens (SensitivityEntry.with_value (AutotuneResult.sens r))
              (AutotuneResult.sens r) h2 _ _ entry_class_sens
              (as_sens_with_value _) Rse2)
    as (i2 & h3 & L2 & E2 & Hi2 & Rse3 & Hoth2 & Hne2 & Hit2 & Hfr2).
  pose proof (Hne2 _ _ Hp2 eq_refl) as Hp3.
  pose proof (Hoth2 _ _ _ _ entry_class_carbratio disjoint_sens_carbratio Rcr2) as Rcr3.
  pose proof (Hoth2 _ _ _ _ entry_class_basal disjoint_sens_basal Rba2) as Rba3.
  pose proof (Hoth2 _ _ _ _ entry_class_target disjoint_sens_target Rtl2) as Rtl3.
  pose proof (Hoth2 _ _ _ _ entry_class_target disjoint_sens_target Rth2) as Rth3.
  (* nothing of the store given has changed so far *)
  assert (Hold3 : forall i x, h !! i = Some x -> h3 !! i = Some x).
  { intros i x Hi. pose proof (lookup_lt_Some _ _ _ Hi) as Hlt.
    rewrite Hfr2.
    - rewrite Hfr1; [by eapply prefix_lookup_Some|].
      intros Hin. rewrite Forall_forall in Gcr. specialize (Gcr _ Hin). lia.
    - rewrite Hit1. intros Hin.
      rewrite Forall_forall in Gse. specialize (Gse _ Hin). lia. }
  assert (Hits : forall l, items_of h3 l = items_of h1 l)
    by (intros l; by rewrite Hit2, Hit1).
  (* the program up to the basal schedule *)
  assert (Eprog : forall k : M loc,
    (d ← profile_dict p1;
     entries ← list_items (ProfileStoreObj.carbratio d);
     for_each (set_value (AutotuneResult.carb_ratio r)) entries;;
     d ← profile_dict p1;
     entries ← list_items (ProfileStoreObj.sens d);
     for_each (set_value (AutotuneResult.sens r)) entries;;
     k) h1 = k h3).
  { intros k.
    rewrite (bind_eq _ _ _ _ _ (profile_dict_Some _ _ _ Hp1)).
    rewrite (bind_eq _ _ _ _ _ L1), (bind_eq _ _ _ _ _ E1).
    rewrite (bind_eq _ _ _ _ _ (profile_dict_Some _ _ _ Hp2)).
    by rewrite (bind_eq _ _ _ _ _ L2), (bind_eq _ _ _ _ _ E2). }
  assert (Eapp : forall k : loc -> M loc,
    (model_copy_deep p ≫= k) h = k p1 h1) by (intros k; by apply bind_eq).
  unfold apply_recommendations. rewrite Eapp. fold r. rewrite Eprog.
  clear Eapp Eprog.
  (* the basal schedule *)
  assert (Hbasal :
    match new_basal P r with
    | Ok bs =>
        exists h4 nb,
          (forall k : M loc,
             (match AutotuneResult.basalprofile r with
              | [] => mret tt
              | _ :: _ =>
                  empty ← alloc (OList []);
                  setattr_basal p1 empty;;
                  for_each (append_basal p1) (AutotuneResult.basalprofile r)
              end ;; k) h3 = k h4)
          /\ h4 !! p1 = Some (OProfile (ProfileStoreObj.set_basal nb d1))
          /\ agree_except p1 h3 h4
          /\ read_entries as_basal h4 nb = Some bs
          /\ (length h <= nb)%nat
          /\ Forall (fun l => (length h <= l)%nat) (items_of h4 nb)
    | Raise e =>
        exists h4,
          (forall k : M loc,
             (match AutotuneResult.basalprofile r with
              | [] => mret tt
              | _ :: _ =>
                  empty ← alloc (OList []);
                  setattr_basal p1 empty;;
                  for_each (append_basal p1) (AutotuneResult.basalprofile r)
              end ;; k) h3 = (Raise e, h4))
          /\ agree_except p1 h3 h4
    end).
  { unfold new_basal. destruct (AutotuneResult.basalprofile r) as [|e es] eqn:Ebp.
    - exists h3, (ProfileStoreObj.basal d1). split_and!; try done.
      + by destruct d1.
      + by intros l o.
      + by rewrite Hits.
    - set (nb := length h3).
      set (h3a := h3 ++ [OList []]).
      set (d3 := ProfileStoreObj.set_basal nb d1).
      set (h3b := <[p1:=OProfile d3]> h3a).
      assert (Hp1lt : (p1 < length h3)%nat) by by eapply lookup_lt_Some.
      assert (Hp3a : h3a !! p1 = Some (OProfile d1))
        by (unfold h3a; by rewrite lookup_app_l).
      assert (Hlen3a : length h3a = S (length h3)).
      { unfold h3a. rewrite length_app. simpl. lia. }
      assert (Hp3b : h3b !! p1 = Some (OProfile d3)).
      { unfold h3b. rewrite list_lookup_insert_eq; [done | lia]. }
      assert (Hnb3b : h3b !! ProfileStoreObj.basal d3 = Some (OList [])).
      { unfold h3b, h3a. simpl. rewrite list_lookup_insert_ne by (unfold nb; lia).
        apply lookup_snoc. }
      assert (Hlen3b : length h3b = S (length h3))
        by (unfold h3b; by rewrite length_insert).
      assert (Estart : forall k : M unit,
        (empty ← alloc (OList []); setattr_basal p1 empty;; k) h3 = k h3b).
      { intros k. rewrite (bind_eq _ _ h3 nb h3a) by done.
        unfold setattr_basal.
        apply (bind_eq (d ← profile_dict p1; store p1 (OProfile (ProfileStoreObj.set_basal nb d)))
                 (fun _ => k) h3a tt h3b).
        by rewrite (bind_eq _ _ _ _ _ (profile_dict_Some _ _ _ Hp3a)). }
      pose proof (basal_loop_spec p1 d3 (e :: es) h3b [] [] Hp3b Hnb3b
                    ltac:(constructor)) as Hloop.
      destruct (convert_all (e :: es)) as [bs|err].
      + destruct Hloop as (h4 & items' & E4 & Hnb4 & HF4 & Hfr4 & Hlen4 & Hnew4).
        simpl in Hnb4, Hfr4.
        assert (Hp4 : h4 !! p1 = Some (OProfile d3)).
        { rewrite Hfr4; [done | lia | unfold nb; lia]. }
        exists h4, nb. split_and!.
        * intros k. apply (bind_eq _ (fun _ => k) h3 tt h4).
          by rewrite Estart.
        * done.
        * intros l o Hl Hne. pose proof (lookup_lt_Some _ _ _ Hl).
          rewrite Hfr4 by (unfold nb; lia).
          unfold h3b, h3a. rewrite list_lookup_insert_ne by done.
          by rewrite lookup_app_l.
        * apply read_entries_Some. exists items'. split; [done|].
          eapply Forall2_impl; [done|]. intros a x Ha. simpl. by rewrite Ha.
        * unfold nb. apply prefix_length. by apply prefix_lookup_intro.
        * unfold items_of. rewrite Hnb4.
          eapply Forall_impl; [done|]. intros a [Ha|Ha]; [by apply elem_of_nil in Ha|].
          unfold nb in *. lia.
      + destruct Hloop as (h4 & E4 & Hfr4 & Hlen4). exists h4. split.
        * intros k. apply bind_Raise. by rewrite Estart.
        * intros l o Hl Hne. pose proof (lookup_lt_Some _ _ _ Hl).
          rewrite Hfr4 by (simpl; unfold nb; lia).
          unfold h3b, h3a. rewrite list_lookup_insert_ne by done.
          by rewrite lookup_app_l. }
  destruct (new_basal P r) as [bs|err].
  2: { destruct Hbasal as (h4 & E4 & Hag4). exists h4. split; [by apply E4|].
       apply prefix_lookup_intro. intros i x Hi.
       pose proof (lookup_lt_Some _ _ _ Hi).
       apply Hag4; [by apply Hold3 | lia]. }
  destruct Hbasal as (h4 & nb & E4 & Hp4 & Hag4 & Rba4 & Fnb & Gnb).
  set (d4 := ProfileStoreObj.set_basal nb d1) in *.
  set (d5 := ProfileStoreObj.set_dia (new_dia P r) d4).
  set (h5 := <[p1:=OProfile d5]> h4).
  assert (Hp4lt : (p1 < length h4)%nat) by by eapply lookup_lt_Some.
  assert (Edia :
    (match AutotuneResult.dia r with
     | Some v => if Py.float_truthy v then setattr_dia p1 v else mret tt
     | None => mret tt
     end ;; mret p1) h4 = (Ok p1, h5)).
  { assert (Hsame : new_dia P r = ProfileStore.dia P -> h5 = h4).
    { intros Hn. unfold h5, d5. rewrite Hn, <- Hdia.
      apply list_insert_id. rewrite Hp4. by destruct d1. }
    unfold new_dia in *.
    destruct (AutotuneResult.dia r) as [v|]; [|by rewrite Hsame].
    destruct (Py.float_truthy v); [|by rewrite Hsame].
    rewrite (bind_eq (setattr_dia p1 v) (fun _ => mret p1) h4 tt h5); [done|].
    unfold setattr_dia. by rewrite (bind_eq _ _ _ _ _ (profile_dict_Some _ _ _ Hp4)). }
  assert (Hag5 : agree_except p1 h4 h5) by apply agree_except_insert.
  assert (Hag35 : agree_except p1 h3 h5) by by eapply agree_except_trans.
  assert (Hp5 : h5 !! p1 = Some (OProfile d5))
    by (unfold h5; by rewrite list_lookup_insert_eq).
  exists p1, h5. split_and!.
  - by rewrite E4.
  - apply prefix_lookup_intro. intros i x Hi.
    pose proof (lookup_lt_Some _ _ _ Hi).
    apply Hag35; [by apply Hold3 | lia].
  - apply view_Some. exists d5. split_and!; try done.
    + eapply read_entries_agree; eauto with store.
    + eapply read_entries_agree; eauto with store.
    + eapply (read_entries_agree _ _ _ h4); eauto with store.
    + eapply read_entries_agree; eauto with store.
    + eapply read_entries_agree; eauto with store.
  - unfold reach. rewrite Hp5. simpl. rewrite app_nil_r.
    rewrite (items_of_agree_read _ _ _ _ _ _ _ Hag35 Hp3 Rcr3), Hits.
    rewrite (items_of_agree_read _ _ _ _ _ _ _ Hag35 Hp3 Rse3), Hits.
    rewrite (items_of_agree_read _ _ _ _ _ _ _ Hag5 Hp4 Rba4).
    rewrite (items_of_agree_read _ _ _ _ _ _ _ Hag35 Hp3 Rtl3), Hits.
    rewrite (items_of_agree_read _ _ _ _ _ _ _ Hag35 Hp3 Rth3), Hits.
    constructor; [done|].
    repeat (first [apply Forall_app; split | apply Forall_cons; split]); done.
Qed.

(** ** Start times *)

Lemma is_digit_inv c :
  Py.is_digit c = true -> c ∈ list_ascii_of_string "0123456789".
Proof.
  destruct c as [[] [] [] [] [] [] [] []]; intros Hd; vm_compute in Hd;
    try discriminate; simpl; set_solver.
Qed.

Lemma is_digit_not_colon c : Py.is_digit c = true -> Ascii.eqb c ":" = false.
Proof.
  intros Hd%is_digit_inv. simpl in Hd.
  repeat (apply elem_of_cons in Hd as [->|Hd]; [reflexivity|]).
  by apply elem_of_nil in Hd.
Qed.

Lemma int_two_digits a b :
  Py.is_digit a = true -> Py.is_digit b = true ->
  Py.int (String a (String b EmptyString)) = Ok (10 * Py.digit_val a + Py.digit_val b).
Proof.
  intros Ha%is_digit_inv Hb%is_digit_inv. simpl in Ha, Hb.
  repeat (apply elem_of_cons in Ha as [->|Ha]);
    try (by apply elem_of_nil in Ha);
    repeat (apply elem_of_cons in Hb as [->|Hb]);
    try (by apply elem_of_nil in Hb); reflexivity.
Qed.

Lemma digit_val_nonneg c : 0 <= Py.digit_val c.
Proof. unfold Py.digit_val. lia. Qed.

(** An HH:MM:SS start time converts to its truncation. *)
Lemma convert_basal_entry_hhmmss e :
  is_hhmmss (AutotuneBasalEntry.start e) = true ->
  Py.float_ge0 (AutotuneBasalEntry.rate e) = true ->
  convert_basal_entry e = Ok (truncated_entry e).
Proof.
  destruct e as [start mins rate]. unfold truncated_entry, convert_basal_entry.
  simpl. intros Hfmt Hrate.
  destruct start as [|h1 [|h2 [|c1 [|m1 [|m2 [|c2 [|s1 [|s2 [|? ?]]]]]]]]];
    try discriminate.
  cbv beta iota delta [is_hhmmss] in Hfmt.
  do 7 (apply andb_prop in Hfmt as [Hfmt ?]).
  repeat match goal with
         | H : Ascii.eqb _ ":" = true |- _ => apply Ascii.eqb_eq in H; subst
         end.
  simpl.
  rewrite (is_digit_not_colon h1), (is_digit_not_colon h2), (is_digit_not_colon m1),
    (is_digit_not_colon m2), (is_digit_not_colon s1), (is_digit_not_colon s2) by done.
  simpl. rewrite (int_two_digits h1 h2), (int_two_digits m1 m2) by done. simpl.
  unfold BasalScheduleEntry.new, BasalScheduleEntry.valid. simpl. rewrite Hrate.
  unfold decimal. simpl.
  pose proof (digit_val_nonneg h1). pose proof (digit_val_nonneg h2).
  pose proof (digit_val_nonneg m1). pose proof (digit_val_nonneg m2).
  rewrite (proj2 (Z.leb_le _ _)) by lia. simpl.
  do 2 f_equal.
Qed.

Lemma convert_all_hhmmss es :
  Forall (fun e => is_hhmmss (AutotuneBasalEntry.start e) = true
                   /\ Py.float_ge0 (AutotuneBasalEntry.rate e) = true) es ->
  convert_all es = Ok (truncated_entry <$> es).
Proof.
  induction 1 as [|e es [Hf Hr] _ IH]; [done|].
  by rewrite convert_all_cons, (convert_basal_entry_hhmmss e Hf Hr), IH.
Qed.

Lemma float_gt0_truthy v : Py.float_gt0 v = true -> Py.float_truthy v = true.
Proof.
  destruct v as [q| |]; simpl; try done. intros Hq%Z.ltb_lt.
  apply negb_true_iff, Z.eqb_neq. lia.
Qed.

(** What a documented recommendation gives. *)
Lemma documented_inv R :
  documented R = true ->
  let r := AutotuneRecommendations.result R in
  convert_all (AutotuneResult.basalprofile r)
    = Ok (truncated_entry <$> AutotuneResult.basalprofile r)
  /\ match AutotuneResult.dia r with
     | Some v => Py.float_truthy v = true
     | None => True
     end.
Proof.
  unfold documented, AutotuneRecommendations.valid, AutotuneResult.valid.
  intros H. repeat (apply andb_prop in H as [H ?]).
  split.
  - apply convert_all_hhmmss. apply Forall_forall. intros e He.
    apply list_elem_of_In in He.
    match goal with Hf : forallb (fun _ => is_hhmmss _) _ = true |- _ =>
      rewrite forallb_forall in Hf; pose proof (Hf _ He) end.
    rewrite forallb_forall in H. specialize (H _ He).
    unfold AutotuneBasalEntry.valid in H. apply andb_prop in H as [_ H]. done.
  - destruct (AutotuneResult.dia _); [by apply float_gt0_truthy | done].
Qed.

Lemma documented_new_basal P R :
  documented R = true ->
  let r := AutotuneRecommendations.result R in
  new_basal P r = Ok (match AutotuneResult.basalprofile r with
                      | [] => ProfileStore.basal P
                      | es => truncated_entry <$> es
                      end).
Proof.
  intros [Hc _]%documented_inv r. unfold new_basal. fold r in Hc.
  by destruct (AutotuneResult.basalprofile r).
Qed.

(** On a documented recommendation [apply_recommendations] returns: a new
    profile [p'] in a store [h'] that extends [h]. *)
Lemma apply_recommendations_documented (h : heap) p P R :
  view h p = Some P -> documented R = true ->
  let r := AutotuneRecommendations.result R in
  exists p' h',
    apply_recommendations p R h = (Ok p', h')
    /\ h `prefix_of` h'
    /\ view h' p' = Some (reconciled P r
                             (match AutotuneResult.basalprofile r with
                              | [] => ProfileStore.basal P
                              | es => truncated_entry <$> es
                              end))
    /\ Forall (fun l => (length h <= l)%nat) (reach h' p').
Proof.
  intros Hview Hdoc r. pose proof (apply_recommendations_spec h p P R Hview) as Hs.
  pose proof (documented_new_basal P R Hdoc) as Hn. simpl in Hn.
  by rewrite Hn in Hs.
Qed.


(** ** What [apply_recommendations] returns *)

(** Whenever the call returns, it returns the reconciled profile. *)
Lemma apply_recommendations_Ok_inv (h : heap) p P R p' h' :
  view h p = Some P ->
  apply_recommendations p R h = (Ok p', h') ->
  let r := AutotuneRecommendations.result R in
  exists bs,
    new_basal P r = Ok bs
    /\ h `prefix_of` h'
    /\ view h' p' = Some (reconciled P r bs)
    /\ Forall (fun l => (length h <= l)%nat) (reach h' p').
Proof.
  intros Hview E r. pose proof (apply_recommendations_spec h p P R Hview) as Hs.
  fold r in Hs. destruct (new_basal P r) as [bs|e].
  - destruct Hs as (p1 & h1 & E1 & Hs). rewrite E in E1. injection E1 as <- <-.
    by exists bs.
  - destruct Hs as (h1 & E1 & _). congruence.
Qed.

(** Whether the call returns or raises, the store it leaves extends the
    store it was given. *)
Lemma apply_recommendations_frame (h : heap) p P R res h' :
  view h p = Some P ->
  apply_recommendations p R h = (res, h') -> h `prefix_of` h'.
Proof.
  intros Hview E. pose proof (apply_recommendations_spec h p P R Hview) as Hs.
  destruct (new_basal P _) as [bs|e].
  - destruct Hs as (p1 & h1 & E1 & Hpre & _). congruence.
  - destruct Hs as (h1 & E1 & Hpre). congruence.
Qed.

(** And on a documented recommendation it returns. *)
Lemma apply_recommendations_returns (h : heap) p P R :
  view h p = Some P -> documented R = true ->
  exists p' h', apply_recommendations p R h = (Ok p', h').
Proof.
  intros Hview Hdoc.
  destruct (apply_recommendations_documented h p P R Hview Hdoc)
    as (p' & h' & E & _). eauto.
Qed.

(** C1. [apply_recommendations] does not mutate the profile it is given.
    For a profile [p] that reads as [P] and any recommendation: after the
    call, whether it returned or raised, [p] still reads as [P] (every
    field as before; indeed no object of the store before the call has
    changed).  When the call returns, no mutable object of the returned
    profile (the instance, its lists, their entries) is an object of [p],
    or of the old store at all.  On a documented recommendation the call
    does return. *)
Theorem apply_recommendations_does_not_mutate (h : heap) p P R :
  view h p = Some P ->
  (forall res h',
     apply_recommendations p R h = (res, h') ->
     view h' p = Some P
     /\ h `prefix_of` h'
     /\ (forall p', res = Ok p' ->
           forall l, l ∈ reach h' p' -> (l ∉ reach h p) /\ (length h <= l)%nat))
  /\ (documented R = true ->
      exists p' h', apply_recommendations p R h = (Ok p', h')).
Proof.
  intros Hview. split; [|by apply (apply_recommendations_returns h p P R)].
  intros res h' E.
  pose proof (apply_recommendations_frame h p P R res h' Hview E) as Hpre.
  split_and!; [by eapply view_prefix | done |].
  intros p' -> l Hl.
  destruct (apply_recommendations_Ok_inv h p P R p' h' Hview E)
    as (bs & _ & _ & _ & Hfresh).
  rewrite Forall_forall in Hfresh. specialize (Hfresh _ Hl).
  split; [|done]. intros Hold.
  pose proof (reach_lt _ _ _ Hview) as Hlt. rewrite Forall_forall in Hlt.
  specialize (Hlt _ Hold). lia.
Qed.

Lemma apply_recommendations_does_not_mutate_witness :
  view Fixtures.mock_heap Fixtures.mock_profile = Some Fixtures.mock_profile_store
  /\ (exists p' h',
        apply_recommendations Fixtures.mock_profile Fixtures.rec_updates Fixtures.mock_heap
          = (Ok p', h')
        /\ view h' Fixtures.mock_profile = Some Fixtures.mock_profile_store
        /\ Fixtures.mock_heap `prefix_of` h'
        /\ (forall l, l ∈ reach h' p' ->
              (l ∉ reach Fixtures.mock_heap Fixtures.mock_profile)
              /\ (length Fixtures.mock_heap <= l)%nat))
  /\ (exists h',
        apply_recommendations Fixtures.mock_profile Fixtures.rec_malformed
          Fixtures.mock_heap = (Raise IndexError, h')
        /\ view h' Fixtures.mock_profile = Some Fixtures.mock_profile_store
        /\ Fixtures.mock_heap `prefix_of` h').
Proof.
  split; [reflexivity|]. split.
  - destruct (apply_recommendations_does_not_mutate Fixtures.mock_heap
                Fixtures.mock_profile Fixtures.mock_profile_store Fixtures.rec_updates
                eq_refl)
      as [Hprop Hret].
    destruct (Hret eq_refl) as (p' & h' & E).
    destruct (Hprop (Ok p') h' E) as (Hv & Hpre & Hfresh).
    exists p', h'. split; [exact E|]. split; [exact Hv|]. split; [exact Hpre|].
    exact (Hfresh p' eq_refl).
  - destruct (apply_recommendations_does_not_mutate Fixtures.mock_heap
                Fixtures.mock_profile Fixtures.mock_profile_store Fixtures.rec_malformed
                eq_refl)
      as [Hprop _].
    eexists. split; [vm_compute; reflexivity|].
    match goal with
    | |- view ?h' _ = _ /\ _ =>
        destruct (Hprop (Raise IndexError) h' ltac:(vm_compute; reflexivity))
          as (Hv & Hpre & _)
    end.
    split; [exact Hv | exact Hpre].
Defined.

(** C2. Whenever the call returns, the carb-ratio schedule of the
    returned profile has as many entries as the one of [P]; each has the
    value [carb_ratio] of the recommendation and the [time] and
    [timeAsSeconds] of the entry of [P] at its place.  The sensitivity
    schedule likewise, with [sens].  On a documented recommendation the
    call does return. *)
Theorem apply_recommendations_uniform_override (h : heap) p P R :
  view h p = Some P ->
  let r := AutotuneRecommendations.result R in
  (forall p' h',
     apply_recommendations p R h = (Ok p', h') ->
     exists P',
       view h' p' = Some P'
       /\ length (ProfileStore.carbratio P') = length (ProfileStore.carbratio P)
       /\ (forall i e, ProfileStore.carbratio P !! i = Some e ->
             ProfileStore.carbratio P' !! i
             = Some (CarbRatioEntry.mk (CarbRatioEntry.time e)
                       (AutotuneResult.carb_ratio r) (CarbRatioEntry.timeAsSeconds e)))
       /\ length (ProfileStore.sens P') = length (ProfileStore.sens P)
       /\ (forall i e, ProfileStore.sens P !! i = Some e ->
             ProfileStore.sens P' !! i
             = Some (SensitivityEntry.mk (SensitivityEntry.time e)
                       (AutotuneResult.sens r) (SensitivityEntry.timeAsSeconds e))))
  /\ (documented R = true ->
      exists p' h', apply_recommendations p R h = (Ok p', h')).
Proof.
  intros Hview r. split; [|by apply (apply_recommendations_returns h p P R)].
  intros p' h' E.
  destruct (apply_recommendations_Ok_inv h p P R p' h' Hview E)
    as (bs & _ & _ & Hview' & _).
  eexists. split; [exact Hview'|]. unfold reconciled.
  cbn [ProfileStore.carbratio ProfileStore.sens]. split_and!.
  - by rewrite length_fmap.
  - intros i e Hi. by rewrite list_lookup_fmap, Hi.
  - by rewrite length_fmap.
  - intros i e Hi. by rewrite list_lookup_fmap, Hi.
Qed.

Lemma apply_recommendations_uniform_override_witness :
  view Fixtures.mock_heap Fixtures.mock_profile = Some Fixtures.mock_profile_store
  /\ exists p' h' P',
       apply_recommendations Fixtures.mock_profile Fixtures.rec_updates Fixtures.mock_heap
         = (Ok p', h')
       /\ view h' p' = Some P'
       /\ length (ProfileStore.carbratio P') = 1%nat
       /\ ProfileStore.carbratio P' !! 0%nat
          = Some (CarbRatioEntry.mk "00:00" (Fixtures.fl 12 1) 0)
       /\ ProfileStore.sens P' !! 0%nat
          = Some (SensitivityEntry.mk "00:00" (Fixtures.fl 55 1) 0).
Proof.
  split; [reflexivity|].
  destruct (apply_recommendations_uniform_override Fixtures.mock_heap
              Fixtures.mock_profile Fixtures.mock_profile_store Fixtures.rec_updates
              eq_refl)
    as [Hprop Hret].
  destruct (Hret eq_refl) as (p' & h' & E).
  destruct (Hprop p' h' E) as (P' & V & Hn & Hcr & _ & Hse).
  exists p', h', P'. split_and!; [done | done | done | |].
  - exact (Hcr 0%nat _ eq_refl).
  - exact (Hse 0%nat _ eq_refl).
Defined.

(** C3. For a documented recommendation with a non-empty basal schedule
    the call returns a profile with a new basal schedule, with one entry
    per recommended entry, in the same order, whatever the basal schedule
    of [P] was: the time is the start time cut to its first five
    characters HH:MM, [timeAsSeconds] is hours*3600 + minutes*60 of that
    time, the value is the recommended rate.  The seconds are dropped, not
    rounded: 06:30:00 and 06:30:59 at rate 1.3 both give 06:30, 23400,
    1.3. *)
Theorem apply_recommendations_rebuilds_basal (h : heap) p P R :
  view h p = Some P -> documented R = true ->
  let r := AutotuneRecommendations.result R in
  AutotuneResult.basalprofile r <> [] ->
  (exists p' h' P',
     apply_recommendations p R h = (Ok p', h')
     /\ view h' p' = Some P'
     /\ length (ProfileStore.basal P') = length (AutotuneResult.basalprofile r)
     /\ forall i e, AutotuneResult.basalprofile r !! i = Some e ->
          let start := AutotuneBasalEntry.start e in
          ProfileStore.basal P' !! i
          = Some (BasalScheduleEntry.mk (substring 0 5 start)
                    (AutotuneBasalEntry.rate e)
                    (decimal (substring 0 2 start) * 3600
                     + decimal (substring 3 2 start) * 60)))
  /\ (forall minutes,
        convert_basal_entry (AutotuneBasalEntry.mk "06:30:00" minutes (Fixtures.fl 13 10))
        = Ok (BasalScheduleEntry.mk "06:30" (Fixtures.fl 13 10) 23400))
  /\ (forall minutes,
        convert_basal_entry (AutotuneBasalEntry.mk "06:30:59" minutes (Fixtures.fl 13 10))
        = Ok (BasalScheduleEntry.mk "06:30" (Fixtures.fl 13 10) 23400)).
Proof.
  intros Hview Hdoc r Hne. split; [|split; reflexivity].
  destruct (apply_recommendations_documented h p P R Hview Hdoc)
    as (p' & h' & E & _ & Hview' & _).
  fold r in Hview'.
  assert (Hb : match AutotuneResult.basalprofile r with
               | [] => ProfileStore.basal P
               | es => truncated_entry <$> es
               end = truncated_entry <$> AutotuneResult.basalprofile r)
    by (by destruct (AutotuneResult.basalprofile r)).
  rewrite Hb in Hview'.
  eexists p', h', _. split; [exact E|]. split; [exact Hview'|].
  unfold reconciled. cbn [ProfileStore.basal]. split.
  - by rewrite length_fmap.
  - intros i e Hi. by rewrite list_lookup_fmap, Hi.
Qed.

Lemma apply_recommendations_rebuilds_basal_witness :
  view Fixtures.mock_heap Fixtures.mock_profile = Some Fixtures.mock_profile_store
  /\ documented Fixtures.rec_time_format = true
  /\ AutotuneResult.basalprofile (AutotuneRecommendations.result Fixtures.rec_time_format)
     <> []
  /\ exists p' h' P',
       apply_recommendations Fixtures.mock_profile Fixtures.rec_time_format
         Fixtures.mock_heap = (Ok p', h')
       /\ view h' p' = Some P'
       /\ length (ProfileStore.basal P') = 1%nat
       /\ ProfileStore.basal P' !! 0%nat
          = Some (BasalScheduleEntry.mk "06:30" (Fixtures.fl 13 10) 23400).
Proof.
  split; [reflexivity|]. split; [reflexivity|]. split; [discriminate|].
  destruct (apply_recommendations_rebuilds_basal Fixtures.mock_heap
              Fixtures.mock_profile Fixtures.mock_profile_store Fixtures.rec_time_format
              eq_refl eq_refl ltac:(discriminate))
    as [(p' & h' & P' & E & V & Hn & Hb) _].
  exists p', h', P'. split_and!; [done | done | done |].
  exact (Hb 0%nat _ eq_refl).
Defined.

(** C4 as stated fails: it is not so that an empty recommended basal
    schedule empties the basal schedule of the returned profile.  On the
    fixture profile, whose basal schedule has one entry, the
    recommendation with an empty basal schedule returns a profile that
    still has that entry. *)
Lemma empty_basal_replaces_counterexample :
  ~ (forall (h : heap) p P R,
       view h p = Some P -> documented R = true ->
       AutotuneResult.basalprofile (AutotuneRecommendations.result R) = [] ->
       exists p' h' P',
         apply_recommendations p R h = (Ok p', h')
         /\ view h' p' = Some P'
         /\ ProfileStore.basal P' = []).
Proof.
  intros Hc.
  destruct (Hc Fixtures.mock_heap Fixtures.mock_profile Fixtures.mock_profile_store
              Fixtures.rec_no_basal eq_refl eq_refl eq_refl)
    as (p' & h' & P' & E & V & B).
  vm_compute in E. injection E as <- <-.
  vm_compute in V. injection V as <-. discriminate B.
Qed.

(** C4, amended. When the recommended basal schedule is empty, the guard
    [if result.basalprofile] skips the replacement: the call returns, and
    the basal schedule of the returned profile is the copy of the one of
    [P], entry by entry. *)
Theorem apply_recommendations_empty_basal_keeps_schedule (h : heap) p P R :
  view h p = Some P ->
  AutotuneResult.basalprofile (AutotuneRecommendations.result R) = [] ->
  exists p' h' P',
    apply_recommendations p R h = (Ok p', h')
    /\ view h' p' = Some P'
    /\ ProfileStore.basal P' = ProfileStore.basal P.
Proof.
  intros Hview Hempty.
  pose proof (apply_recommendations_spec h p P R Hview) as Hs.
  unfold new_basal in Hs. rewrite Hempty in Hs.
  destruct Hs as (p' & h' & E & _ & Hview' & _).
  eexists p', h', _. by split_and!.
Qed.

Lemma apply_recommendations_empty_basal_keeps_schedule_witness :
  view Fixtures.mock_heap Fixtures.mock_profile = Some Fixtures.mock_profile_store
  /\ AutotuneResult.basalprofile (AutotuneRecommendations.result Fixtures.rec_no_basal)
     = []
  /\ exists p' h' P',
       apply_recommendations Fixtures.mock_profile Fixtures.rec_no_basal
         Fixtures.mock_heap = (Ok p', h')
       /\ view h' p' = Some P'
       /\ ProfileStore.basal P' = [BasalScheduleEntry.mk "00:00" (Fixtures.fl 1 1) 0].
Proof.
  split; [reflexivity|]. split; [reflexivity|].
  apply (apply_recommendations_empty_basal_keeps_schedule Fixtures.mock_heap
           Fixtures.mock_profile Fixtures.mock_profile_store Fixtures.rec_no_basal);
    reflexivity.
Defined.

(** C5. For a valid recommendation, whenever the call returns, the [dia]
    of the returned profile is the one of the recommendation when it has
    one, and the one of [P] when it has none.  On a documented
    recommendation the call does return. *)
Theorem apply_recommendations_dia (h : heap) p P R :
  view h p = Some P -> AutotuneRecommendations.valid R = true ->
  (forall p' h',
     apply_recommendations p R h = (Ok p', h') ->
     exists P',
       view h' p' = Some P'
       /\ ProfileStore.dia P'
          = match AutotuneResult.dia (AutotuneRecommendations.result R) with
            | Some v => v
            | None => ProfileStore.dia P
            end)
  /\ (documented R = true ->
      exists p' h', apply_recommendations p R h = (Ok p', h')).
Proof.
  intros Hview Hvalid. split; [|by apply (apply_recommendations_returns h p P R)].
  intros p' h' E.
  destruct (apply_recommendations_Ok_inv h p P R p' h' Hview E)
    as (bs & _ & _ & Hview' & _).
  eexists. split; [exact Hview'|]. unfold reconciled, new_dia.
  cbn [ProfileStore.dia].
  unfold AutotuneRecommendations.valid, AutotuneResult.valid in Hvalid.
  apply andb_prop in Hvalid as [Hvalid _]. apply andb_prop in Hvalid as [_ Hd].
  destruct (AutotuneResult.dia _) as [v|]; [|done].
  by rewrite (float_gt0_truthy v Hd).
Qed.

Lemma apply_recommendations_dia_witness :
  (view Fixtures.mock_heap Fixtures.mock_profile = Some Fixtures.mock_profile_store
   /\ AutotuneRecommendations.valid Fixtures.rec_updates = true
   /\ exists p' h' P',
        apply_recommendations Fixtures.mock_profile Fixtures.rec_updates
          Fixtures.mock_heap = (Ok p', h')
        /\ view h' p' = Some P'
        /\ ProfileStore.dia P' = Fixtures.fl 55 10)
  /\ (AutotuneRecommendations.valid Fixtures.rec_time_format = true
      /\ exists p' h' P',
           apply_recommendations Fixtures.mock_profile Fixtures.rec_time_format
             Fixtures.mock_heap = (Ok p', h')
           /\ view h' p' = Some P'
           /\ ProfileStore.dia P' = Fixtures.fl 5 1).
Proof.
  split.
  - split; [reflexivity|]. split; [reflexivity|].
    destruct (apply_recommendations_dia Fixtures.mock_heap Fixtures.mock_profile
                Fixtures.mock_profile_store Fixtures.rec_updates eq_refl eq_refl)
      as [Hprop Hret].
    destruct (Hret eq_refl) as (p' & h' & E).
    destruct (Hprop p' h' E) as (P' & V & Hd).
    exists p', h', P'. by split_and!.
  - split; [reflexivity|].
    destruct (apply_recommendations_dia Fixtures.mock_heap Fixtures.mock_profile
                Fixtures.mock_profile_store Fixtures.rec_time_format eq_refl eq_refl)
      as [Hprop Hret].
    destruct (Hret eq_refl) as (p' & h' & E).
    destruct (Hprop p' h' E) as (P' & V & Hd).
    exists p', h', P'. by split_and!.
Defined.

(** C9. Whenever the call returns, the returned profile has the
    target-low and target-high schedules, the timezone and the units of
    [P].  On a documented recommendation the call does return. *)
Theorem apply_recommendations_keeps_targets (h : heap) p P R :
  view h p = Some P ->
  (forall p' h',
     apply_recommendations p R h = (Ok p', h') ->
     exists P',
       view h' p' = Some P'
       /\ ProfileStore.target_low P' = ProfileStore.target_low P
       /\ ProfileStore.target_high P' = ProfileStore.target_high P
       /\ ProfileStore.timezone P' = ProfileStore.timezone P
       /\ ProfileStore.units P' = ProfileStore.units P)
  /\ (documented R = true ->
      exists p' h', apply_recommendations p R h = (Ok p', h')).
Proof.
  intros Hview. split; [|by apply (apply_recommendations_returns h p P R)].
  intros p' h' E.
  destruct (apply_recommendations_Ok_inv h p P R p' h' Hview E)
    as (bs & _ & _ & Hview' & _).
  eexists. by split_and!.
Qed.

Lemma apply_recommendations_keeps_targets_witness :
  view Fixtures.mock_heap Fixtures.mock_profile = Some Fixtures.mock_profile_store
  /\ exists p' h' P',
       apply_recommendations Fixtures.mock_profile Fixtures.rec_updates
         Fixtures.mock_heap = (Ok p', h')
       /\ view h' p' = Some P'
       /\ ProfileStore.target_low P' = ProfileStore.target_low Fixtures.mock_profile_store
       /\ ProfileStore.target_high P' = ProfileStore.target_high Fixtures.mock_profile_store
       /\ ProfileStore.timezone P' = ProfileStore.timezone Fixtures.mock_profile_store
       /\ ProfileStore.units P' = ProfileStore.units Fixtures.mock_profile_store.
Proof.
  split; [reflexivity|].
  destruct (apply_recommendations_keeps_targets Fixtures.mock_heap Fixtures.mock_profile
              Fixtures.mock_profile_store Fixtures.rec_updates eq_refl)
    as [Hprop Hret].
  destruct (Hret eq_refl) as (p' & h' & E).
  destruct (Hprop p' h' E) as (P' & V & Hrest).
  exists p', h', P'. split; [exact E|]. split; [exact V|]. exact Hrest.
Defined.

(** ** [get_historical_data] *)

Section historical_data.
Context `{Pydantic}.

(** One validation loop keeps the records that validate, in order, and
    logs one warning for each of the others; it never raises. *)
Lemma validate_each_spec {A} (new : json -> result A) what raw :
  forall acc records,
    NightscoutService.validate_each new what raw acc records
    = (Ok (acc ++ valid_records new raw), records ++ skipped new what raw).
Proof.
  induction raw as [|data rest IH]; intros acc records; simpl.
  - by rewrite !app_nil_r.
  - unfold valid_records, skipped. simpl. destruct (new data) as [a|e]; simpl.
    + rewrite IH. by rewrite <- app_assoc.
    + unfold mbind, SE_bind, log. simpl. rewrite IH.
      by rewrite <- app_assoc.
Qed.

Lemma skipped_warnings {A} (new : json -> result A) what raw :
  warnings (skipped new what raw) = skipped new what raw.
Proof.
  unfold skipped, warnings. induction raw as [|data rest IH]; [done|].
  cbn [omap list_omap]. destruct (new data) as [a|e]; [exact IH|].
  cbn [List.filter log_level]. f_equal. exact IH.
Qed.

Lemma skipped_length {A} (new : json -> result A) what raw :
  length (skipped new what raw) = length (invalid_records new raw).
Proof.
  unfold skipped, invalid_records. induction raw as [|data rest IH]; [done|].
  cbn [omap list_omap List.filter]. destruct (new data) as [a|e]; [exact IH|].
  cbn [is_ok negb length]. f_equal. exact IH.
Qed.

Lemma warnings_app r1 r2 : warnings (r1 ++ r2) = warnings r1 ++ warnings r2.
Proof. unfold warnings. by rewrite List.filter_app. Qed.

(** C6. Whatever the two raw lists the client returns hold,
    [get_historical_data] returns: its dataset has exactly the entries
    and the treatments that validate, in order, and the log has one
    warning for each record dropped.  So a list with one valid and one
    invalid entry gives one entry, and empty lists give an empty
    dataset. *)
Theorem get_historical_data_drops_invalid client now days
    entries_raw treatments_raw start_date records :
  client days = Ok (entries_raw, treatments_raw) ->
  Datetime.minus_days now days = Ok start_date ->
  exists logged,
    NightscoutService.get_historical_data client now days records
    = (Ok (HistoricalData.mk (valid_records NightscoutEntry.new entries_raw)
             (valid_records NightscoutTreatment.new treatments_raw)
             start_date now),
       records ++ logged)
    /\ length (warnings logged)
       = (length (invalid_records NightscoutEntry.new entries_raw)
          + length (invalid_records NightscoutTreatment.new treatments_raw))%nat
    /\ (forall a b e x,
          entries_raw = [a; b] ->
          NightscoutEntry.new a = Ok e -> NightscoutEntry.new b = Raise x ->
          valid_records NightscoutEntry.new entries_raw = [e])
    /\ (entries_raw = [] -> valid_records NightscoutEntry.new entries_raw = []).
Proof.
  intros Hclient Hstart.
  exists ([LogRecord INFO "Loading historical data" None]
          ++ skipped NightscoutEntry.new "entry" entries_raw
          ++ skipped NightscoutTreatment.new "treatment" treatments_raw
          ++ [LogRecord INFO "Successfully loaded entries and treatments" None]).
  split_and!.
  - unfold NightscoutService.get_historical_data.
    unfold mbind at 1, SE_bind at 1, log at 1. cbn beta iota.
    unfold mbind at 1, SE_bind at 1, liftSE at 1. rewrite Hstart. cbn beta iota.
    unfold mbind at 1, SE_bind at 1, liftSE at 1. rewrite Hclient. cbn beta iota.
    unfold mbind at 1, SE_bind at 1. rewrite validate_each_spec. cbn beta iota.
    unfold mbind at 1, SE_bind at 1. rewrite validate_each_spec. cbn beta iota.
    unfold mbind, SE_bind, log, mret, SE_ret. simpl.
    by rewrite <- !app_assoc.
  - rewrite !warnings_app, !skipped_warnings, !length_app, !skipped_length.
    simpl. lia.
  - intros a b e x -> Ha Hb. unfold valid_records. simpl. by rewrite Ha, Hb.
  - by intros ->.
Qed.

(** The only exceptions [get_historical_data] raises are the one of the
    window computation and the one the client raised. *)
Lemma get_historical_data_raises_only_transport client now days records e logged :
  NightscoutService.get_historical_data client now days records = (Raise e, logged) ->
  Datetime.minus_days now days = Raise e \/ client days = Raise e.
Proof.
  unfold NightscoutService.get_historical_data.
  unfold mbind at 1, SE_bind at 1, log at 1. cbn beta iota.
  unfold mbind at 1, SE_bind at 1, liftSE at 1.
  destruct (Datetime.minus_days now days) as [start_date|e1]; cbn beta iota;
    [|intros [= <- _]; by left].
  unfold mbind at 1, SE_bind at 1, liftSE at 1.
  destruct (client days) as [[entries_raw treatments_raw]|e2]; cbn beta iota;
    [|intros [= <- _]; by right].
  unfold mbind at 1, SE_bind at 1. rewrite validate_each_spec. cbn beta iota.
  unfold mbind at 1, SE_bind at 1. rewrite validate_each_spec. cbn beta iota.
  unfold mbind, SE_bind, log, mret, SE_ret. simpl. discriminate.
Qed.
End historical_data.

Lemma get_historical_data_drops_invalid_witness :
  ServiceFixtures.mock_client 7 = Ok ([ServiceFixtures.valid_entry;
                                       ServiceFixtures.invalid_entry], [])
  /\ Datetime.minus_days ServiceFixtures.mock_now 7
     = Ok (738885 * Datetime.us_per_day)
  /\ exists logged d,
       @NightscoutService.get_historical_data strict_table
         ServiceFixtures.mock_client ServiceFixtures.mock_now 7 [] = (Ok d, logged)
       /\ HistoricalData.entries d
          = [NightscoutEntry.mk 120 1704067200000 "2024-01-01T00:00:00Z" "sgv" None None]
       /\ HistoricalData.treatments d = []
       /\ length (warnings logged) = 1%nat.
Proof.
  split; [reflexivity|]. split; [reflexivity|].
  destruct (@get_historical_data_drops_invalid strict_table
              ServiceFixtures.mock_client ServiceFixtures.mock_now 7
              [ServiceFixtures.valid_entry; ServiceFixtures.invalid_entry] []
              (738885 * Datetime.us_per_day) [] eq_refl eq_refl)
    as (logged & E & Hw & _).
  eexists logged, _. split; [exact E|]. split; [reflexivity|].
  split; [reflexivity|]. exact Hw.
Defined.

(** ** [run_autotune] *)

Section run_autotune.
Import AutotuneClient.
Variable dumps : json -> string.
Variable loads : string -> option json.
Variable subprocess_run : list string -> fs -> run_outcome * fs.
Variable mkdtemp : fs -> string.

(** C7. When the external process exits with code 0 and the file
    autotune_recommendations.json is not there afterwards,
    [run_autotune] raises the [ValueError] that says that no
    recommendations file was produced, and so returns no recommendation.
    That error is neither the one of a timeout nor the one of a failed
    execution. *)
Theorem run_autotune_no_output autotune_path profile_data entries treatments days
    (files : fs) stdout stderr (files' : fs) :
  let tmpdir := mkdtemp files in
  subprocess_run (cmd autotune_path tmpdir days)
    (staged dumps mkdtemp profile_data entries treatments files)
    = (Exited 0 stdout stderr, files') ->
  files' !! recommendations_file tmpdir = None ->
  fst (run_autotune dumps loads subprocess_run mkdtemp autotune_path
         profile_data entries treatments days files)
    = Raise (ValueError no_recommendations_msg)
  /\ ValueError no_recommendations_msg <> ValueError timed_out_msg
  /\ (forall rc out err, ValueError no_recommendations_msg <> CalledProcessError rc out err).
Proof.
  intros tmpdir Hrun Habsent. split; [|split; [discriminate | done]].
  unfold run_autotune, with_temporary_directory. fold tmpdir.
  unfold staged in Hrun. fold tmpdir in Hrun.
  unfold mbind at 1, SE_bind at 1.
  destruct (write_inputs dumps tmpdir profile_data entries treatments
              (<[tmpdir:=Dir]> files)) as [[[]|e] staged_files] eqn:Ew.
  2: { unfold write_inputs, mbind, SE_bind, mkdir, write_text in Ew. discriminate. }
  simpl in Hrun.
  unfold mbind at 1, SE_bind at 1, run_checked at 1. rewrite Hrun. simpl.
  unfold mbind at 1, SE_bind at 1, exists_ at 1. rewrite Habsent.
  rewrite bool_decide_eq_false_2 by (by intros [? ?]). done.
Qed.
End run_autotune.

Lemma run_autotune_no_output_witness :
  fst (AutotuneClient.run_autotune ClientFixtures.mock_dumps ClientFixtures.mock_loads
         ClientFixtures.mock_run ClientFixtures.mock_tempdir
         "/usr/local/bin/oref0-autotune" ClientFixtures.mock_profile_data
         ClientFixtures.mock_entries_data ClientFixtures.mock_treatments_data 7 ∅)
  = Raise (ValueError AutotuneClient.no_recommendations_msg).
Proof.
  refine (proj1 (run_autotune_no_output ClientFixtures.mock_dumps ClientFixtures.mock_loads
           ClientFixtures.mock_run ClientFixtures.mock_tempdir
           "/usr/local/bin/oref0-autotune" ClientFixtures.mock_profile_data
           ClientFixtures.mock_entries_data ClientFixtures.mock_treatments_data 7 ∅
           "Completed" EmptyString _ eq_refl _)).
  vm_compute. reflexivity.
Defined.

(** ** [update_profile] and [sync_profile] *)

Section update_profile.
Import NightscoutClient.
Context `{Pydantic}.
Variable Server : Type.
Variable serve_get : string -> Server -> http_reply.
Variable serve_post : string -> json -> Server -> http_reply * Server.
Variable now_ms : Z.

Lemma SE_bind_unfold {S A B} (m : SE S A) (k : A -> SE S B) s :
  (m ≫= k) s = match m s with
               | (Ok a, s') => k a s'
               | (Raise e, s') => (Raise e, s')
               end.
Proof. reflexivity. Qed.

Lemma str_in_model_false s p : str_in_model s p = false.
Proof. unfold str_in_model. by induction (model_iter p). Qed.

(** Fetching the profiles sends one GET and leaves the remote store as
    it is. *)
Lemma get_profiles_world self (w : world Server) :
  snd (_get_profiles Server serve_get self w)
  = World Server (server Server w)
      (requests Server w ++ [GET (url self +:+ "/api/v1/profile")]).
Proof.
  unfold _get_profiles, mbind, SE_bind, session_get, liftSE, raiseSE. simpl.
  destruct (response_json _) as [data|e]; [|done].
  by destruct (negb (json_truthy data)).
Qed.

(** What every call of [update_profile] comes to. *)
Lemma update_profile_outcome self profile_data profile_name (w : world Server) :
  exists e,
    update_profile Server serve_get serve_post now_ms self profile_data profile_name w
    = (Raise e, World Server (server Server w)
                  (requests Server w ++ [GET (url self +:+ "/api/v1/profile")])).
Proof.
  unfold update_profile.
  pose proof (get_profiles_world self w) as Hw.
  rewrite SE_bind_unfold.
  destruct (_get_profiles Server serve_get self w) as [[profiles|e] w1];
    simpl in Hw; subst w1; [|by exists e].
  rewrite SE_bind_unfold. unfold liftSE at 1.
  destruct (NightscoutProfile.default_profile profiles) as [current|e];
    [|by exists e].
  rewrite SE_bind_unfold, str_in_model_false. simpl. eauto.
Qed.

(** C10. Whatever it is called with and whatever the remote store
    answers, [update_profile] raises, having sent one GET and no POST;
    the remote store is as before.  The names it would need further on
    are not there either: reading [target_profile] raises [NameError]
    and [self.session] raises [AttributeError]. *)
Theorem update_profile_never_posts self profile_data profile_name (w : world Server) :
  let out := update_profile Server serve_get serve_post now_ms self
               profile_data profile_name w in
  (exists e, fst out = Raise e)
  /\ server Server (snd out) = server Server w
  /\ requests Server (snd out)
     = requests Server w ++ [GET (url self +:+ "/api/v1/profile")]
  /\ Forall (fun r => is_post r = false)
       (drop (length (requests Server w)) (requests Server (snd out)))
  /\ read_name "target_profile" = Raise (NameError "target_profile")
  /\ getattr_client "session" = Raise (AttributeError "session").
Proof.
  intros out. subst out.
  destruct (update_profile_outcome self profile_data profile_name w) as [e ->].
  simpl. split_and!; try done; [by exists e|].
  rewrite drop_app_length. by constructor.
Qed.

(** The same holds of [sync_profile], which only calls [update_profile]. *)
Lemma sync_profile_never_posts self profile_store profile_name (w : world Server) :
  exists e,
    sync_profile Server serve_get serve_post now_ms self profile_store profile_name w
    = (Raise e, World Server (server Server w)
                  (requests Server w ++ [GET (url self +:+ "/api/v1/profile")])).
Proof.
  unfold sync_profile. rewrite SE_bind_unfold.
  destruct (update_profile_outcome self (model_dump profile_store) profile_name w)
    as [e ->]. by exists e.
Qed.
End update_profile.

(** C8, on the code. With no profile name and a document without
    [defaultProfile], [sync_profile] fails before any write, but not with
    an error about the unresolved name: the document does not validate as
    a [NightscoutProfile], and the [ValidationError] of the missing fields
    is what is raised, on the document of the test as on one that lacks
    nothing but [defaultProfile]. *)
Theorem sync_profile_no_default_raises_validation_error :
  let run docs :=
    @NightscoutClient.sync_profile strict_table json NightscoutFixtures.mock_get
      NightscoutFixtures.mock_post 1704067200000 NightscoutFixtures.client
      Fixtures.mock_profile_store None (NightscoutFixtures.world_of docs) in
  run NightscoutFixtures.no_default_docs
  = (Raise (ValidationError ["defaultProfile"; "startDate"; "units"]),
     NightscoutClient.World json NightscoutFixtures.no_default_docs
       [NightscoutClient.GET "https://test.nightscout.com/api/v1/profile"])
  /\ run NightscoutFixtures.only_default_missing_docs
     = (Raise (ValidationError ["defaultProfile"]),
        NightscoutClient.World json NightscoutFixtures.only_default_missing_docs
          [NightscoutClient.GET "https://test.nightscout.com/api/v1/profile"]).
Proof. split; reflexivity. Qed.

(** * Further properties of the code *)

(** ** Validated values satisfy the declared constraints *)


Section validated.
Context `{Pydantic}.
















End validated.


(** ** What [get_historical_data] returns *)

Section dataset.
Context `{Pydantic}.





End dataset.


(** ** Dumping and validating a profile *)

Section round_trip.
Context `{Pydantic}.
(** The table leaves a value of the declared type as it is. *)
Hypothesis float_of_float : forall x, to_float (JFloat x) = Some x.
Hypothesis int_of_int : forall n, to_int (JInt n) = Some n.
Hypothesis str_of_str : forall s, to_str (JStr s) = Some s.

Lemma mapM_dump {A} (item : json -> option A) (dump : A -> json) (ok : A -> bool) xs :
  (forall a, ok a = true -> item (dump a) = Some a) ->
  forallb ok xs = true -> mapM item (dump <$> xs) = Some xs.
Proof.
  intros Hitem Hxs. apply mapM_Some_2, Forall2_fmap_l, Forall_Forall2_diag.
  apply Forall_forall. intros a Ha%list_elem_of_In.
  rewrite forallb_forall in Hxs. auto.
Qed.

Lemma float_gt0_dump x :
  Py.float_gt0 x = true -> Schema.float_gt0 (JFloat x) = Some x.
Proof.
  intros Hx. unfold Schema.float_gt0, Schema.constrained.
  rewrite float_of_float. simpl. by rewrite Hx.
Qed.

Lemma float_ge0_dump x :
  Py.float_ge0 x = true -> Schema.float_ge0 (JFloat x) = Some x.
Proof.
  intros Hx. unfold Schema.float_ge0, Schema.constrained.
  rewrite float_of_float. simpl. by rewrite Hx.
Qed.

Lemma int_ge0_dump n : (0 <=? n) = true -> Schema.int_ge0 (JInt n) = Some n.
Proof.
  intros Hn. unfold Schema.int_ge0, Schema.constrained.
  rewrite int_of_int. simpl. by rewrite Hn.
Qed.

Lemma basal_entry_dump e :
  BasalScheduleEntry.valid e = true -> basal_entry (NightscoutClient.dump_basal e) = Some e.
Proof.
  destruct e as [t v s]. unfold BasalScheduleEntry.valid. simpl.
  intros [Hv Hs]%andb_prop.
  unfold Schema.required, Schema.str_field, NightscoutClient.dump_float. simpl.
  by rewrite str_of_str, (float_ge0_dump v Hv), (int_ge0_dump s Hs).
Qed.

Lemma carbratio_entry_dump e :
  CarbRatioEntry.valid e = true ->
  carbratio_entry (NightscoutClient.dump_carbratio e) = Some e.
Proof.
  destruct e as [t v s]. unfold CarbRatioEntry.valid. simpl.
  intros [Hv Hs]%andb_prop.
  unfold Schema.required, Schema.str_field, NightscoutClient.dump_float. simpl.
  by rewrite str_of_str, (float_gt0_dump v Hv), (int_ge0_dump s Hs).
Qed.

Lemma sensitivity_entry_dump e :
  SensitivityEntry.valid e = true ->
  sensitivity_entry (NightscoutClient.dump_sens e) = Some e.
Proof.
  destruct e as [t v s]. unfold SensitivityEntry.valid. simpl.
  intros [Hv Hs]%andb_prop.
  unfold Schema.required, Schema.str_field, NightscoutClient.dump_float. simpl.
  by rewrite str_of_str, (float_gt0_dump v Hv), (int_ge0_dump s Hs).
Qed.

Lemma target_entry_dump e :
  TargetEntry.valid e = true -> target_entry (NightscoutClient.dump_target e) = Some e.
Proof.
  destruct e as [t v lo hi s]. unfold TargetEntry.valid. simpl.
  intros [[[Hv Hlo]%andb_prop Hhi]%andb_prop Hs]%andb_prop.
  unfold Schema.required, Schema.str_field, NightscoutClient.dump_float. simpl.
  by rewrite str_of_str, (float_gt0_dump v Hv), (float_gt0_dump lo Hlo),
    (float_gt0_dump hi Hhi), (int_ge0_dump s Hs).
Qed.

(** X3. Validation undoes [model_dump], for a conversion table that
    leaves a value of the declared type as it is: the dump of a profile
    that satisfies the declared constraints validates, and as that very
    profile, as an argument of the constructor call and as an item of a
    profile document.  So the copy [get_profile_store] would build from
    the dump of a stored profile equals that profile. *)
Theorem profile_store_model_dump P :
  ProfileStore.valid P = true ->
  new_profile_store (NightscoutClient.model_dump P) = Ok P
  /\ profile_store (NightscoutClient.model_dump P) = Some P.
Proof.
  destruct P as [dia cr se ba tl th tz un]. unfold ProfileStore.valid. simpl.
  intros [[[[[Hdia Hcr]%andb_prop Hse]%andb_prop Hba]%andb_prop Htl]%andb_prop Hth]%andb_prop.
  split.
  - unfold new_profile_store, NightscoutClient.model_dump.
    unfold Schema.required, Schema.str_field, NightscoutClient.dump_float. simpl.
    rewrite (float_gt0_dump dia Hdia).
    rewrite (mapM_dump _ _ CarbRatioEntry.valid cr carbratio_entry_dump Hcr).
    rewrite (mapM_dump _ _ SensitivityEntry.valid se sensitivity_entry_dump Hse).
    rewrite (mapM_dump _ _ BasalScheduleEntry.valid ba basal_entry_dump Hba).
    rewrite (mapM_dump _ _ TargetEntry.valid tl target_entry_dump Htl).
    rewrite (mapM_dump _ _ TargetEntry.valid th target_entry_dump Hth).
    by rewrite !str_of_str.
  - unfold Schema.required, Schema.str_field, NightscoutClient.dump_float. simpl.
    rewrite (float_gt0_dump dia Hdia). simpl.
    rewrite (mapM_dump _ _ CarbRatioEntry.valid cr carbratio_entry_dump Hcr). simpl.
    rewrite (mapM_dump _ _ SensitivityEntry.valid se sensitivity_entry_dump Hse). simpl.
    rewrite (mapM_dump _ _ BasalScheduleEntry.valid ba basal_entry_dump Hba). simpl.
    rewrite (mapM_dump _ _ TargetEntry.valid tl target_entry_dump Htl). simpl.
    rewrite (mapM_dump _ _ TargetEntry.valid th target_entry_dump Hth). simpl.
    by rewrite !str_of_str.
Qed.
End round_trip.

Lemma profile_store_model_dump_witness :
  @new_profile_store strict_table (NightscoutClient.model_dump Fixtures.mock_profile_store)
  = Ok Fixtures.mock_profile_store
  /\ @profile_store strict_table (NightscoutClient.model_dump Fixtures.mock_profile_store)
     = Some Fixtures.mock_profile_store.
Proof.
  apply (@profile_store_model_dump strict_table); intros; reflexivity.
Defined.

(** ** More on [run_autotune] *)








Lemma lookup_filter_under (dir path : string) (files : AutotuneClient.fs) :
  filter (fun kv => ~ AutotuneClient.under dir (fst kv)) files !! path
  = if decide (AutotuneClient.under dir path) then None else files !! path.
Proof.
  destruct (decide (AutotuneClient.under dir path)) as [Hu|Hu].
  - apply map_lookup_filter_None. right. intros x _. simpl. by intros ?.
  - destruct (files !! path) as [x|] eqn:E.
    + by apply map_lookup_filter_Some.
    + apply map_lookup_filter_None. by left.
Qed.

Section run_autotune_more.
Import AutotuneClient.
Variable dumps : json -> string.
Variable loads : string -> option json.
Variable subprocess_run : list string -> fs -> run_outcome * fs.
Variable mkdtemp : fs -> string.


(** The whole of [run_autotune] in terms of what the process did. *)
Lemma run_autotune_eq autotune_path profile_data entries treatments days
    (files : fs) outcome (files' : fs) :
  let tmpdir := mkdtemp files in
  subprocess_run (cmd autotune_path tmpdir days)
    (staged dumps mkdtemp profile_data entries treatments files) = (outcome, files') ->
  run_autotune dumps loads subprocess_run mkdtemp autotune_path
    profile_data entries treatments days files
  = (run_autotune_result loads tmpdir outcome files',
     filter (fun kv => ~ under tmpdir (fst kv)) files').
Proof.
  intros tmpdir Hrun.
  unfold run_autotune, with_temporary_directory. fold tmpdir.
  unfold staged in Hrun. fold tmpdir in Hrun.
  rewrite SE_bind_unfold.
  destruct (write_inputs dumps tmpdir profile_data entries treatments
              (<[tmpdir:=Dir]> files)) as [[[]|e] staged_files] eqn:Ew.
  2: { unfold write_inputs, mbind, SE_bind, mkdir, write_text in Ew. discriminate. }
  simpl in Hrun.
  rewrite SE_bind_unfold. unfold run_checked at 1. rewrite Hrun.
  unfold run_autotune_result.
  destruct outcome as [rc out err| |]; [|done|done].
  destruct (rc =? 0)%Z; [|done].
  rewrite SE_bind_unfold. unfold exists_ at 1.
  destruct (files' !! recommendations_file tmpdir) as [[text|]|] eqn:Ef.
  - rewrite bool_decide_eq_true_2 by eauto. cbn [negb].
    rewrite SE_bind_unfold. unfold read_text at 1. rewrite Ef.
    by destruct (loads text).
  - rewrite bool_decide_eq_true_2 by eauto. cbn [negb].
    rewrite SE_bind_unfold. unfold read_text at 1. by rewrite Ef.
  - rewrite bool_decide_eq_false_2 by (by intros [? ?]). done.
Qed.

(** X4. When the process does not end with exit code 0, [run_autotune]
    raises, whatever files the process left: a time-out becomes the
    [ValueError] that says so, an exit code other than 0 the
    [CalledProcessError] with that code and the captured output, and a
    process that could not be started the [OSError] of the start. *)
Theorem run_autotune_process_failure autotune_path profile_data entries treatments days
    (files : fs) outcome (files' : fs) :
  subprocess_run (cmd autotune_path (mkdtemp files) days)
    (staged dumps mkdtemp profile_data entries treatments files) = (outcome, files') ->
  (forall out err, outcome <> Exited 0 out err) ->
  fst (run_autotune dumps loads subprocess_run mkdtemp autotune_path
         profile_data entries treatments days files)
  = Raise match outcome with
          | Exited rc out err => CalledProcessError rc out err
          | TimeoutExpired => ValueError timed_out_msg
          | NotStarted => OSError
          end.
Proof.
  intros Hrun Hfail. rewrite (run_autotune_eq _ _ _ _ _ _ _ _ Hrun).
  cbn [fst]. unfold run_autotune_result.
  destruct outcome as [rc out err| |]; try done.
  destruct (rc =? 0)%Z eqn:E; [|done].
  apply Z.eqb_eq in E as ->. by destruct (Hfail out err).
Qed.

(** X5. When the process exits with code 0 and has left a
    recommendations file, [run_autotune] returns what [json.loads] reads
    from the text of that file, and raises [JSONDecodeError] when the
    text is not JSON. *)
Theorem run_autotune_returns_file_content autotune_path profile_data entries treatments
    days (files : fs) out err (files' : fs) text :
  subprocess_run (cmd autotune_path (mkdtemp files) days)
    (staged dumps mkdtemp profile_data entries treatments files)
    = (Exited 0 out err, files') ->
  files' !! recommendations_file (mkdtemp files) = Some (File text) ->
  fst (run_autotune dumps loads subprocess_run mkdtemp autotune_path
         profile_data entries treatments days files)
  = match loads text with
    | Some recommendations => Ok recommendations
    | None => Raise JSONDecodeError
    end.
Proof.
  intros Hrun Hfile. rewrite (run_autotune_eq _ _ _ _ _ _ _ _ Hrun).
  cbn [fst]. unfold run_autotune_result. cbn [Z.eqb]. by rewrite Hfile.
Qed.


(** X7. Whatever the process does and however the call ends, nothing is
    left of the temporary directory afterwards, and every path that is
    not under it is as the process left it. *)
Theorem run_autotune_cleans_up autotune_path profile_data entries treatments days
    (files : fs) :
  let tmpdir := mkdtemp files in
  let after := snd (run_autotune dumps loads subprocess_run mkdtemp autotune_path
                      profile_data entries treatments days files) in
  let left_by_process :=
    snd (subprocess_run (cmd autotune_path tmpdir days)
           (staged dumps mkdtemp profile_data entries treatments files)) in
  (forall path, under tmpdir path -> after !! path = None)
  /\ (forall path, ~ under tmpdir path -> after !! path = left_by_process !! path).
Proof.
  intros tmpdir after left_by_process. subst after left_by_process.
  destruct (subprocess_run (cmd autotune_path tmpdir days)
              (staged dumps mkdtemp profile_data entries treatments files))
    as [outcome files'] eqn:Hrun.
  rewrite (run_autotune_eq _ _ _ _ _ _ _ _ Hrun). cbn [snd]. fold tmpdir.
  split; intros path Hp; rewrite lookup_filter_under.
  - by rewrite decide_True.
  - by rewrite decide_False.
Qed.
End run_autotune_more.

Lemma run_autotune_process_failure_witness :
  fst (AutotuneClient.run_autotune ClientFixtures.mock_dumps ClientFixtures.mock_loads
         AutotuneFixtures.mock_run_failure ClientFixtures.mock_tempdir
         "/usr/local/bin/oref0-autotune" ClientFixtures.mock_profile_data
         ClientFixtures.mock_entries_data ClientFixtures.mock_treatments_data 7 ∅)
  = Raise (CalledProcessError 1 EmptyString "Error message")
  /\ fst (AutotuneClient.run_autotune ClientFixtures.mock_dumps ClientFixtures.mock_loads
            AutotuneFixtures.mock_run_timeout ClientFixtures.mock_tempdir
            "/usr/local/bin/oref0-autotune" ClientFixtures.mock_profile_data
            ClientFixtures.mock_entries_data ClientFixtures.mock_treatments_data 7 ∅)
     = Raise (ValueError AutotuneClient.timed_out_msg).
Proof.
  split.
  - refine (run_autotune_process_failure ClientFixtures.mock_dumps ClientFixtures.mock_loads
              AutotuneFixtures.mock_run_failure ClientFixtures.mock_tempdir
              "/usr/local/bin/oref0-autotune" ClientFixtures.mock_profile_data
              ClientFixtures.mock_entries_data ClientFixtures.mock_treatments_data 7 ∅
              _ _ eq_refl _).
    intros out err. discriminate.
  - refine (run_autotune_process_failure ClientFixtures.mock_dumps ClientFixtures.mock_loads
              AutotuneFixtures.mock_run_timeout ClientFixtures.mock_tempdir
              "/usr/local/bin/oref0-autotune" ClientFixtures.mock_profile_data
              ClientFixtures.mock_entries_data ClientFixtures.mock_treatments_data 7 ∅
              _ _ eq_refl _).
    intros out err. discriminate.
Defined.

Lemma run_autotune_returns_file_content_witness :
  fst (AutotuneClient.run_autotune ClientFixtures.mock_dumps AutotuneFixtures.mock_loads
         AutotuneFixtures.mock_run_writes ClientFixtures.mock_tempdir
         "/usr/local/bin/oref0-autotune" ClientFixtures.mock_profile_data
         ClientFixtures.mock_entries_data ClientFixtures.mock_treatments_data 7 ∅)
  = Ok AutotuneFixtures.mock_autotune_result.
Proof.
  refine (run_autotune_returns_file_content ClientFixtures.mock_dumps
            AutotuneFixtures.mock_loads AutotuneFixtures.mock_run_writes
            ClientFixtures.mock_tempdir "/usr/local/bin/oref0-autotune"
            ClientFixtures.mock_profile_data ClientFixtures.mock_entries_data
            ClientFixtures.mock_treatments_data 7 ∅ _ _ _
            AutotuneFixtures.result_text eq_refl _).
  vm_compute. reflexivity.
Defined.

(** ** [run_analysis] *)

Section run_analysis.
Context `{Pydantic}.
Variable dumps : json -> string.
Variable loads : string -> option json.
Variable subprocess_run :
  list string -> AutotuneClient.fs -> AutotuneClient.run_outcome * AutotuneClient.fs.
Variable mkdtemp : AutotuneClient.fs -> string.
Variable now_iso : string.
Variable autotune_path : string.





(** X9. With less than one day [run_analysis] never returns, but the
    number of days is looked at last: the process is run and its output
    validated first, and an output that validates is then thrown away
    with the [ValidationError] on [days_analyzed]. *)
Theorem run_analysis_days_below_one profile historical_data profile_name days files :
  days < 1 ->
  let out := AutotuneService.run_analysis dumps loads subprocess_run mkdtemp now_iso
               autotune_path profile historical_data profile_name days files in
  let ran := AutotuneClient.run_autotune dumps loads subprocess_run mkdtemp autotune_path
               (NightscoutClient.model_dump profile)
               (JList (dump_entry <$> HistoricalData.entries historical_data))
               (JList (dump_treatment <$> HistoricalData.treatments historical_data))
               days files in
  (exists e, fst out = Raise e)
  /\ snd out = snd ran
  /\ (forall result_data r,
        fst ran = Ok result_data -> new_autotune_result result_data = Ok r ->
        fst out = Raise (ValidationError ["days_analyzed"])).
Proof.
  intros Hd out ran. subst out ran. unfold AutotuneService.run_analysis.
  rewrite SE_bind_unfold.
  destruct (AutotuneClient.run_autotune _ _ _ _ _ _ _ _ _ _) as [[result_data|e] files1];
    [|split_and!; [by exists e | done | done]].
  rewrite SE_bind_unfold. unfold liftSE at 1.
  destruct (new_autotune_result result_data) as [r|e] eqn:Er;
    [|split_and!; [by exists e | done | by intros ? ? [= <-]; rewrite Er]].
  unfold liftSE, new_recommendations.
  rewrite (proj2 (Z.leb_gt 1 days)) by lia. simpl.
  split_and!; [eauto | done | done].
Qed.
End run_analysis.


Lemma run_analysis_days_below_one_witness :
  fst (@AutotuneService.run_analysis strict_table ClientFixtures.mock_dumps
         AutotuneFixtures.mock_loads AutotuneFixtures.mock_run_writes
         ClientFixtures.mock_tempdir "2024-01-08T00:00:00" "/usr/local/bin/oref0-autotune"
         Fixtures.mock_profile_store AutotuneFixtures.mock_historical_data "Default" 0
         AutotuneFixtures.no_files)
  = Raise (ValidationError ["days_analyzed"]).
Proof.
  destruct (@run_analysis_days_below_one strict_table ClientFixtures.mock_dumps
              AutotuneFixtures.mock_loads AutotuneFixtures.mock_run_writes
              ClientFixtures.mock_tempdir "2024-01-08T00:00:00"
              "/usr/local/bin/oref0-autotune" Fixtures.mock_profile_store
              AutotuneFixtures.mock_historical_data "Default" 0
              AutotuneFixtures.no_files ltac:(lia))
    as (_ & _ & Hraise).
  eapply Hraise; vm_compute; reflexivity.
Defined.

(** ** More on [apply_recommendations] *)

Lemma split_no_colon s : no_colon s = true -> Py.split ":" s = [s].
Proof.
  unfold no_colon. induction s as [|c s IH]; [done|]. simpl.
  intros [Hc Hs]%andb_prop. apply negb_true_iff in Hc. rewrite Hc.
  by rewrite (IH Hs).
Qed.

Lemma convert_basal_entry_no_colon e :
  no_colon (AutotuneBasalEntry.start e) = true ->
  convert_basal_entry e = Raise IndexError.
Proof.
  intros Hs. unfold convert_basal_entry. by rewrite (split_no_colon _ Hs).
Qed.

Lemma convert_all_app_Raise es1 e es2 bs1 x :
  convert_all es1 = Ok bs1 -> convert_basal_entry e = Raise x ->
  convert_all (es1 ++ e :: es2) = Raise x.
Proof.
  revert bs1. induction es1 as [|e1 es1 IH]; intros bs1 H1 He.
  - simpl. by rewrite He.
  - rewrite <- app_comm_cons, convert_all_cons. rewrite convert_all_cons in H1.
    destruct (convert_basal_entry e1) as [b1|]; [|done]. simpl in *.
    destruct (convert_all es1) as [bs|] eqn:E1; [|done].
    by rewrite (IH bs eq_refl He).
Qed.

Lemma convert_basal_entry_valid e b :
  convert_basal_entry e = Ok b -> BasalScheduleEntry.valid b = true.
Proof.
  unfold convert_basal_entry.
  destruct (Py.index _ 0) as [p0|]; [|done]. simpl.
  destruct (Py.index _ 1) as [p1|]; [|done]. simpl.
  destruct (Py.int p0) as [hours|]; [|done]. simpl.
  destruct (Py.int p1) as [minutes|]; [|done]. simpl.
  unfold BasalScheduleEntry.new.
  destruct (BasalScheduleEntry.valid _) eqn:E; [|done]. by intros [= <-].
Qed.

Lemma convert_all_valid es bs :
  convert_all es = Ok bs -> forallb BasalScheduleEntry.valid bs = true.
Proof.
  revert bs. induction es as [|e es IH]; intros bs; [by intros [= <-]|].
  rewrite convert_all_cons.
  destruct (convert_basal_entry e) as [b|] eqn:Eb; [|done]. simpl.
  destruct (convert_all es) as [bs'|]; [|done]. simpl. intros [= <-]. simpl.
  by rewrite (convert_basal_entry_valid _ _ Eb), (IH _ eq_refl).
Qed.

Lemma forallb_fmap {A B} (f : A -> B) (ok : B -> bool) xs :
  forallb ok (f <$> xs) = forallb (fun x => ok (f x)) xs.
Proof. induction xs as [|x xs IH]; [done|]. rewrite fmap_cons. cbn [forallb]. by rewrite IH. Qed.

Lemma forallb_impl {A} (ok ok' : A -> bool) xs :
  (forall x, ok x = true -> ok' x = true) ->
  forallb ok xs = true -> forallb ok' xs = true.
Proof.
  intros Himpl. induction xs as [|x xs IH]; [done|]. simpl.
  intros [Hx Hxs]%andb_prop. by rewrite (Himpl _ Hx), IH.
Qed.

Lemma reconciled_valid P r bs :
  ProfileStore.valid P = true -> AutotuneResult.valid r = true ->
  new_basal P r = Ok bs -> ProfileStore.valid (reconciled P r bs) = true.
Proof.
  unfold ProfileStore.valid, AutotuneResult.valid.
  intros [[[[[Hdia Hcr]%andb_prop Hse]%andb_prop Hba]%andb_prop Htl]%andb_prop Hth]%andb_prop
         [[[Rbp Rcr]%andb_prop Rse]%andb_prop Rdia]%andb_prop Hnew.
  simpl. rewrite Htl, Hth, !forallb_fmap.
  assert (Py.float_gt0 (new_dia P r) = true) as ->.
  { unfold new_dia. destruct (AutotuneResult.dia r) as [v|]; [|done].
    by destruct (Py.float_truthy v). }
  assert (forallb (fun x => CarbRatioEntry.valid
                              (CarbRatioEntry.with_value (AutotuneResult.carb_ratio r) x))
            (ProfileStore.carbratio P) = true) as ->.
  { eapply forallb_impl; [|exact Hcr]. intros e.
    unfold CarbRatioEntry.valid. simpl. rewrite Rcr. by intros [_ ->]%andb_prop. }
  assert (forallb (fun x => SensitivityEntry.valid
                              (SensitivityEntry.with_value (AutotuneResult.sens r) x))
            (ProfileStore.sens P) = true) as ->.
  { eapply forallb_impl; [|exact Hse]. intros e.
    unfold SensitivityEntry.valid. simpl. rewrite Rse. by intros [_ ->]%andb_prop. }
  assert (forallb BasalScheduleEntry.valid bs = true) as ->; [|done].
  unfold new_basal in Hnew. destruct (AutotuneResult.basalprofile r) as [|e es].
  - by injection Hnew as <-.
  - by eapply convert_all_valid.
Qed.

(** X10. [apply_recommendations] keeps the declared constraints: when
    the profile and the recommendation satisfy them and the call
    returns, the returned profile satisfies them too, although the
    assignments and the [append] of the method are not validated. *)
Theorem apply_recommendations_keeps_valid (h : heap) p P R p' h' :
  view h p = Some P ->
  ProfileStore.valid P = true ->
  AutotuneRecommendations.valid R = true ->
  apply_recommendations p R h = (Ok p', h') ->
  exists P', view h' p' = Some P' /\ ProfileStore.valid P' = true.
Proof.
  intros Hview HP [HR _]%andb_prop E.
  destruct (apply_recommendations_Ok_inv h p P R p' h' Hview E)
    as (bs & Hnew & _ & Hview' & _).
  eexists. split; [exact Hview'|]. by apply reconciled_valid.
Qed.

Lemma new_basal_reconciled P r bs :
  new_basal P r = Ok bs -> new_basal (reconciled P r bs) r = Ok bs.
Proof.
  unfold new_basal. by destruct (AutotuneResult.basalprofile r).
Qed.

Lemma reconciled_idem P r bs :
  reconciled (reconciled P r bs) r bs = reconciled P r bs.
Proof.
  unfold reconciled. simpl. f_equal.
  - unfold new_dia. simpl. destruct (AutotuneResult.dia r) as [v|]; [|done].
    by destruct (Py.float_truthy v).
  - rewrite <- list_fmap_compose. by apply list_fmap_ext.
  - rewrite <- list_fmap_compose. by apply list_fmap_ext.
Qed.

(** X11. Applying a recommendation twice is applying it once: when the
    call returns a profile, the call on that profile with the same
    recommendation returns too, and a profile with the same fields (a
    new object again). *)
Theorem apply_recommendations_idempotent (h : heap) p P R p1 h1 :
  view h p = Some P ->
  apply_recommendations p R h = (Ok p1, h1) ->
  exists P1 p2 h2,
    view h1 p1 = Some P1
    /\ apply_recommendations p1 R h1 = (Ok p2, h2)
    /\ view h2 p2 = Some P1.
Proof.
  intros Hview E.
  destruct (apply_recommendations_Ok_inv h p P R p1 h1 Hview E)
    as (bs & Hnew & _ & Hview1 & _).
  pose proof (apply_recommendations_spec h1 p1 _ R Hview1) as Hs.
  rewrite (new_basal_reconciled _ _ _ Hnew) in Hs.
  destruct Hs as (p2 & h2 & E2 & Hpre & Hview2 & _).
  eexists _, p2, h2. split; [exact Hview1|]. split; [exact E2|].
  by rewrite Hview2, reconciled_idem.
Qed.

(** X12. A recommended start time without a colon makes
    [apply_recommendations] raise [IndexError], when the entries before it
    convert; the profile the call was given is as before. *)
Theorem apply_recommendations_no_colon (h : heap) p P R es1 e es2 bs1 :
  view h p = Some P ->
  AutotuneResult.basalprofile (AutotuneRecommendations.result R) = es1 ++ e :: es2 ->
  convert_all es1 = Ok bs1 ->
  no_colon (AutotuneBasalEntry.start e) = true ->
  exists h',
    apply_recommendations p R h = (Raise IndexError, h')
    /\ view h' p = Some P.
Proof.
  intros Hview Hbp H1 He.
  pose proof (apply_recommendations_spec h p P R Hview) as Hs.
  unfold new_basal in Hs. rewrite Hbp in Hs.
  destruct (es1 ++ e :: es2) as [|e0 es0] eqn:Eapp; [by destruct es1|].
  rewrite <- Eapp in Hs.
  rewrite (convert_all_app_Raise es1 e es2 bs1 IndexError H1
             (convert_basal_entry_no_colon e He)) in Hs.
  destruct Hs as (h' & E & Hpre). exists h'. split; [exact E|].
  by eapply view_prefix.
Qed.

Lemma apply_recommendations_keeps_valid_witness :
  exists p' h' P',
    apply_recommendations Fixtures.mock_profile Fixtures.rec_updates Fixtures.mock_heap
      = (Ok p', h')
    /\ view h' p' = Some P' /\ ProfileStore.valid P' = true.
Proof.
  eexists _, _.
  match goal with
  | |- exists P', apply_recommendations _ _ _ = (Ok ?p', ?h') /\ _ =>
      assert (E : apply_recommendations Fixtures.mock_profile Fixtures.rec_updates
                    Fixtures.mock_heap = (Ok p', h')) by (vm_compute; reflexivity)
  end.
  destruct (apply_recommendations_keeps_valid Fixtures.mock_heap Fixtures.mock_profile
              Fixtures.mock_profile_store Fixtures.rec_updates _ _
              eq_refl eq_refl eq_refl E) as (P' & Hv & Hok).
  exists P'. split; [exact E|]. split; [exact Hv | exact Hok].
Defined.

Lemma apply_recommendations_idempotent_witness :
  exists p1 h1 P1 p2 h2,
    apply_recommendations Fixtures.mock_profile Fixtures.rec_updates Fixtures.mock_heap
      = (Ok p1, h1)
    /\ view h1 p1 = Some P1
    /\ apply_recommendations p1 Fixtures.rec_updates h1 = (Ok p2, h2)
    /\ view h2 p2 = Some P1.
Proof.
  eexists _, _.
  match goal with
  | |- exists P1 p2 h2, apply_recommendations _ _ _ = (Ok ?p1, ?h1) /\ _ =>
      assert (E : apply_recommendations Fixtures.mock_profile Fixtures.rec_updates
                    Fixtures.mock_heap = (Ok p1, h1)) by (vm_compute; reflexivity)
  end.
  destruct (apply_recommendations_idempotent Fixtures.mock_heap Fixtures.mock_profile
              Fixtures.mock_profile_store Fixtures.rec_updates _ _ eq_refl E)
    as (P1 & p2 & h2 & Hv1 & E2 & Hv2).
  exists P1, p2, h2. split; [exact E|]. split; [exact Hv1|]. split; [exact E2 | exact Hv2].
Defined.

Lemma apply_recommendations_no_colon_witness :
  exists h',
    apply_recommendations Fixtures.mock_profile Fixtures.rec_malformed Fixtures.mock_heap
      = (Raise IndexError, h')
    /\ view h' Fixtures.mock_profile = Some Fixtures.mock_profile_store.
Proof.
  exact (apply_recommendations_no_colon Fixtures.mock_heap Fixtures.mock_profile
           Fixtures.mock_profile_store Fixtures.rec_malformed
           [AutotuneBasalEntry.mk "00:00:00" 60 (Fixtures.fl 11 10)]
           (AutotuneBasalEntry.mk "0630" 60 (Fixtures.fl 12 10)) []
           [BasalScheduleEntry.mk "00:00" (Fixtures.fl 11 10) 0]
           eq_refl eq_refl eq_refl eq_refl).
Defined.

(** ** The queries of the Nightscout client *)

Section queries.
Import NightscoutClient.
Context `{Pydantic}.
Variable Server : Type.
Variable serve_get : string -> Server -> http_reply.
Variable now : Datetime.t.
Variable isoformat : Datetime.t -> string.
Variable prepare_url : string -> list (string * string) -> string.
Variable repr_names : list string -> string.


(** The client's [get_profile] sends the one GET of [_get_profiles]. *)
Lemma client_get_profile_world self profile_name (w : world Server) :
  snd (ClientQueries.get_profile Server serve_get repr_names self profile_name w)
  = World Server (server Server w)
      (requests Server w ++ [GET (url self +:+ "/api/v1/profile")]).
Proof.
  unfold ClientQueries.get_profile. rewrite SE_bind_unfold.
  pose proof (get_profiles_world Server serve_get self w) as Hw.
  destruct (_get_profiles Server serve_get self w) as [[profiles|e] w1];
    simpl in Hw; subst w1; [|done].
  by destruct (profile_name ≫= _).
Qed.


Lemma fetch_eq url (w : world Server) :
  ClientQueries.fetch Server serve_get url w
  = (match response_json (serve_get url (server Server w)) with
     | Ok data => match py_len data with Ok _ => Ok data | Raise e => Raise e end
     | Raise e => Raise e
     end,
     World Server (server Server w) (requests Server w ++ [GET url])).
Proof.
  unfold ClientQueries.fetch. rewrite SE_bind_unfold. unfold session_get at 1.
  rewrite SE_bind_unfold. unfold liftSE at 1.
  destruct (response_json _) as [data|e]; [|done]. cbn beta iota.
  rewrite SE_bind_unfold. unfold liftSE at 1. by destruct (py_len data).
Qed.

(** X14. The client's [get_historical_data] only reads: however it ends,
    the remote store is as before and what was sent is at most two
    requests, none a POST.  When it returns, it has sent the entries
    query and then the treatments query for one and the same window,
    from [days] days before the call to the call, and returns the two
    bodies; when the entries query fails, that error is raised and the
    treatments are not asked for. *)
Theorem client_get_historical_data_reads_only self days (w : world Server) :
  let out := ClientQueries.get_historical_data Server serve_get now isoformat prepare_url
               self days w in
  let entries_url start_date :=
    ClientQueries.entries_url isoformat prepare_url self start_date now 100000 in
  let treatments_url start_date :=
    ClientQueries.treatments_url isoformat prepare_url self start_date now 100000 in
  server Server (snd out) = server Server w
  /\ (exists sent,
        requests Server (snd out) = requests Server w ++ sent
        /\ Forall (fun r => is_post r = false) sent /\ (length sent <= 2)%nat)
  /\ (forall entries treatments,
        fst out = Ok (entries, treatments) ->
        exists start_date,
          Datetime.minus_days now days = Ok start_date
          /\ requests Server (snd out)
             = requests Server w ++ [GET (entries_url start_date);
                                     GET (treatments_url start_date)]
          /\ response_json (serve_get (entries_url start_date) (server Server w))
             = Ok entries
          /\ response_json (serve_get (treatments_url start_date) (server Server w))
             = Ok treatments)
  /\ (forall start_date e,
        Datetime.minus_days now days = Ok start_date ->
        fst (ClientQueries.get_entries Server serve_get isoformat prepare_url
               self start_date now 100000 w) = Raise e ->
        fst out = Raise e
        /\ requests Server (snd out) = requests Server w ++ [GET (entries_url start_date)]).
Proof.
  intros out entries_url treatments_url. subst out.
  destruct (ClientQueries.get_historical_data Server serve_get now isoformat prepare_url
              self days w) as [r w'] eqn:E.
  cbn [fst snd]. unfold ClientQueries.get_historical_data in E.
  rewrite SE_bind_unfold in E. unfold liftSE at 1 in E.
  assert (Hentries : forall sd,
             ClientQueries.get_entries Server serve_get isoformat prepare_url
               self sd now 100000 w
             = (match response_json (serve_get (entries_url sd) (server Server w)) with
                | Ok data => match py_len data with Ok _ => Ok data | Raise e => Raise e end
                | Raise e => Raise e
                end,
                World Server (server Server w) (requests Server w ++ [GET (entries_url sd)])))
    by (intros sd; unfold ClientQueries.get_entries; by rewrite fetch_eq).
  destruct (Datetime.minus_days now days) as [start_date|e0].
  2: { injection E as <- <-. split_and!; try done.
       exists []. rewrite app_nil_r. split_and!; [done | constructor | simpl; lia]. }
  cbn beta iota in E. rewrite SE_bind_unfold, Hentries in E.
  destruct (response_json (serve_get (entries_url start_date) (server Server w)))
    as [entries|e1] eqn:E1.
  2: { injection E as <- <-. cbn [server requests]. split_and!; try done.
       - eexists [_]. split_and!; [done | by repeat constructor | simpl; lia].
       - intros sd e [= <-]. rewrite Hentries, E1. by intros [= <-]. }
  destruct (py_len entries) as [n1|e1] eqn:L1.
  2: { injection E as <- <-. cbn [server requests]. split_and!; try done.
       - eexists [_]. split_and!; [done | by repeat constructor | simpl; lia].
       - intros sd e [= <-]. rewrite Hentries, E1, L1. by intros [= <-]. }
  rewrite SE_bind_unfold in E. unfold ClientQueries.get_treatments at 1 in E.
  rewrite fetch_eq in E. fold (treatments_url start_date) in E. cbn [server requests] in E.
  destruct (response_json (serve_get (treatments_url start_date) (server Server w)))
    as [treatments|e2] eqn:E2.
  2: { injection E as <- <-. cbn [server requests]. split_and!; try done.
       - eexists [_; _]. rewrite <- app_assoc.
         split_and!; [done | by repeat constructor | simpl; lia].
       - intros sd e [= <-]. by rewrite Hentries, E1, L1. }
  destruct (py_len treatments) as [n2|e2] eqn:L2.
  2: { injection E as <- <-. cbn [server requests]. split_and!; try done.
       - eexists [_; _]. rewrite <- app_assoc.
         split_and!; [done | by repeat constructor | simpl; lia].
       - intros sd e [= <-]. by rewrite Hentries, E1, L1. }
  injection E as <- <-. cbn [server requests]. split_and!; try done.
  - eexists [_; _]. rewrite <- app_assoc.
    split_and!; [done | by repeat constructor | simpl; lia].
  - intros ? ? [= <- <-]. exists start_date. rewrite <- app_assoc. by split_and!.
  - intros sd e [= <-]. by rewrite Hentries, E1, L1.
Qed.

(** X15. The service's [get_profile] and [get_profile_store] never
    return, whatever the remote store answers: the client hands over a
    [ProfileStore] instance, which cannot be unpacked as keyword
    arguments, so a profile that was found ends in [TypeError].  One GET
    was sent and the remote store is as before. *)
Theorem service_get_profile_never_returns self (w : world Server) :
  let w' := World Server (server Server w)
              (requests Server w ++ [GET (url self +:+ "/api/v1/profile")]) in
  (forall profile_name,
     (exists e, ServiceProfiles.get_profile Server serve_get repr_names
                  self profile_name w = (Raise e, w'))
     /\ (forall P w1,
           ClientQueries.get_profile Server serve_get repr_names self profile_name w
           = (Ok P, w1) ->
           ServiceProfiles.get_profile Server serve_get repr_names self profile_name w
           = (Schema.not_a_mapping, w')))
  /\ (forall profile_name,
        exists e, ServiceProfiles.get_profile_store Server serve_get repr_names
                    self profile_name w = (Raise e, w')).
Proof.
  intros w'.
  assert (Hget : forall profile_name,
             (exists e, ServiceProfiles.get_profile Server serve_get repr_names
                          self profile_name w = (Raise e, w'))
             /\ (forall P w1,
                   ClientQueries.get_profile Server serve_get repr_names self profile_name w
                   = (Ok P, w1) ->
                   ServiceProfiles.get_profile Server serve_get repr_names self
                     profile_name w = (Schema.not_a_mapping, w'))).
  { intros profile_name. unfold ServiceProfiles.get_profile. rewrite SE_bind_unfold.
    pose proof (client_get_profile_world self profile_name w) as Hw.
    destruct (ClientQueries.get_profile Server serve_get repr_names self profile_name w)
      as [[P|e] w1] eqn:Ec; simpl in Hw; subst w1.
    - split; [by eexists|]. by intros ? ? [= _ _].
    - split; [by exists e | by intros]. }
  split; [exact Hget|].
  intros profile_name. unfold ServiceProfiles.get_profile_store. rewrite SE_bind_unfold.
  destruct (Hget (Some profile_name)) as [[e ->] _]. by exists e.
Qed.
End queries.


Lemma client_get_historical_data_reads_only_witness :
  (exists w',
     @ClientQueries.get_historical_data unit QueryFixtures.mock_get_data
       ServiceFixtures.mock_now QueryFixtures.mock_isoformat QueryFixtures.mock_prepare_url
       NightscoutFixtures.client 7 QueryFixtures.idle
     = (Ok (JList ResponseFixtures.mock_entries_response,
            JList ResponseFixtures.mock_treatments_response), w')
     /\ NightscoutClient.requests unit w'
        = [NightscoutClient.GET "https://test.nightscout.com/api/v1/entries";
           NightscoutClient.GET "https://test.nightscout.com/api/v1/treatments"])
  /\ (let out := @ClientQueries.get_historical_data unit QueryFixtures.mock_get_down
                   ServiceFixtures.mock_now QueryFixtures.mock_isoformat
                   QueryFixtures.mock_prepare_url NightscoutFixtures.client 7
                   QueryFixtures.idle in
      fst out = Raise (HTTPError 503)
      /\ NightscoutClient.requests unit (snd out)
         = [NightscoutClient.GET "https://test.nightscout.com/api/v1/entries"]).
Proof.
  split.
  - eexists.
    match goal with
    | |- ?call = (?r, ?w') /\ _ =>
        assert (E : call = (r, w')) by (vm_compute; reflexivity)
    end.
    split; [exact E|].
    destruct (proj1 (proj2 (proj2 (client_get_historical_data_reads_only unit
                        QueryFixtures.mock_get_data ServiceFixtures.mock_now
                        QueryFixtures.mock_isoformat QueryFixtures.mock_prepare_url
                        NightscoutFixtures.client 7 QueryFixtures.idle)))
                _ _ (f_equal fst E)) as (start_date & _ & Hsent & _).
    rewrite E in Hsent. exact Hsent.
  - exact (proj2 (proj2 (proj2 (client_get_historical_data_reads_only unit
                     QueryFixtures.mock_get_down ServiceFixtures.mock_now
                     QueryFixtures.mock_isoformat QueryFixtures.mock_prepare_url
                     NightscoutFixtures.client 7 QueryFixtures.idle)))
             (738885 * Datetime.us_per_day) (HTTPError 503) eq_refl eq_refl).
Defined.

(** ** A document without [defaultProfile] *)

Section missing_default.
Import NightscoutClient.
Context `{Pydantic}.
Variable Server : Type.
Variable serve_get : string -> Server -> http_reply.
Variable serve_post : string -> json -> Server -> http_reply * Server.
Variable now_ms : Z.

Lemma new_missing_default_profile kvs :
  dict_get "defaultProfile" kvs = None ->
  exists fields,
    NightscoutProfile.new (JDict kvs) = Raise (ValidationError ("defaultProfile" :: fields)).
Proof.
  intros Hdp. unfold NightscoutProfile.new.
  assert (Schema.required Schema.str_field "defaultProfile" kvs = None) as ->
    by (unfold Schema.required; by rewrite Hdp).
  by eexists.
Qed.

(** Of a list of documents the first is validated, the others are not
    looked at. *)
Lemma get_profiles_first_document self (w : world Server) profile_doc rest :
  response_json (serve_get (url self +:+ "/api/v1/profile") (server Server w))
  = Ok (JList (profile_doc :: rest)) ->
  _get_profiles Server serve_get self w
  = (NightscoutProfile.new profile_doc,
     World Server (server Server w)
       (requests Server w ++ [GET (url self +:+ "/api/v1/profile")])).
Proof.
  intros Hfetch. unfold _get_profiles. rewrite SE_bind_unfold. unfold session_get at 1.
  rewrite SE_bind_unfold. unfold liftSE at 1. cbn [server]. rewrite Hfetch.
  cbn [json_truthy negb]. unfold liftSE. done.
Qed.

(** X16. When the first profile document the remote store returns has
    no [defaultProfile], [sync_profile] raises the [ValidationError] of
    that document, [defaultProfile] being the first field it names,
    whatever the profile and the name it was called with; nothing was
    sent but the GET. *)
Theorem sync_profile_missing_default_profile self profile_store profile_name
    (w : world Server) kvs rest :
  response_json (serve_get (url self +:+ "/api/v1/profile") (server Server w))
  = Ok (JList (JDict kvs :: rest)) ->
  dict_get "defaultProfile" kvs = None ->
  exists fields,
    sync_profile Server serve_get serve_post now_ms self profile_store profile_name w
    = (Raise (ValidationError ("defaultProfile" :: fields)),
       World Server (server Server w)
         (requests Server w ++ [GET (url self +:+ "/api/v1/profile")])).
Proof.
  intros Hfetch Hdp.
  destruct (new_missing_default_profile kvs Hdp) as [fields Hnew]. exists fields.
  unfold sync_profile, update_profile. rewrite !SE_bind_unfold.
  by rewrite (get_profiles_first_document _ _ _ _ Hfetch), Hnew.
Qed.
End missing_default.

Lemma sync_profile_missing_default_profile_witness :
  exists fields,
    @NightscoutClient.sync_profile strict_table json NightscoutFixtures.mock_get
      NightscoutFixtures.mock_post 1704067200000 NightscoutFixtures.client
      Fixtures.mock_profile_store (Some "Default")
      (NightscoutFixtures.world_of NightscoutFixtures.only_default_missing_docs)
    = (Raise (ValidationError ("defaultProfile" :: fields)),
       NightscoutClient.World json NightscoutFixtures.only_default_missing_docs
         [NightscoutClient.GET "https://test.nightscout.com/api/v1/profile"]).
Proof.
  exact (@sync_profile_missing_default_profile strict_table json
           NightscoutFixtures.mock_get NightscoutFixtures.mock_post 1704067200000
           NightscoutFixtures.client Fixtures.mock_profile_store (Some "Default")
           (NightscoutFixtures.world_of NightscoutFixtures.only_default_missing_docs)
           _ [] eq_refl eq_refl).
Defined.

(** ** The exceptions of [get_historical_data] *)

(** X17. [get_historical_data] raises only what the client raised, or
    the [OverflowError] of a window that starts outside the range of
    [datetime]: no record the client delivers, valid or not, makes it
    raise. *)
Theorem get_historical_data_raises `{Pydantic} client now days records e logged :
  NightscoutService.get_historical_data client now days records = (Raise e, logged) ->
  client days = Raise e
  \/ (e = OverflowError /\ Datetime.minus_days now days = Raise OverflowError).
Proof.
  intros [Hw|Hc]%get_historical_data_raises_only_transport; [right | by left].
  unfold Datetime.minus_days in *.
  destruct (Z.abs days <=? _); [|by injection Hw as <-].
  destruct (Datetime.in_range _); [done | by injection Hw as <-].
Qed.

Lemma get_historical_data_raises_witness :
  exists logged,
    @NightscoutService.get_historical_data strict_table failing_client
      ServiceFixtures.mock_now 7 [] = (Raise ConnectionError, logged)
    /\ failing_client 7 = Raise ConnectionError.
Proof.
  eexists.
  match goal with
  | |- ?call = (_, ?logged) /\ _ =>
      assert (E : call = (Raise ConnectionError, logged)) by (vm_compute; reflexivity)
  end.
  split; [exact E|].
  destruct (@get_historical_data_raises strict_table failing_client
              ServiceFixtures.mock_now 7 [] ConnectionError _ E) as [Hc|[Ho _]].
  - exact Hc.
  - discriminate Ho.
Defined.

(** ** Where [update_profile] fails *)

Section update_profile_failure.
Import NightscoutClient.
Context `{Pydantic}.
Variable Server : Type.
Variable serve_get : string -> Server -> http_reply.
Variable serve_post : string -> json -> Server -> http_reply * Server.
Variable now_ms : Z.

(** X18. When the profile document was fetched and validates,
    [update_profile] fails on the profile [defaultProfile] names: with
    [KeyError] when the store has no profile of that name, and else with
    the [TypeError] of the first item assignment on the [ProfileStore]
    instance.  The profile data and the name it was called with play no
    part. *)
Theorem update_profile_first_failure self profile_data profile_name
    (w : world Server) profiles w1 :
  _get_profiles Server serve_get self w = (Ok profiles, w1) ->
  fst (update_profile Server serve_get serve_post now_ms self profile_data profile_name w)
  = Raise match NightscoutProfile.store_get
                  (NightscoutProfile.defaultProfile profiles) profiles with
          | Some _ => TypeError "'ProfileStore' object does not support item assignment"
          | None => KeyError (NightscoutProfile.defaultProfile profiles)
          end.
Proof.
  intros Hget. unfold update_profile. rewrite SE_bind_unfold, Hget.
  rewrite SE_bind_unfold. unfold liftSE at 1, NightscoutProfile.default_profile.
  destruct (NightscoutProfile.store_get _ profiles) as [current_profile|]; [|done].
  by rewrite SE_bind_unfold, str_in_model_false.
Qed.
End update_profile_failure.

Lemma update_profile_first_failure_witness :
  fst (@NightscoutClient.update_profile strict_table json NightscoutFixtures.mock_get
         NightscoutFixtures.mock_post 1704067200000 NightscoutFixtures.client
         (NightscoutClient.model_dump Fixtures.mock_profile_store) (Some "Default")
         (NightscoutFixtures.world_of ResponseFixtures.mock_profile_response))
  = Raise (TypeError "'ProfileStore' object does not support item assignment").
Proof.
  refine (@update_profile_first_failure strict_table json NightscoutFixtures.mock_get
            NightscoutFixtures.mock_post 1704067200000 NightscoutFixtures.client
            (NightscoutClient.model_dump Fixtures.mock_profile_store) (Some "Default")
            (NightscoutFixtures.world_of ResponseFixtures.mock_profile_response)
            (NightscoutProfile.mk "Default" [("Default", Fixtures.mock_profile_store)]
               "2024-01-01T00:00:00Z" 1704067200000 "mg/dL" "2024-01-01T00:00:00Z")
            _ _).
  vm_compute. reflexivity.
Defined.

(** ** Dumping and validating entries and treatments *)

Section round_trip_records.
Context `{Pydantic}.
Hypothesis float_of_float : forall x, to_float (JFloat x) = Some x.
Hypothesis int_of_int : forall n, to_int (JInt n) = Some n.
Hypothesis str_of_str : forall s, to_str (JStr s) = Some s.

Lemma optional_dump {A} (conv : json -> option A) (dump : A -> json) name kvs (o : option A) :
  dict_get name kvs = Some (dump_opt dump o) ->
  (forall a, o = Some a -> conv (dump a) = Some a /\ dump a <> JNull) ->
  Schema.optional conv name kvs = Some o.
Proof.
  intros Hget Hconv. unfold Schema.optional. rewrite Hget.
  destruct o as [a|]; [|done]. simpl.
  destruct (Hconv a eq_refl) as [Hc Hn]. destruct (dump a); try done; by rewrite Hc.
Qed.

(** X19. Validation undoes [model_dump] on the records too, for a
    conversion table that leaves a value of the declared type as it is:
    the dump of an entry whose glucose value is within 20..600 validates
    as that entry, and the dump of a treatment without a negative amount
    as that treatment; fields that are [None] stay [None]. *)
Theorem record_model_dump e t :
  20 <= NightscoutEntry.sgv e <= 600 ->
  amount_ok (NightscoutTreatment.insulin t) ->
  amount_ok (NightscoutTreatment.carbs t) ->
  NightscoutEntry.new (dump_entry e) = Ok e
  /\ NightscoutTreatment.new (dump_treatment t) = Ok t.
Proof.
  intros Hsgv Hins Hcb.
  assert (Hstr : forall o a, o = Some a -> Schema.str_field (JStr a) = Some a /\ JStr a <> JNull)
    by (by intros o a _; split; [apply str_of_str|]).
  assert (Hint : forall o a, o = Some a -> Schema.int_field (JInt a) = Some a /\ JInt a <> JNull)
    by (by intros o a _; split; [apply int_of_int|]).
  assert (Hfl : forall o a, amount_ok o -> o = Some a ->
                            Schema.float_ge0 (JFloat a) = Some a /\ JFloat a <> JNull).
  { intros o a Ho ->. split; [|done]. unfold Schema.float_ge0, Schema.constrained.
    rewrite float_of_float. simpl. simpl in Ho. by rewrite Ho. }
  split.
  - destruct e as [sgv date ds ty dir dev]. simpl in Hsgv.
    unfold NightscoutEntry.new, dump_entry.
    erewrite (optional_dump _ _ "direction"); [|reflexivity|exact (Hstr dir)].
    erewrite (optional_dump _ _ "device"); [|reflexivity|exact (Hstr dev)].
    unfold Schema.required, Schema.constrained, Schema.int_field, Schema.str_field.
    simpl. rewrite !int_of_int, !str_of_str. simpl.
    rewrite (proj2 (Z.leb_le 20 sgv)), (proj2 (Z.leb_le sgv 600)) by lia. done.
  - destruct t as [et ca ts ins cb gl gt no eb]. simpl in Hins, Hcb.
    unfold NightscoutTreatment.new, dump_treatment.
    erewrite (optional_dump _ _ "timestamp"); [|reflexivity|exact (Hstr ts)].
    erewrite (optional_dump _ _ "insulin"); [|reflexivity|exact (fun a => Hfl ins a Hins)].
    erewrite (optional_dump _ _ "carbs"); [|reflexivity|exact (fun a => Hfl cb a Hcb)].
    erewrite (optional_dump _ _ "glucose"); [|reflexivity|exact (Hint gl)].
    erewrite (optional_dump _ _ "glucoseType"); [|reflexivity|exact (Hstr gt)].
    erewrite (optional_dump _ _ "notes"); [|reflexivity|exact (Hstr no)].
    erewrite (optional_dump _ _ "enteredBy"); [|reflexivity|exact (Hstr eb)].
    unfold Schema.required, Schema.str_field. simpl. by rewrite !str_of_str.
Qed.
End round_trip_records.

Lemma record_model_dump_witness :
  let e := NightscoutEntry.mk 120 1704067200000 "2024-01-01T00:00:00Z" "sgv" None None in
  let t := NightscoutTreatment.mk "Meal Bolus" "2024-01-01T00:00:00Z" None
             (Some (Fixtures.fl 5 1)) (Some (Fixtures.fl 50 1)) None None None None in
  @NightscoutEntry.new strict_table (dump_entry e) = Ok e
  /\ @NightscoutTreatment.new strict_table (dump_treatment t) = Ok t.
Proof.
  apply (@record_model_dump strict_table); try (intros; reflexivity).
  simpl. lia.
Defined.

(** ** From the fetched profile to the reconciled one *)

Section pipeline.
Context `{Pydantic}.
Variable Server : Type.
Variable serve_get : string -> Server -> NightscoutClient.http_reply.
Variable repr_names : list string -> string.
Variable dumps : json -> string.
Variable loads : string -> option json.
Variable subprocess_run :
  list string -> AutotuneClient.fs -> AutotuneClient.run_outcome * AutotuneClient.fs.
Variable mkdtemp : AutotuneClient.fs -> string.
Variable now_iso : string.
Variable autotune_path : string.

End pipeline.


(** ** The exceptions of [apply_recommendations] *)

Lemma index_Raise {A} (xs : list A) i x : Py.index xs i = Raise x -> x = IndexError.
Proof. unfold Py.index. destruct (xs !! i); [done|]. by intros [= <-]. Qed.

Lemma int_Raise s x : Py.int s = Raise x -> exists msg, x = ValueError msg.
Proof.
  unfold Py.int. destruct (match Py.strip _ with [] => _ | _ => _ end) as [neg ds].
  destruct (_ <? _)%nat; [intros [= <-]; by eexists|].
  destruct (Py.parse_digits 0 false ds); [done|]. intros [= <-]. by eexists.
Qed.

Lemma basal_new_Raise time value seconds x :
  BasalScheduleEntry.new time value seconds = Raise x ->
  exists fields, x = ValidationError fields.
Proof.
  unfold BasalScheduleEntry.new. destruct (BasalScheduleEntry.valid _); [done|].
  intros [= <-]. by eexists.
Qed.

Lemma convert_basal_entry_Raise e x :
  convert_basal_entry e = Raise x ->
  x = IndexError \/ (exists msg, x = ValueError msg)
  \/ (exists fields, x = ValidationError fields).
Proof.
  unfold convert_basal_entry.
  destruct (Py.index _ 0) as [p0|x0] eqn:E0; simpl;
    [|intros [= <-]; left; by eapply index_Raise].
  destruct (Py.index _ 1) as [p1|x1] eqn:E1; simpl;
    [|intros [= <-]; left; by eapply index_Raise].
  destruct (Py.int p0) as [hours|xh] eqn:Eh; simpl;
    [|intros [= <-]; right; left; by eapply int_Raise].
  destruct (Py.int p1) as [minutes|xm] eqn:Em; simpl;
    [|intros [= <-]; right; left; by eapply int_Raise].
  intros Hnew. right. right. by eapply basal_new_Raise.
Qed.

Lemma convert_all_Raise es x :
  convert_all es = Raise x -> exists e, e ∈ es /\ convert_basal_entry e = Raise x.
Proof.
  induction es as [|e es IH]; [done|]. rewrite convert_all_cons.
  destruct (convert_basal_entry e) as [b|x0] eqn:Eb; simpl.
  - destruct (convert_all es) as [bs|x1]; [done|]. simpl. intros [= <-].
    destruct (IH eq_refl) as (e' & He' & Hx). exists e'. split; [by right | done].
  - intros [= <-]. exists e. split; [by left | done].
Qed.

Lemma split_nonempty sep s : Py.split sep s <> [].
Proof.
  destruct s as [|c s]; [done|]. simpl. destruct (Ascii.eqb c sep); [done|].
  by destruct (Py.split sep s).
Qed.

Lemma split_colon s :
  no_colon s = false -> exists p0 p1 rest, Py.split ":" s = p0 :: p1 :: rest.
Proof.
  unfold no_colon. induction s as [|c s IH]; [done|]. simpl.
  destruct (Ascii.eqb c ":") eqn:Ec; simpl.
  - intros _. pose proof (split_nonempty ":" s) as Hne.
    destruct (Py.split ":" s) as [|p1 rest]; [done|]. by eexists _, _, _.
  - intros (p0 & p1 & rest & ->)%IH. by eexists _, _, _.
Qed.

Lemma convert_basal_entry_IndexError e :
  convert_basal_entry e = Raise IndexError ->
  no_colon (AutotuneBasalEntry.start e) = true.
Proof.
  destruct (no_colon (AutotuneBasalEntry.start e)) eqn:Hc; [done|].
  destruct (split_colon _ Hc) as (p0 & p1 & rest & Hs).
  unfold convert_basal_entry. rewrite Hs. simpl.
  destruct (Py.int p0) as [hours|xh] eqn:Eh; simpl;
    [|intros [= ->]; by destruct (int_Raise _ _ Eh)].
  destruct (Py.int p1) as [minutes|xm] eqn:Em; simpl;
    [|intros [= ->]; by destruct (int_Raise _ _ Em)].
  intros Hnew. by destruct (basal_new_Raise _ _ _ _ Hnew).
Qed.

(** X21. [apply_recommendations] raises only on account of the
    recommended basal schedule: when it raises, that schedule is not
    empty and the exception is the one the conversion of one of its
    entries raises.  That is [IndexError], and then the start time of
    the entry has no colon, or the [ValueError] of [int] on the hour or
    the minute, or the [ValidationError] of the entry constructor. *)
Theorem apply_recommendations_raises_only (h : heap) p P R x h' :
  view h p = Some P ->
  apply_recommendations p R h = (Raise x, h') ->
  let basalprofile := AutotuneResult.basalprofile (AutotuneRecommendations.result R) in
  basalprofile <> []
  /\ (exists e,
        e ∈ basalprofile /\ convert_basal_entry e = Raise x
        /\ (x = IndexError -> no_colon (AutotuneBasalEntry.start e) = true))
  /\ (x = IndexError \/ (exists msg, x = ValueError msg)
      \/ (exists fields, x = ValidationError fields)).
Proof.
  intros Hview E basalprofile.
  pose proof (apply_recommendations_spec h p P R Hview) as Hs.
  unfold new_basal in Hs. fold basalprofile in Hs.
  destruct basalprofile as [|e0 es] eqn:Ebp.
  - destruct Hs as (p' & h1 & E1 & _). congruence.
  - destruct (convert_all (e0 :: es)) as [bs|x0] eqn:Ec.
    + destruct Hs as (p' & h1 & E1 & _). congruence.
    + destruct Hs as (h1 & E1 & _). rewrite E in E1. injection E1 as <- _.
      destruct (convert_all_Raise _ _ Ec) as (e & He & Hx).
      split_and!; [done | | by eapply convert_basal_entry_Raise].
      exists e. split_and!; [done | done |].
      intros ->. by apply convert_basal_entry_IndexError.
Qed.

Lemma apply_recommendations_raises_only_witness :
  exists h',
    apply_recommendations Fixtures.mock_profile Fixtures.rec_malformed Fixtures.mock_heap
    = (Raise IndexError, h')
    /\ exists e,
         e ∈ AutotuneResult.basalprofile
               (AutotuneRecommendations.result Fixtures.rec_malformed)
         /\ convert_basal_entry e = Raise IndexError
         /\ no_colon (AutotuneBasalEntry.start e) = true.
Proof.
  eexists.
  match goal with
  | |- ?call = (_, ?h') /\ _ =>
      assert (E : call = (Raise IndexError, h')) by (vm_compute; reflexivity)
  end.
  split; [exact E|].
  destruct (proj1 (proj2 (apply_recommendations_raises_only Fixtures.mock_heap
                            Fixtures.mock_profile Fixtures.mock_profile_store
                            Fixtures.rec_malformed IndexError _ eq_refl E)))
    as (e & He & Hx & Hc).
  exists e. split; [exact He|]. split; [exact Hx | exact (Hc eq_refl)].
Defined.
